(** * Asset valuation engine (Stage 3) of the trade-analysis pipeline

    A shallow embedding of [pipeline/stage3_cache_values.py] together with
    the parts of [pipeline/constants.py], [pipeline/pick_origin_mapping.py],
    [pipeline/config.py] and [pipeline/utils/validators.py] it depends on,
    and of the analysis of 2-team trades in [pipeline/stage4_final.py],
    which reads the table Stage 3 writes.

    Conventions of the embedding:
    - Python [str] is [string] (ASCII only); [int] is [Z].
    - Point values (the [value_2qb] column, projection cells) are [Z].
    - A [dict] is a [gmap]; a pandas [DataFrame] is the list of its rows.
    - Exceptions are the [Raise] constructor of [result].
    - The zero-value fraction and its threshold are exact fractions
      ([Q]); on batches of realistic size the comparison of the two
      floats decides the same way.
    - What the program obtains from outside the repository (the pandas
      pattern matcher, the network, the data files) is a [Variable] of
      the section that holds the orchestrator. *)

From Stdlib Require Import ZArith String Ascii List Lia Bool.
From Stdlib Require Import DecimalString DecimalN QArith.
From stdpp Require Import base option list sorting gmap strings.

Local Close Scope Q_scope.
Local Open Scope string_scope.
Local Open Scope list_scope.
Local Open Scope Z_scope.

(* ================================================================== *)
(** ** Exceptions and results *)
(* ================================================================== *)

(** The reasons [validate_stage3_output] raises [ValidationError]. *)
Inductive validation_failure :=
  | RequiredFileNotFound
  | NoCachedValues
  | TooManyZeroValues.

Inductive exn :=
  | APIError
  | ValidationError (why : validation_failure)
  | ValueError
  | IndexError
  | KeyError
  | OverflowError
  | FileNotFoundError.

Inductive result (A : Type) :=
  | Ok (a : A)
  | Raise (e : exn).
Arguments Ok {A} a.
Arguments Raise {A} e.

#[global] Instance result_ret : MRet result := fun A a => Ok a.
#[global] Instance result_bind : MBind result := fun A B k r =>
  match r with
  | Ok a => k a
  | Raise e => Raise e
  end.

(** [try: ... except: ...] around a computation. *)
Definition try_except {A} (r : result A) (handler : exn -> result A) : result A :=
  match r with
  | Ok a => Ok a
  | Raise e => handler e
  end.

Definition of_option {A} (o : option A) (e : exn) : result A :=
  match o with
  | Some a => Ok a
  | None => Raise e
  end.

(* ================================================================== *)
(** ** Python string primitives *)
(* ================================================================== *)

Module PyStr.

Definition is_digit (c : ascii) : bool :=
  let n := nat_of_ascii c in (48 <=? n)%nat && (n <=? 57)%nat.

(** [str.isspace] on the ASCII range: TAB..CR, FS..US and the space. *)
Definition is_space (c : ascii) : bool :=
  let n := nat_of_ascii c in
  ((9 <=? n)%nat && (n <=? 13)%nat) || ((28 <=? n)%nat && (n <=? 32)%nat).

(** The white space [int] skips: the C locale's [isspace]. *)
Definition is_c_space (c : ascii) : bool :=
  let n := nat_of_ascii c in
  ((9 <=? n)%nat && (n <=? 13)%nat) || (n =? 32)%nat.

Fixpoint lstrip_by (sp : ascii -> bool) (s : string) : string :=
  match s with
  | String c r => if sp c then lstrip_by sp r else s
  | EmptyString => EmptyString
  end.

(** A character is kept when it is not a space or when something that
    is kept follows it. *)
Fixpoint rstrip_by (sp : ascii -> bool) (s : string) : string :=
  match s with
  | EmptyString => EmptyString
  | String c r =>
      match rstrip_by sp r with
      | EmptyString => if sp c then EmptyString else String c EmptyString
      | r' => String c r'
      end
  end.

(** [s.strip()]. *)
Definition strip (s : string) : string :=
  rstrip_by is_space (lstrip_by is_space s).

(** [sub in s]. *)
Fixpoint contains_sub (sub s : string) : bool :=
  String.prefix sub s ||
  match s with
  | EmptyString => false
  | String _ r => contains_sub sub r
  end.

(** [s.replace(old, '')] for a non-empty [old]: occurrences are removed
    left to right and do not overlap; [skip] counts the characters of
    the occurrence being removed that are still to be dropped. *)
Fixpoint remove_go (old : string) (skip : nat) (s : string) : string :=
  match s with
  | EmptyString => EmptyString
  | String c r =>
      match skip with
      | S k => remove_go old k r
      | O =>
          if String.prefix old s
          then remove_go old (String.length old - 1) r
          else String c (remove_go old O r)
      end
  end.

Definition remove_all (old s : string) : string := remove_go old O s.

(** [s.split(sep)] for a non-empty [sep]. *)
Fixpoint split_go (sep : string) (skip : nat) (s : string) : list string :=
  match s with
  | EmptyString => [EmptyString]
  | String c r =>
      match skip with
      | S k => split_go sep k r
      | O =>
          if String.prefix sep s
          then EmptyString :: split_go sep (String.length sep - 1) r
          else match split_go sep O r with
               | h :: t => String c h :: t
               | [] => [String c EmptyString]
               end
      end
  end.

Definition split (sep s : string) : list string := split_go sep O s.

(** [s.split()]: maximal runs of non-space characters. *)
Fixpoint words_go (cur : string) (s : string) : list string :=
  match s with
  | EmptyString => match cur with EmptyString => [] | _ => [cur] end
  | String c r =>
      if is_space c
      then match cur with
           | EmptyString => words_go EmptyString r
           | _ => cur :: words_go EmptyString r
           end
      else words_go (cur +:+ String c EmptyString) r
  end.

Definition words (s : string) : list string := words_go EmptyString s.

(** Underscores are allowed in an [int] literal one at a time and only
    between digits; [digits_of prev s] drops them from [s], where
    [prev] tells whether a digit came just before. *)
Fixpoint digits_of (prev : bool) (s : string) : option string :=
  match s with
  | EmptyString => if prev then Some EmptyString else None
  | String c r =>
      if is_digit c then option_map (String c) (digits_of true r)
      else if Ascii.eqb c "_"
           then (if prev then digits_of false r else None)
           else None
  end.

Definition nat_literal (s : string) : option Z :=
  match digits_of false s with
  | Some ds =>
      match NilEmpty.uint_of_string ds with
      | Some u => Some (Z.of_N (N.of_uint u))
      | None => None
      end
  | None => None
  end.

(** [int(s)]: surrounding white space, an optional sign, decimal digits.
    [None] stands for [ValueError]. *)
Definition int (s : string) : option Z :=
  match rstrip_by is_c_space (lstrip_by is_c_space s) with
  | String "-" r => option_map Z.opp (nat_literal r)
  | String "+" r => nat_literal r
  | t => nat_literal t
  end.

(** [str(n)] and [f"{n}"] for an [int]. *)
Definition str (z : Z) : string :=
  let ds := NilEmpty.string_of_uint (N.to_uint (Z.to_N (Z.abs z))) in
  if z <? 0 then String "-" ds else ds.

(** [f"{n:02d}"]: zero-padded to width two, the sign counts. *)
Definition fmt02 (z : Z) : string :=
  if (0 <=? z) && (z <? 10) then String "0" (str z) else str z.

(** [f"{n:04d}"] for the year of [strftime]. *)
Definition fmt04 (z : Z) : string :=
  if z <? 0 then str z
  else if z <? 10 then "000" +:+ str z
  else if z <? 100 then "00" +:+ str z
  else if z <? 1000 then "0" +:+ str z
  else str z.

End PyStr.

(* ================================================================== *)
(** ** Dates: the part of [datetime] the pipeline uses *)
(* ================================================================== *)

(** Every [datetime] of the pipeline is a calendar day at midnight: it
    comes from [strptime(_, '%Y-%m-%d')], from [datetime(y, m, d)] or
    from adding whole days to one of these. *)
Record datetime := mk_datetime { year : Z; month : Z; day : Z }.

Module PyDate.

Definition is_leap (y : Z) : bool :=
  (y mod 4 =? 0) && (negb (y mod 100 =? 0) || (y mod 400 =? 0)).

Definition days_before_year (y : Z) : Z :=
  let p := y - 1 in p * 365 + p / 4 - p / 100 + p / 400.

Definition DAYS_IN_MONTH : list Z :=
  [31; 28; 31; 30; 31; 30; 31; 31; 30; 31; 30; 31].

Definition DAYS_BEFORE_MONTH : list Z :=
  [0; 31; 59; 90; 120; 151; 181; 212; 243; 273; 304; 334].

Definition days_in_month (y m : Z) : Z :=
  if (m =? 2) && is_leap y then 29
  else nth (Z.to_nat (m - 1)) DAYS_IN_MONTH 0.

Definition days_before_month (y m : Z) : Z :=
  nth (Z.to_nat (m - 1)) DAYS_BEFORE_MONTH 0
  + (if (2 <? m) && is_leap y then 1 else 0).

Definition ymd2ord (d : datetime) : Z :=
  days_before_year (year d) + days_before_month (year d) (month d) + day d.

Definition DI400Y : Z := 146097.
Definition DI100Y : Z := 36524.
Definition DI4Y : Z := 1461.
Definition MAXORDINAL : Z := 3652059.

Definition ord2ymd (ordinal : Z) : datetime :=
  let n := ordinal - 1 in
  let n400 := n / DI400Y in
  let n := n mod DI400Y in
  let y := n400 * 400 + 1 in
  let n100 := n / DI100Y in
  let n := n mod DI100Y in
  let n4 := n / DI4Y in
  let n := n mod DI4Y in
  let n1 := n / 365 in
  let n := n mod 365 in
  let y := y + n100 * 100 + n4 * 4 + n1 in
  if (n1 =? 4) || (n100 =? 4) then mk_datetime (y - 1) 12 31
  else
    let leapyear := (n1 =? 3) && (negb (n4 =? 24) || (n100 =? 3)) in
    let m := Z.shiftr (n + 50) 5 in
    let preceding :=
      nth (Z.to_nat (m - 1)) DAYS_BEFORE_MONTH 0
      + (if (2 <? m) && leapyear then 1 else 0) in
    if n <? preceding
    then
      let m' := m - 1 in
      let preceding' :=
        preceding
        - (nth (Z.to_nat (m' - 1)) DAYS_IN_MONTH 0
           + (if (m' =? 2) && leapyear then 1 else 0)) in
      mk_datetime y m' (n - preceding' + 1)
    else mk_datetime y m (n - preceding + 1).

(** [dt + timedelta(days=n)]; [None] is [OverflowError]. *)
Definition add_days (dt : datetime) (n : Z) : option datetime :=
  let o := ymd2ord dt + n in
  if (0 <? o) && (o <=? MAXORDINAL) then Some (ord2ymd o) else None.

(** [(a - b).days]. *)
Definition days_between (a b : datetime) : Z := ymd2ord a - ymd2ord b.

(** [a < b]. *)
Definition lt (a b : datetime) : bool :=
  (year a <? year b)
  || ((year a =? year b)
      && ((month a <? month b)
          || ((month a =? month b) && (day a <? day b)))).

Definition digit_val (c : ascii) : Z := Z.of_nat (nat_of_ascii c) - 48.

Definition in_range (lo hi c : ascii) : bool :=
  (nat_of_ascii lo <=? nat_of_ascii c)%nat
  && (nat_of_ascii c <=? nat_of_ascii hi)%nat.

(** The month directive: [1[0-2]|0[1-9]|[1-9]]. *)
Definition parse_month (s : string) : option (Z * string) :=
  match s with
  | String c1 r =>
      match r with
      | String c2 r' =>
          if Ascii.eqb c1 "1" && in_range "0" "2" c2
          then Some (10 + digit_val c2, r')
          else if Ascii.eqb c1 "0" && in_range "1" "9" c2
          then Some (digit_val c2, r')
          else if in_range "1" "9" c1 then Some (digit_val c1, r)
          else None
      | EmptyString =>
          if in_range "1" "9" c1 then Some (digit_val c1, r) else None
      end
  | EmptyString => None
  end.

(** The day directive: [3[0-1]|[1-2]\d|0[1-9]|[1-9]| [1-9]]. *)
Definition parse_day (s : string) : option (Z * string) :=
  match s with
  | String c1 r =>
      match r with
      | String c2 r' =>
          if Ascii.eqb c1 "3" && in_range "0" "1" c2
          then Some (30 + digit_val c2, r')
          else if in_range "1" "2" c1 && PyStr.is_digit c2
          then Some (10 * digit_val c1 + digit_val c2, r')
          else if Ascii.eqb c1 "0" && in_range "1" "9" c2
          then Some (digit_val c2, r')
          else if in_range "1" "9" c1 then Some (digit_val c1, r)
          else if Ascii.eqb c1 " " && in_range "1" "9" c2
          then Some (digit_val c2, r')
          else None
      | EmptyString =>
          if in_range "1" "9" c1 then Some (digit_val c1, r) else None
      end
  | EmptyString => None
  end.

(** [datetime.strptime(s, '%Y-%m-%d')]; [None] is [ValueError]. *)
Definition strptime (s : string) : option datetime :=
  match s with
  | String y1 (String y2 (String y3 (String y4 (String "-" r)))) =>
      if PyStr.is_digit y1 && PyStr.is_digit y2
         && PyStr.is_digit y3 && PyStr.is_digit y4
      then
        let y := 1000 * digit_val y1 + 100 * digit_val y2
                 + 10 * digit_val y3 + digit_val y4 in
        match parse_month r with
        | Some (m, String "-" r') =>
            match parse_day r' with
            | Some (d, EmptyString) =>
                if (1 <=? y) && (d <=? days_in_month y m)
                then Some (mk_datetime y m d)
                else None
            | _ => None
            end
        | _ => None
        end
      else None
  | _ => None
  end.

(** [dt.strftime('%Y-%m-%d')], the year zero-padded to four digits
    (the C library decides the padding of years below 1000). *)
Definition strftime (d : datetime) : string :=
  PyStr.fmt04 (year d) +:+ "-" +:+ PyStr.fmt02 (month d)
  +:+ "-" +:+ PyStr.fmt02 (day d).

End PyDate.

(* ================================================================== *)
(** ** [constants.py] *)
(* ================================================================== *)

Module PickTier.
Definition EARLY_FIRST : Z := 5430.
Definition MID_FIRST : Z := 2558.
Definition LATE_FIRST : Z := 1232.

Definition get_value (pick_in_round : Z) : Z :=
  if pick_in_round <=? 4 then EARLY_FIRST
  else if pick_in_round <=? 8 then MID_FIRST
  else LATE_FIRST.

Definition get_tier_name (pick_in_round : Z) : string :=
  if pick_in_round <=? 4 then "Early"
  else if pick_in_round <=? 8 then "Mid"
  else "Late".
End PickTier.

Definition DRAFT_COMPLETION_DATE : datetime := mk_datetime 2025 5 5.
Definition SEASON_START_DATE : datetime := mk_datetime 2025 9 3.

Definition FAAB_VALUE_PER_DOLLAR : Z := 1.

Module OutputFiles.
Definition ASSET_TRANSACTIONS : string := "asset_transactions.csv".
Definition ASSET_VALUES_CACHE : string := "asset_values_cache.csv".
End OutputFiles.

Definition MAX_ZERO_VALUE_PCT : Q := (1 # 10)%Q.
Definition GIT_COMMIT_SEARCH_DAYS : Z := 7.

Definition ROUND_ORDINALS : gmap Z string :=
  list_to_map [(1, "1st"); (2, "2nd"); (3, "3rd"); (4, "4th"); (5, "5th")].

(** The [validation] section of the configuration ([config.py]),
    restricted to the two fields Stage 3 reads. *)
Record ValidationConfig := {
  max_zero_value_pct : Q;
  git_commit_search_days : Z
}.

(** The values [constants.py] documents as the defaults. *)
Definition default_validation : ValidationConfig :=
  {| max_zero_value_pct := MAX_ZERO_VALUE_PCT;
     git_commit_search_days := GIT_COMMIT_SEARCH_DAYS |}.

(* ================================================================== *)
(** ** [pick_origin_mapping.py] *)
(* ================================================================== *)

Module PickOrigin.

Definition ROUND1_ORIGINS : list (Z * Z * string) :=
  [ (1, 1, "tylerpilgrim"); (1, 2, "wkerwin");
    (1, 3, "zachlearningtogolf"); (1, 4, "brevinowens");
    (1, 5, "jwalters74"); (1, 6, "donewton");
    (1, 7, "lndahayo"); (1, 8, "thekylecasey");
    (1, 9, "mgaeta23"); (1, 10, "cjsyregelas");
    (1, 11, "jakeduf"); (1, 12, "gnewman4") ].

(** Rounds 2 to 4 replicate the order of round 1 (linear draft). *)
Definition replicate_round (m : gmap (Z * Z) string) (round_num : Z)
  : gmap (Z * Z) string :=
  foldl (fun acc pick =>
           match acc !! (1, pick) with
           | Some o => <[(round_num, pick) := o]> acc
           | None => acc
           end) m (seqZ 1 12).

Definition EXPLICIT_ORIGINS : gmap (Z * Z) string :=
  foldl replicate_round (list_to_map ROUND1_ORIGINS) [2; 3; 4].

Definition get_pick_origin_owner (round_num pick_in_round : Z) : string :=
  match EXPLICIT_ORIGINS !! (round_num, pick_in_round) with
  | Some o => o
  | None =>
      "UNKNOWN_R" +:+ PyStr.str round_num +:+ "P" +:+ PyStr.str pick_in_round
  end.

End PickOrigin.

(* ================================================================== *)
(** ** Data model *)
(* ================================================================== *)

(** A cell of a column that holds names: [None], the [NaN] pandas reads
    from an empty CSV field, or a string. *)
Inductive cell :=
  | CNone
  | CNaN
  | CStr (s : string).

(** Python truthiness of such a cell: [NaN] is a non-zero float. *)
Definition truthy (c : cell) : bool :=
  match c with
  | CNone => false
  | CNaN => true
  | CStr s => negb (String.eqb s "")
  end.

(** A row of a value table ([values.csv]); a missing name is [None]. *)
Record ValueRow := {
  player : option string;
  value_2qb : Z
}.

(** A row of [sleeper_rookie_draft_2025.csv]. *)
Record DraftRow := {
  dr_pick : Z;
  dr_round : Z;
  dr_pick_in_round : Z;
  dr_owner : string;
  dr_player : string
}.

Record Lineage := {
  final_owner : string;
  pick_in_round : Z;
  lin_player : string;
  overall_pick : Z
}.

(** A row of the weekly projections: the team and, in column order, the
    cells of the other columns. *)
Record ProjRow := {
  team : string;
  cells : list (string * Z)
}.

(** A row of [asset_transactions.csv]. *)
Record AssetRow := {
  asset_name : string;
  asset_type : string;
  trade_date : string;
  trade_id : string;
  trade_type : option string;
  receiving_team : string;
  giving_team : string;
  origin_owner : cell
}.

(** Diagnostic dictionaries, in insertion order. *)
Inductive mval :=
  | MStr (s : string)
  | MInt (z : Z).

Definition meta := list (string * mval).

(** The [metadata] column: a text, or the [str()] of a dictionary, which
    is kept as the dictionary it renders. *)
Inductive meta_text :=
  | MetaText (s : string)
  | MetaDict (d : meta).

Record ValuationRecord := {
  r_asset_name : string;
  r_asset_type : string;
  r_trade_date : string;
  r_trade_id : string;
  r_trade_type : string;
  r_receiving_team : string;
  r_giving_team : string;
  r_origin_owner : cell;
  value_at_trade : Z;
  value_current : Z;
  value_source_at_trade : string;
  value_source_current : string;
  metadata : meta_text
}.

(** The files of the working directory, by what they hold. A CSV file
    written from a frame and read back is the list of its rows. *)
Inductive file :=
  | AssetsFile (rows : list AssetRow)
  | ValuesFile (recs : list ValuationRecord)
  | OtherFile.

Record world := {
  files : gmap string file;
  backups : list file
}.

(** What a valuator returns: value, source description, metadata. *)
Definition valuation : Type := Z * string * option meta.

(* ================================================================== *)
(** ** [stage3_cache_values.py] *)
(* ================================================================== *)

Definition py_max (l : list Z) : option Z :=
  match l with
  | [] => None
  | x :: r => Some (fold_left Z.max r x)
  end.

Definition py_min (l : list Z) : option Z :=
  match l with
  | [] => None
  | x :: r => Some (fold_left Z.min r x)
  end.

(** [re.match(f'Week(\d+)_2026_{round_name}', col)] followed by
    [int(match.group(1))]: the pattern is anchored at the start of the
    column name only. *)
Fixpoint take_digits (s : string) : string * string :=
  match s with
  | String c r =>
      if PyStr.is_digit c
      then let (ds, rest) := take_digits r in (String c ds, rest)
      else (EmptyString, s)
  | EmptyString => (EmptyString, EmptyString)
  end.

Definition match_week_column (round_name col : string) : option Z :=
  match col with
  | String "W" (String "e" (String "e" (String "k" r))) =>
      let (ds, rest) := take_digits r in
      match ds with
      | EmptyString => None
      | _ =>
          if String.prefix ("_2026_" +:+ round_name) rest
          then PyStr.int ds
          else None
      end
  | _ => None
  end.

Definition week_column (week : Z) (round_name : string) : string :=
  "Week" +:+ PyStr.str week +:+ "_2026_" +:+ round_name.

(** The columns of a projections frame other than [Team], which the
    week pattern never matches. *)
Definition columns (team_row : list ProjRow) : list string :=
  match team_row with
  | r :: _ => map fst (cells r)
  | [] => []
  end.

Definition get_available_weeks (team_row : list ProjRow) (round_name : string)
  : list Z :=
  merge_sort Z.le (omap (match_week_column round_name) (columns team_row)).

Definition get_best_week_column (team_row : list ProjRow) (round_name : string)
    (target_week : Z) : result (string * Z) :=
  let available_weeks := get_available_weeks team_row round_name in
  match available_weeks with
  | [] => Raise ValueError
  | _ =>
      let selected_week :=
        if existsb (Z.eqb target_week) available_weeks
        then target_week
        else if existsb (fun w => w <=? target_week) available_weeks
        then default 0 (py_max (List.filter (fun w => w <=? target_week)
                                          available_weeks))
        else default 0 (py_min available_weeks) in
      Ok (week_column selected_week round_name, selected_week)
  end.

Definition get_latest_week_column (team_row : list ProjRow) (round_name : string)
  : result (string * Z) :=
  let available_weeks := get_available_weeks team_row round_name in
  match py_max available_weeks with
  | None => Raise ValueError
  | Some latest_week => Ok (week_column latest_week round_name, latest_week)
  end.

(** [team_row.iloc[0][column_name]]. *)
Definition cell_value (team_row : list ProjRow) (column_name : string)
  : result Z :=
  match team_row with
  | r :: _ =>
      match find (fun kv => String.eqb (fst kv) column_name) (cells r) with
      | Some kv => Ok (snd kv)
      | None => Raise KeyError
      end
  | [] => Raise IndexError
  end.

(** [int(pick_name.split('Round')[1].strip())]; [None] is any exception,
    all of which the caller catches. *)
Definition parse_round (pick_name : string) : option Z :=
  match PyStr.split "Round" pick_name with
  | _ :: seg :: _ => PyStr.int (PyStr.strip seg)
  | _ => None
  end.

(** [f"{round_num}.{pick_in_round:02d}"]. *)
Definition pick_position (round_num slot : Z) : string :=
  PyStr.str round_num +:+ "." +:+ PyStr.fmt02 slot.

(** [f"2025 Pick {round_num}.{pick_in_round:02d}"]. *)
Definition exact_pick_name (round_num slot : Z) : string :=
  "2025 Pick " +:+ pick_position round_num slot.

(** The label Stage 2 gives a traded pick: [f"{season} Round {round_num}"]. *)
Definition pick_label (season round_num : Z) : string :=
  PyStr.str season +:+ " Round " +:+ PyStr.str round_num.

(** The label Stage 2 gives a FAAB amount: [f"${amount} FAAB"]. *)
Definition faab_label (amount : Z) : string :=
  "$" +:+ PyStr.str amount +:+ " FAAB".

(** [ROUND_ORDINALS.get(round_num, f'{round_num}th')], the default built
    from the text the round was read from. *)
Definition ordinal_or_th (round_num : Z) (round_text : string) : string :=
  default (round_text +:+ "th") (ROUND_ORDINALS !! round_num).

Definition truthy_str (o : option string) : bool :=
  match o with
  | Some s => negb (String.eqb s "")
  | None => false
  end.

(** Every character of [s] satisfies [p]. *)
Fixpoint all_chars (p : ascii -> bool) (s : string) : bool :=
  match s with
  | String c r => p c && all_chars p r
  | EmptyString => true
  end.

Definition digit_or_minus (c : ascii) : bool :=
  PyStr.is_digit c || Ascii.eqb c "-".

(* ================================================================== *)
(** ** More of [pick_origin_mapping.py] and [config.py] *)
(* ================================================================== *)

Module PickRoster.

Definition ROSTER_TO_OWNER_ITEMS : list (Z * string) :=
  [ (1, "lndahayo"); (2, "brevinowens"); (3, "cjsyregelas");
    (4, "gnewman4"); (5, "zachlearningtogolf"); (6, "thekylecasey");
    (7, "jwalters74"); (8, "tylerpilgrim"); (9, "mgaeta23");
    (10, "jakeduf"); (11, "wkerwin"); (12, "donewton") ].

Definition ROSTER_TO_OWNER : gmap Z string :=
  list_to_map ROSTER_TO_OWNER_ITEMS.

(** [{v: k for k, v in ROSTER_TO_OWNER.items()}]. *)
Definition OWNER_TO_ROSTER : gmap string Z :=
  foldl (fun m kv => <[snd kv := fst kv]> m) ∅ ROSTER_TO_OWNER_ITEMS.

Definition get_pick_origin_roster (round_num pick_in_round : Z) : Z :=
  default 0
    (OWNER_TO_ROSTER
       !! PickOrigin.get_pick_origin_owner round_num pick_in_round).

End PickRoster.

(** [TierValues] and [PipelineConfig.get_tier_value] of [config.py]. *)
Record TierValues := {
  early_first : Z;
  mid_first : Z;
  late_first : Z
}.

Definition get_tier_value (tiers : TierValues) (pick_in_round : Z) : Z :=
  if pick_in_round <=? 4 then early_first tiers
  else if pick_in_round <=? 8 then mid_first tiers
  else late_first tiers.

(** The entry [PICK_LINEAGE] keeps of a draft row, and the key it is
    filed under. *)
Definition lineage_entry (row : DraftRow) : Lineage :=
  {| final_owner := dr_owner row;
     pick_in_round := dr_pick_in_round row;
     lin_player := dr_player row;
     overall_pick := dr_pick row |}.

Definition lineage_key (row : DraftRow) : string * Z :=
  (PickOrigin.get_pick_origin_owner (dr_round row) (dr_pick_in_round row),
   dr_round row).

(* ================================================================== *)
(** ** [stage4_final.py]: the analysis of 2-team trades *)
(* ================================================================== *)

Module Stage4.

(** The dictionary kept per trade while the cached values are read. *)
Record trade := {
  t_trade_date : string;
  roster_a : option string;
  roster_b : option string;
  team_a_assets : list string;
  team_a_value_then : Z;
  team_a_value_now : Z;
  team_b_assets : list string;
  team_b_value_then : Z;
  team_b_value_now : Z
}.

Definition new_trade (row : ValuationRecord) : trade :=
  {| t_trade_date := r_trade_date row;
     roster_a := None; roster_b := None;
     team_a_assets := []; team_a_value_then := 0; team_a_value_now := 0;
     team_b_assets := []; team_b_value_then := 0; team_b_value_now := 0 |}.

(** The first row of a trade names its two rosters. *)
Definition name_rosters (t : trade) (row : ValuationRecord) : trade :=
  match roster_a t with
  | None =>
      {| t_trade_date := t_trade_date t;
         roster_a := Some (r_receiving_team row);
         roster_b := Some (r_giving_team row);
         team_a_assets := team_a_assets t;
         team_a_value_then := team_a_value_then t;
         team_a_value_now := team_a_value_now t;
         team_b_assets := team_b_assets t;
         team_b_value_then := team_b_value_then t;
         team_b_value_now := team_b_value_now t |}
  | Some _ => t
  end.

(** A row goes to team A when roster A receives it, to team B
    otherwise. *)
Definition add_asset (t0 : trade) (row : ValuationRecord) : trade :=
  let t := name_rosters t0 row in
  if bool_decide (Some (r_receiving_team row) = roster_a t)
  then
    {| t_trade_date := t_trade_date t;
       roster_a := roster_a t; roster_b := roster_b t;
       team_a_assets := team_a_assets t ++ [r_asset_name row];
       team_a_value_then := team_a_value_then t + value_at_trade row;
       team_a_value_now := team_a_value_now t + value_current row;
       team_b_assets := team_b_assets t;
       team_b_value_then := team_b_value_then t;
       team_b_value_now := team_b_value_now t |}
  else
    {| t_trade_date := t_trade_date t;
       roster_a := roster_a t; roster_b := roster_b t;
       team_a_assets := team_a_assets t;
       team_a_value_then := team_a_value_then t;
       team_a_value_now := team_a_value_now t;
       team_b_assets := team_b_assets t ++ [r_asset_name row];
       team_b_value_then := team_b_value_then t + value_at_trade row;
       team_b_value_now := team_b_value_now t + value_current row |}.

(** [trades]: a dictionary in insertion order. *)
Definition trade_of (trade_id : string) (trades : list (string * trade))
  : option trade :=
  snd <$> find (fun kv => String.eqb (fst kv) trade_id) trades.

Fixpoint update_trade (trade_id : string) (f : trade -> trade)
    (trades : list (string * trade)) : list (string * trade) :=
  match trades with
  | [] => []
  | (k, t) :: rest =>
      if String.eqb k trade_id
      then (k, f t) :: rest
      else (k, t) :: update_trade trade_id f rest
  end.

(** The body of the loop over the rows. *)
Definition add_row (trades : list (string * trade)) (row : ValuationRecord)
  : list (string * trade) :=
  let trade_id := r_trade_id row in
  let trades :=
    match trade_of trade_id trades with
    | None => trades ++ [(trade_id, new_trade row)]
    | Some _ => trades
    end in
  update_trade trade_id (fun t => add_asset t row) trades.

Definition collect_trades (df_cache : list ValuationRecord)
  : list (string * trade) :=
  foldl add_row [] df_cache.

(** [' | '.join(assets)]. *)
Fixpoint join (sep : string) (l : list string) : string :=
  match l with
  | [] => ""
  | [x] => x
  | x :: rest => x +:+ sep +:+ join sep rest
  end.

(** A row of the analysis. *)
Record analysis := {
  a_trade_date : string;
  transaction_id : string;
  team_a : option string;
  team_a_received : string;
  a_value_then : Z;
  a_value_now : Z;
  a_value_change : Z;
  team_b : option string;
  team_b_received : string;
  b_value_then : Z;
  b_value_now : Z;
  b_value_change : Z;
  winner_at_trade : option string;
  winner_current : option string;
  margin_at_trade : Z;
  margin_current : Z;
  swing_winner : option string;
  swing_margin : Z
}.

Definition analyse (kv : string * trade) : analysis :=
  let t := snd kv in
  let winner_then :=
    if team_b_value_then t <? team_a_value_then t
    then roster_a t else roster_b t in
  let winner_now :=
    if team_b_value_now t <? team_a_value_now t
    then roster_a t else roster_b t in
  let margin_swing :=
    if team_b_value_then t <? team_a_value_then t
    then (team_a_value_now t - team_b_value_now t)
         - (team_a_value_then t - team_b_value_then t)
    else (team_b_value_now t - team_a_value_now t)
         - (team_b_value_then t - team_a_value_then t) in
  {| a_trade_date := t_trade_date t;
     transaction_id := fst kv;
     team_a := roster_a t;
     team_a_received := join " | " (team_a_assets t);
     a_value_then := team_a_value_then t;
     a_value_now := team_a_value_now t;
     a_value_change := team_a_value_now t - team_a_value_then t;
     team_b := roster_b t;
     team_b_received := join " | " (team_b_assets t);
     b_value_then := team_b_value_then t;
     b_value_now := team_b_value_now t;
     b_value_change := team_b_value_now t - team_b_value_then t;
     winner_at_trade := winner_then;
     winner_current := winner_now;
     margin_at_trade := Z.abs (team_a_value_then t - team_b_value_then t);
     margin_current := Z.abs (team_a_value_now t - team_b_value_now t);
     swing_winner := if margin_swing =? 0 then Some "Tie" else winner_now;
     swing_margin := Z.abs margin_swing |}.

(** Descending in the swing margin. *)
Definition by_swing (x y : analysis) : Prop :=
  swing_margin y <= swing_margin x.

#[global] Instance by_swing_dec : RelDecision by_swing :=
  fun x y => decide (swing_margin y <= swing_margin x).

(** [analyze_2team_trades]. Sorting a frame without rows, hence without
    a [swing_margin] column, raises [KeyError]. The sort is pandas' own;
    which of two rows of equal swing margin comes first is not part of
    what is stated about it. *)
Definition analyze_2team_trades (df_cache : list ValuationRecord)
  : result (list analysis) :=
  match map analyse (collect_trades df_cache) with
  | [] => Raise KeyError
  | results => Ok (merge_sort by_swing results)
  end.

(** What [validate_stage4_output] finds in the rows of the analysis. *)
Inductive verdict :=
  | Passed
  | NoTradesAnalyzed
  | MarginError (transaction : string).

(** [abs(calc_margin_then - row['margin_at_trade']) > 0.1]. *)
Definition margin_off (row : analysis) : bool :=
  negb (Qle_bool
          (inject_Z (Z.abs (Z.abs (a_value_then row - b_value_then row)
                            - margin_at_trade row)))
          (1 # 10)%Q).

(** [validate_stage4_output] on the rows read back: the margin of the
    first five rows is recomputed. *)
Definition validate_stage4_output (df : list analysis) : verdict :=
  match df with
  | [] => NoTradesAnalyzed
  | _ =>
      match find margin_off (firstn 5 df) with
      | Some row => MarginError (transaction_id row)
      | None => Passed
      end
  end.

End Stage4.

(** The sum of a column over rows. *)
Definition total {A} (f : A -> Z) (l : list A) : Z :=
  fold_right Z.add 0 (map f l).

(* ================================================================== *)
(** ** Fixtures: the data of [tests/conftest.py] *)
(* ================================================================== *)

Module Fixture.

Definition lower (c : ascii) : ascii :=
  let n := nat_of_ascii c in
  if (65 <=? n)%nat && (n <=? 90)%nat then ascii_of_nat (n + 32) else c.

Fixpoint lower_str (s : string) : string :=
  match s with
  | String c r => String (lower c) (lower_str r)
  | EmptyString => EmptyString
  end.

(** Case-insensitive search of a literal text: what the pandas matcher
    computes for a pattern without regular-expression operators. *)
Definition contains_ci (pat text : string) : bool :=
  PyStr.contains_sub (lower_str pat) (lower_str text).

Definition value_row (name : string) (v : Z) : ValueRow :=
  {| player := Some name; value_2qb := v |}.

Definition mock_dynasty_values : list ValueRow :=
  [ value_row "Patrick Mahomes" 10000;
    value_row "Josh Allen" 9500;
    value_row "Justin Jefferson" 8000;
    value_row "2025 Pick 1.01" 5430;
    value_row "2025 Pick 1.05" 2558;
    value_row "2025 Pick 1.10" 1232;
    value_row "2026 1st" 2500;
    value_row "Brock Bowers" 3500 ].

(** A table without pick entries. *)
Definition players_only : list ValueRow :=
  [ value_row "Patrick Mahomes" 10000;
    value_row "Justin Jefferson" 8000;
    value_row "Brock Bowers" 3500 ].

Definition mock_draft_results : list DraftRow :=
  [ {| dr_pick := 1; dr_round := 1; dr_pick_in_round := 1;
       dr_owner := "Manager A"; dr_player := "Caleb Williams" |};
    {| dr_pick := 2; dr_round := 1; dr_pick_in_round := 2;
       dr_owner := "Manager B"; dr_player := "Marvin Harrison Jr" |};
    {| dr_pick := 5; dr_round := 1; dr_pick_in_round := 5;
       dr_owner := "Manager A"; dr_player := "Brock Bowers" |} ].

Definition mock_pick_projections : list ProjRow :=
  [ {| team := "Manager A";
       cells := [ ("Week2_2026_1st", 3500); ("Week7_2026_1st", 2800);
                  ("Week7_2026_2nd", 800); ("Week7_2026_3rd", 300);
                  ("Week7_2026_4th", 100) ] |};
    {| team := "Manager B";
       cells := [ ("Week2_2026_1st", 4500); ("Week7_2026_1st", 5200);
                  ("Week7_2026_2nd", 1200); ("Week7_2026_3rd", 450);
                  ("Week7_2026_4th", 150) ] |} ].

(** A team with projections for weeks 7 and 12 only. *)
Definition sparse_projections : list ProjRow :=
  [ {| team := "Manager A";
       cells := [ ("Week7_2026_2nd", 800); ("Week12_2026_2nd", 950) ] |} ].

Definition asset (name type date : string) (origin : cell) : AssetRow :=
  {| asset_name := name; asset_type := type; trade_date := date;
     trade_id := "trade_001"; trade_type := Some "2-team";
     receiving_team := "Manager A"; giving_team := "Manager B";
     origin_owner := origin |}.

Definition jefferson : AssetRow :=
  asset "Justin Jefferson" "player" "2024-01-01" CNaN.

Definition mahomes : AssetRow :=
  asset "Patrick Mahomes" "player" "2025-10-20" CNaN.

(** The first-round pick that became Brock Bowers (slot 1.05). *)
Definition bowers_pick (date : string) : AssetRow :=
  asset "2025 Round 1" "pick" date (CStr "jwalters74").

Definition faab50 : AssetRow := asset "$50 FAAB" "faab" "2025-10-20" CNaN.

(** The earliest of the dates that parse; none when one does not. *)
Fixpoint earliest (dates : list string) : option datetime :=
  match dates with
  | [] => None
  | d :: rest =>
      match PyDate.strptime d, rest with
      | Some dt, [] => Some dt
      | Some dt, _ =>
          match earliest rest with
          | Some m => Some (if PyDate.lt m dt then m else dt)
          | None => None
          end
      | None, _ => None
      end
  end.

(** A history with one snapshot, taken on 2025-10-18. *)
Definition one_commit (since : datetime) : option (list (string * string)) :=
  Some [("2025-10-18", "abc1234def")].

Definition no_commits (since : datetime) : option (list (string * string)) :=
  Some [].

Definition snapshot (sha : string) : option (list ValueRow) :=
  if String.eqb sha "abc1234def" then Some mock_dynasty_values else None.

Definition unreachable (sha : string) : option (list ValueRow) := None.

Definition workdir (rows : list AssetRow) : gmap string file :=
  list_to_map
    [ ("asset_transactions.csv", AssetsFile rows);
      ("weekly_2026_pick_projections_expanded.csv", OtherFile);
      ("sleeper_rookie_draft_2025.csv", OtherFile);
      ("pick_origin_mapping.py", OtherFile) ].

(** A frame whose only week column writes the week with a leading
    zero. *)
Definition padded_projections : list ProjRow :=
  [ {| team := "Manager A"; cells := [ ("Week07_2026_2nd", 800) ] |} ].

Definition faab0 : AssetRow := asset "$0 FAAB" "faab" "2025-10-20" CNaN.



(** A configuration that searches no day around the trade date. *)
Definition no_window : ValidationConfig :=
  {| max_zero_value_pct := MAX_ZERO_VALUE_PCT;
     git_commit_search_days := 0 |}.

(** The cached values of [tests/conftest.py]. *)
Definition mock_cached_values : list ValuationRecord :=
  [ {| r_asset_name := "Justin Jefferson"; r_asset_type := "player";
       r_trade_date := "2024-01-01"; r_trade_id := "1001";
       r_trade_type := "2-team";
       r_receiving_team := "Manager A"; r_giving_team := "Manager B";
       r_origin_owner := CNone;
       value_at_trade := 7500; value_current := 8000;
       value_source_at_trade := "Git:abc1234";
       value_source_current := "DynastyProcess";
       metadata := MetaText "" |};
    {| r_asset_name := "2025 Round 1"; r_asset_type := "pick";
       r_trade_date := "2024-01-01"; r_trade_id := "1001";
       r_trade_type := "2-team";
       r_receiving_team := "Manager B"; r_giving_team := "Manager A";
       r_origin_owner := CStr "Manager B";
       value_at_trade := 5430; value_current := 3500;
       value_source_at_trade := "Tier:Early 1st";
       value_source_current := "Player:Brock Bowers";
       metadata := MetaDict [("tier", MStr "Early")] |} ].

Definition cached (id name receiver giver : string) (v_then v_now : Z)
  : ValuationRecord :=
  {| r_asset_name := name; r_asset_type := "player";
     r_trade_date := "2025-10-20"; r_trade_id := id;
     r_trade_type := "2-team";
     r_receiving_team := receiver; r_giving_team := giver;
     r_origin_owner := CNone;
     value_at_trade := v_then; value_current := v_now;
     value_source_at_trade := "Git:abc1234";
     value_source_current := "DynastyProcess";
     metadata := MetaText "" |}.

(** The cached values with a second trade, in which a third roster
    receives a row. *)
Definition two_trades : list ValuationRecord :=
  mock_cached_values
  ++ [ cached "1002" "Josh Allen" "Manager C" "Manager D" 9500 9000;
       cached "1002" "Patrick Mahomes" "Manager D" "Manager C" 50 50;
       cached "1002" "Brock Bowers" "Manager E" "Manager C" 3500 4000 ].

End Fixture.

Section Stage3.

(** [Series.str.contains(pat, case=False, na=False)] on one non-missing
    cell: [str_contains pat text]. The patterns are taken to be valid
    regular expressions. *)
Variable str_contains : string -> string -> bool.

(** The two data files read when the module is loaded. *)
Variable PICK_PROJECTIONS : list ProjRow.
Variable DRAFT_RESULTS : list DraftRow.

Variable config : ValidationConfig.

(** [pd.read_csv] of the current value table; [None] is a failure. *)
Variable read_current_values : option (list ValueRow).

(** [pd.to_datetime(column).min()]; [None] when it raises or yields no
    date. *)
Variable earliest_trade_date : list string -> option datetime.

(** The commit listing of the value source since a date, as pairs of
    commit day and SHA in the order received; [None] is [APIError]. *)
Variable github_commits : datetime -> option (list (string * string)).

(** [pd.read_csv] of the value table at a commit; [None] is a failure. *)
Variable read_values_at : string -> option (list ValueRow).

(** *** The pick lineage *)

Definition add_lineage (m : gmap (string * Z) (list Lineage)) (row : DraftRow)
  : gmap (string * Z) (list Lineage) :=
  let origin :=
    PickOrigin.get_pick_origin_owner (dr_round row) (dr_pick_in_round row) in
  let key := (origin, dr_round row) in
  <[key := default [] (m !! key)
           ++ [ {| final_owner := dr_owner row;
                   pick_in_round := dr_pick_in_round row;
                   lin_player := dr_player row;
                   overall_pick := dr_pick row |} ]]> m.

Definition PICK_LINEAGE : gmap (string * Z) (list Lineage) :=
  foldl add_lineage ∅ DRAFT_RESULTS.

(** [PICK_LINEAGE.get((origin_owner, round_num), [])]. *)
Definition lineage_of (origin : cell) (round_num : Z) : list Lineage :=
  match origin with
  | CStr o => default [] (PICK_LINEAGE !! (o, round_num))
  | _ => []
  end.

(** *** Value tables *)

(** [df[df['player'].str.contains(pat, case=False, na=False)]]. *)
Definition name_matches (pat : string) (r : ValueRow) : bool :=
  match player r with
  | Some name => str_contains pat name
  | None => false
  end.

Definition matching (pat : string) (df : list ValueRow) : list ValueRow :=
  List.filter (name_matches pat) df.

(** [PICK_PROJECTIONS[PICK_PROJECTIONS['Team'] == origin_owner]]. *)
Definition team_rows (origin : cell) : list ProjRow :=
  match origin with
  | CStr o => List.filter (fun r => String.eqb (team r) o) PICK_PROJECTIONS
  | _ => []
  end.

Definition get_all_commits_since (since_date : datetime) : gmap string string :=
  match github_commits since_date with
  | Some (c :: cs) =>
      foldl (fun m kv => <[fst kv := snd kv]> m) ∅ (c :: cs)
  | _ => ∅
  end.

Definition get_values_from_commit (commit_sha : string)
    (cache : gmap string (list ValueRow))
  : option (list ValueRow) * gmap string (list ValueRow) :=
  match cache !! commit_sha with
  | Some df => (Some df, cache)
  | None =>
      match read_values_at commit_sha with
      | Some df => (Some df, <[commit_sha := df]> cache)
      | None => (None, cache)
      end
  end.

(** *** The valuators *)

Definition player_valuation (player : string) (df_values : list ValueRow)
    (found_source : string) (found_meta : option meta) : valuation :=
  match matching player df_values with
  | m :: _ => (value_2qb m, found_source, found_meta)
  | [] => (0, "Player not found:" +:+ player, None)
  end.

Definition get_2025_pick_value (pick_name : string) (origin : cell)
    (trade_date : string) (df_values : list ValueRow) (is_current : bool)
  : result valuation :=
  match parse_round pick_name with
  | None => Ok (0, "Parse error", None)
  | Some round_num =>
      trade_dt ← of_option (PyDate.strptime trade_date) ValueError;
      match lineage_of origin round_num with
      | [] => Ok (0, "No lineage", None)
      | lineage :: _ =>
          let player := lin_player lineage in
          let slot := pick_in_round lineage in
          if PyDate.lt trade_dt DRAFT_COMPLETION_DATE
          then
            if is_current
            then
              Ok (player_valuation player df_values
                    ("Player:" +:+ player)
                    (Some [("player", MStr player);
                           ("pick_position",
                            MStr (pick_position round_num slot))]))
            else
              let exact_pick := exact_pick_name round_num slot in
              match matching exact_pick df_values with
              | m :: _ =>
                  Ok (value_2qb m, "Git:" +:+ exact_pick,
                      Some [("pick_exact", MStr exact_pick)])
              | [] =>
                  if round_num =? 1
                  then
                    let tier_value := PickTier.get_value slot in
                    let tier_name := PickTier.get_tier_name slot in
                    Ok (tier_value, "Tier:" +:+ tier_name +:+ " 1st",
                        Some [("tier", MStr tier_name);
                              ("pick_position",
                               MStr (pick_position round_num slot))])
                  else
                    let ordinal :=
                      ordinal_or_th round_num (PyStr.str round_num) in
                    let search := "2026 " +:+ ordinal in
                    match matching search df_values with
                    | m :: _ =>
                        Ok (value_2qb m, "Fallback:Generic " +:+ ordinal, None)
                    | [] => Ok (0, "Not found", None)
                    end
              end
          else
            Ok (player_valuation player df_values
                  ("Player:" +:+ player +:+ " (post-draft)")
                  (Some [("player", MStr player)]))
      end
  end.

Definition cell_meta (c : cell) : mval :=
  match c with
  | CStr s => MStr s
  | CNaN => MStr "nan"
  | CNone => MStr "None"
  end.

(** The week of the season a trade falls in, never below 2. *)
Definition target_week (trade_dt : datetime) : Z :=
  let days := PyDate.days_between trade_dt SEASON_START_DATE in
  Z.max 2 (days / 7 + 1).

(** A [ValueError] of the column discovery is swallowed; the valuator
    goes on to the generic values. *)
Definition swallow_value_error (r : result (option valuation))
  : result (option valuation) :=
  try_except r (fun e => match e with
                         | ValueError => Ok None
                         | _ => Raise e
                         end).

(** 2026 picks with team projections. *)
Definition projection_2026 (pick_name : string) (origin : cell)
    (trade_dt : datetime) (round_text : string) : result (option valuation) :=
  if PyStr.contains_sub "2026" pick_name && truthy origin
  then
    let week := target_week trade_dt in
    round_num ← of_option (PyStr.int round_text) ValueError;
    match ROUND_ORDINALS !! round_num with
    | Some round_name =>
        let team_row := team_rows origin in
        match team_row with
        | [] => Ok None
        | _ =>
            swallow_value_error
              (sel ← get_best_week_column team_row round_name week;
               value ← cell_value team_row (fst sel);
               Ok (Some (value,
                         "Projection:Week" +:+ PyStr.str (snd sel)
                           +:+ "_" +:+ round_name,
                         Some [("week", MInt (snd sel));
                               ("target_week", MInt week);
                               ("origin", cell_meta origin);
                               ("round", MStr round_name);
                               ("column_used", MStr (fst sel))])))
        end
    | None => Ok None
    end
  else Ok None.

(** 2027 and 2028 picks: the latest 2026 projection as a proxy. *)
Definition projection_later (pick_name : string) (origin : cell)
    (round_text : string) : result (option valuation) :=
  if (PyStr.contains_sub "2027" pick_name
      || PyStr.contains_sub "2028" pick_name) && truthy origin
  then
    round_num ← of_option (PyStr.int round_text) ValueError;
    match ROUND_ORDINALS !! round_num with
    | Some round_name =>
        let team_row := team_rows origin in
        match team_row with
        | [] => Ok None
        | _ =>
            swallow_value_error
              (sel ← get_latest_week_column team_row round_name;
               value ← cell_value team_row (fst sel);
               Ok (Some (value,
                         "Projection:Week" +:+ PyStr.str (snd sel)
                           +:+ "_2026_" +:+ round_name,
                         Some [("origin", cell_meta origin);
                               ("round", MStr round_name);
                               ("latest_week_used", MInt (snd sel));
                               ("column_used", MStr (fst sel))])))
        end
    | None => Ok None
    end
  else Ok None.

Definition get_2026_plus_pick_value (pick_name : string) (origin : cell)
    (trade_date : string) (df_values : list ValueRow) : result valuation :=
  trade_dt ← of_option (PyDate.strptime trade_date) ValueError;
  match PyStr.words pick_name with
  | year_text :: w :: round_text :: _ =>
      if String.eqb w "Round"
      then
        p26 ← projection_2026 pick_name origin trade_dt round_text;
        match p26 with
        | Some v => Ok v
        | None =>
            later ← projection_later pick_name origin round_text;
            match later with
            | Some v => Ok v
            | None =>
                round_num ← of_option (PyStr.int round_text) ValueError;
                let ordinal := ordinal_or_th round_num round_text in
                let search := year_text +:+ " " +:+ ordinal in
                match matching search df_values with
                | m :: _ =>
                    Ok (value_2qb m, "Fallback:Generic:" +:+ search, None)
                | [] => Ok (0, "Not found", None)
                end
            end
        end
      else Ok (0, "Parse error", None)
  | _ => Ok (0, "Parse error", None)
  end.

(** *** The orchestrator *)

(** One of the two day-by-day searches: [sign] is [-1] to look
    backwards and [1] to look forwards. The first day that is a key of
    the commit map ends the search. *)
Fixpoint search_days (commit_cache : gmap string string) (trade_dt : datetime)
    (sign : Z) (deltas : list Z) : result (option string) :=
  match deltas with
  | [] => Ok None
  | delta :: rest =>
      d ← of_option (PyDate.add_days trade_dt (sign * delta)) OverflowError;
      match commit_cache !! PyDate.strftime d with
      | Some sha => Ok (Some sha)
      | None => search_days commit_cache trade_dt sign rest
      end
  end.

(** [range(1, config.validation.git_commit_search_days + 1)]. *)
Definition search_range : list Z := seqZ 1 (git_commit_search_days config).

(** The closest commit: the value of [commit_sha] after the searches. *)
Definition closest_commit (commit_cache : gmap string string)
    (trade_date : string) : result (option string) :=
  let commit_sha := commit_cache !! trade_date in
  if truthy_str commit_sha then Ok commit_sha
  else
    trade_dt ← of_option (PyDate.strptime trade_date) ValueError;
    found ← search_days commit_cache trade_dt (-1) search_range;
    let commit_sha :=
      match found with Some s => Some s | None => commit_sha end in
    if truthy_str commit_sha then Ok commit_sha
    else
      found ← search_days commit_cache trade_dt 1 search_range;
      Ok (match found with Some s => Some s | None => commit_sha end).

(** [df_hist]: the table of the closest commit, if there is a commit
    and its table can be read. *)
Definition historical_values (commit_sha : option string)
    (cache : gmap string (list ValueRow))
  : option (list ValueRow) * gmap string (list ValueRow) :=
  if truthy_str commit_sha
  then get_values_from_commit (default "" commit_sha) cache
  else (None, cache).

(** What the valuation of one asset yields. *)
Record valued := {
  v_at_trade : Z;
  v_current : Z;
  v_source_at_trade : string;
  v_source_current : string;
  v_meta_at_trade : option meta;
  v_meta_current : option meta
}.

Definition mk_valued (at_trade current : valuation) : valued :=
  {| v_at_trade := at_trade.1.1;
     v_current := current.1.1;
     v_source_at_trade := at_trade.1.2;
     v_source_current := current.1.2;
     v_meta_at_trade := at_trade.2;
     v_meta_current := current.2 |}.

(** "Determine value based on asset type", for a row that is not FAAB. *)
Definition value_asset (row : AssetRow) (commit_sha : option string)
    (df_hist : option (list ValueRow)) (df_current : list ValueRow)
  : result valued :=
  let name := asset_name row in
  let origin := origin_owner row in
  if String.eqb (asset_type row) "pick"
  then
    if PyStr.contains_sub "2025 Round" name && truthy origin
    then
      let df_for_at_trade := default df_current df_hist in
      at_trade ← get_2025_pick_value name origin (trade_date row)
                   df_for_at_trade false;
      current ← get_2025_pick_value name origin (trade_date row)
                  df_current true;
      Ok (mk_valued at_trade current)
    else if (PyStr.contains_sub "2026" name
             || PyStr.contains_sub "2027" name
             || PyStr.contains_sub "2028" name) && truthy origin
    then
      let df_for_at_trade := default df_current df_hist in
      at_trade ← get_2026_plus_pick_value name origin (trade_date row)
                   df_for_at_trade;
      current ← get_2026_plus_pick_value name origin (trade_date row)
                  df_current;
      Ok (mk_valued at_trade current)
    else
      Ok (mk_valued (0, "Unknown pick", None) (0, "Unknown pick", None))
  else
    let at_trade : valuation :=
      match df_hist with
      | Some df =>
          match matching name df with
          | m :: _ =>
              (value_2qb m,
               "Git:" +:+ String.substring 0 7 (default "" commit_sha), None)
          | [] => (0, "Not found", None)
          end
      | None => (0, "No Git commit", None)
      end in
    let current : valuation :=
      match matching name df_current with
      | m :: _ => (value_2qb m, "DynastyProcess", None)
      | [] => (0, "Not found", None)
      end in
    Ok (mk_valued at_trade current).

(** [str(meta_current or meta_at_trade or '')]: an empty dictionary is
    as false as [None]. *)
Definition meta_or (m : option meta) (other : meta_text) : meta_text :=
  match m with
  | Some (kv :: d) => MetaDict (kv :: d)
  | _ => other
  end.

Definition record_of (row : AssetRow) (v : valued) : ValuationRecord :=
  {| r_asset_name := asset_name row;
     r_asset_type := asset_type row;
     r_trade_date := trade_date row;
     r_trade_id := trade_id row;
     r_trade_type := default "2-team" (trade_type row);
     r_receiving_team := receiving_team row;
     r_giving_team := giving_team row;
     r_origin_owner := origin_owner row;
     value_at_trade := v_at_trade v;
     value_current := v_current v;
     value_source_at_trade := v_source_at_trade v;
     value_source_current := v_source_current v;
     metadata := meta_or (v_meta_current v)
                   (meta_or (v_meta_at_trade v) (MetaText "")) |}.

(** The FAAB branch of the loop body. *)
Definition faab_record (row : AssetRow) : result ValuationRecord :=
  amount ← of_option
             (PyStr.int (PyStr.remove_all " FAAB"
                           (PyStr.remove_all "$" (asset_name row))))
             ValueError;
  let value := amount * FAAB_VALUE_PER_DOLLAR in
  Ok {| r_asset_name := asset_name row;
        r_asset_type := asset_type row;
        r_trade_date := trade_date row;
        r_trade_id := trade_id row;
        r_trade_type := default "2-team" (trade_type row);
        r_receiving_team := receiving_team row;
        r_giving_team := giving_team row;
        r_origin_owner := origin_owner row;
        value_at_trade := value;
        value_current := value;
        value_source_at_trade := "FAAB";
        value_source_current := "FAAB";
        metadata := MetaText ("$" +:+ PyStr.str amount) |}.

(** The state the loop of [cache_asset_values] carries. *)
Record loop_state := {
  cached_values : list ValuationRecord;
  zero_value_count : Z;
  git_df_cache : gmap string (list ValueRow)
}.

Definition initial_state : loop_state :=
  {| cached_values := []; zero_value_count := 0; git_df_cache := ∅ |}.

(** The body of the loop for one row. *)
Definition process_row (commit_cache : gmap string string)
    (df_current : list ValueRow) (st : loop_state) (row : AssetRow)
  : result loop_state :=
  if String.eqb (asset_type row) "faab"
  then
    rec ← faab_record row;
    Ok {| cached_values := cached_values st ++ [rec];
          zero_value_count := zero_value_count st;
          git_df_cache := git_df_cache st |}
  else
    commit_sha ← closest_commit commit_cache (trade_date row);
    let hist := historical_values commit_sha (git_df_cache st) in
    v ← value_asset row commit_sha hist.1 df_current;
    Ok {| cached_values := cached_values st ++ [record_of row v];
          zero_value_count :=
            if v_at_trade v =? 0
            then zero_value_count st + 1
            else zero_value_count st;
          git_df_cache := hist.2 |}.

Fixpoint process_rows (commit_cache : gmap string string)
    (df_current : list ValueRow) (st : loop_state) (rows : list AssetRow)
  : result loop_state :=
  match rows with
  | [] => Ok st
  | row :: rest =>
      st' ← process_row commit_cache df_current st row;
      process_rows commit_cache df_current st' rest
  end.

(** Loading the current values: any failure, also an empty table whose
    scrape date cannot be read, becomes [APIError]. *)
Definition load_current_values : result (list ValueRow) :=
  match read_current_values with
  | Some (r :: df) => Ok (r :: df)
  | _ => Raise APIError
  end.

(** The commit map of a run: the history since the earliest trade less
    the search window. *)
Definition load_commit_cache (df_assets : list AssetRow)
  : result (gmap string string) :=
  earliest_date ← of_option (earliest_trade_date (map trade_date df_assets))
                    ValueError;
  since ← of_option
            (PyDate.add_days earliest_date (- git_commit_search_days config))
            OverflowError;
  Ok (get_all_commits_since since).

Definition cache_asset_values (df_assets : list AssetRow)
  : result (list ValuationRecord) :=
  df_current ← load_current_values;
  commit_cache ← load_commit_cache df_assets;
  st ← process_rows commit_cache df_current initial_state df_assets;
  Ok (cached_values st).

(** *** [validators.py] and [main] *)

Definition required_files : list string :=
  [ "asset_transactions.csv";
    "weekly_2026_pick_projections_expanded.csv";
    "sleeper_rookie_draft_2025.csv";
    "pick_origin_mapping.py" ].

Definition validate_stage3_prerequisites (w : world) : result unit :=
  if forallb (fun f => bool_decide (is_Some (files w !! f))) required_files
  then Ok tt
  else Raise (ValidationError RequiredFileNotFound).

(** [(df['value_at_trade'] == 0).sum()]. *)
Definition zero_at_trade (df : list ValuationRecord) : Z :=
  Z.of_nat (List.length (List.filter (fun r => value_at_trade r =? 0) df)).

(** [zero_at_trade / len(df)], as an exact fraction. *)
Definition zero_pct (df : list ValuationRecord) : Q :=
  (inject_Z (zero_at_trade df) / inject_Z (Z.of_nat (List.length df)))%Q.

Definition validate_stage3_output (w : world) (output_file : string)
    (max_zero_pct : Q) : result unit :=
  match files w !! output_file with
  | Some (ValuesFile df) =>
      match df with
      | [] => Raise (ValidationError NoCachedValues)
      | _ =>
          if negb (Qle_bool (zero_pct df) max_zero_pct)
          then Raise (ValidationError TooManyZeroValues)
          else Ok tt
      end
  | Some _ => Raise KeyError
  | None => Raise FileNotFoundError
  end.

(** [pd.read_csv(OutputFiles.ASSET_TRANSACTIONS.value)]. *)
Definition read_asset_transactions (w : world) : result (list AssetRow) :=
  match files w !! OutputFiles.ASSET_TRANSACTIONS with
  | Some (AssetsFile rows) => Ok rows
  | Some _ => Raise KeyError
  | None => Raise FileNotFoundError
  end.

(** [df_cache.to_csv(output_file, index=False)]. *)
Definition to_csv (output_file : string) (df : list ValuationRecord)
    (w : world) : world :=
  {| files := <[output_file := ValuesFile df]> (files w);
     backups := backups w |}.

(** [BackupManager.backup_file]: a time-stamped copy of the file, if it
    exists. *)
Definition backup_file (source_file : string) (w : world) : world :=
  match files w !! source_file with
  | Some f => {| files := files w; backups := backups w ++ [f] |}
  | None => w
  end.

(** [main]: the world it leaves and what it returns or raises. The
    handlers of [main] record metrics and raise again. *)
Definition main (w : world) : world * result string :=
  match validate_stage3_prerequisites w with
  | Raise e => (w, Raise e)
  | Ok _ =>
      match read_asset_transactions w with
      | Raise e => (w, Raise e)
      | Ok df_assets =>
          match cache_asset_values df_assets with
          | Raise e => (w, Raise e)
          | Ok cached =>
              let output_file := OutputFiles.ASSET_VALUES_CACHE in
              let w1 := to_csv output_file cached w in
              let w2 := backup_file output_file w1 in
              match validate_stage3_output w2 output_file
                      (max_zero_value_pct config) with
              | Raise e => (w2, Raise e)
              | Ok _ => (w2, Ok output_file)
              end
          end
      end
  end.

(** The script: [main] under [if __name__ == "__main__"], where any
    exception becomes exit status 1. *)
Definition stage3_script (w : world) : world * Z :=
  let out := main w in
  (out.1, match out.2 with Ok _ => 0 | Raise _ => 1 end).

(** [update_dashboard.py] from Stage 3 on: the driver exits at the first
    stage whose status is not 0, so the stages after Stage 3 (the
    analysis and the dashboard reports) run on the world Stage 3 leaves
    only when it has succeeded. *)
Definition pipeline_from_stage3 (later_stages : world -> world) (w : world)
  : world * bool :=
  let out := stage3_script w in
  if out.2 =? 0 then (later_stages out.1, true) else (out.1, false).

(** *** Notions used to state the properties *)

(** The commit recorded for the day [k] days from [trade_dt], if that
    day is a date at all. *)
Definition snapshot_at (commit_cache : gmap string string)
    (trade_dt : datetime) (k : Z) : option (option string) :=
  match PyDate.add_days trade_dt k with
  | Some d => Some (commit_cache !! PyDate.strftime d)
  | None => None
  end.

(** A memo table of value tables holds only what reading the commit
    gives. *)
Definition coherent (cache : gmap string (list ValueRow)) : Prop :=
  forall sha df, cache !! sha = Some df -> read_values_at sha = Some df.

(** The first match of a name in a table, 0 when there is none. *)
Definition first_value (name : string) (df : list ValueRow) : Z :=
  match matching name df with
  | m :: _ => value_2qb m
  | [] => 0
  end.

(** The loop state with another memo table. *)
Definition with_cache (st : loop_state) (cache : gmap string (list ValueRow))
  : loop_state :=
  {| cached_values := cached_values st;
     zero_value_count := zero_value_count st;
     git_df_cache := cache |}.

(* ================================================================== *)
(** ** Facts about the string primitives *)
(* ================================================================== *)

Lemma append_cons c s t : String c s +:+ t = String c (s +:+ t).
Proof. reflexivity. Qed.

Lemma append_empty_r s : s +:+ "" = s.
Proof.
  induction s as [|c s IH]; [reflexivity|].
  rewrite append_cons, IH. reflexivity.
Qed.

Lemma all_chars_app p s t :
  all_chars p (s +:+ t) = all_chars p s && all_chars p t.
Proof.
  induction s as [|c s IH]; [reflexivity|].
  rewrite append_cons. simpl. rewrite IH. apply andb_assoc.
Qed.

Lemma all_chars_weaken (p q : ascii -> bool) s :
  (forall c, p c = true -> q c = true) ->
  all_chars p s = true -> all_chars q s = true.
Proof.
  intros Hpq. induction s as [|c s IH]; simpl; [reflexivity|].
  intros [Hc Hs]%andb_prop. rewrite (Hpq _ Hc), (IH Hs). reflexivity.
Qed.

Lemma uint_digits u : all_chars PyStr.is_digit (NilEmpty.string_of_uint u) = true.
Proof. induction u; simpl; auto. Qed.

Lemma uint_of_N_nonempty n : NilEmpty.string_of_uint (N.to_uint n) <> "".
Proof.
  intros H.
  assert (Hu : N.to_uint n = Decimal.Nil).
  { destruct (N.to_uint n); simpl in H; congruence. }
  destruct n as [|p]; simpl in Hu; [discriminate|].
  revert Hu. apply DecimalPos.Unsigned.to_uint_nonnil.
Qed.

Lemma str_chars z : all_chars digit_or_minus (PyStr.str z) = true.
Proof.
  unfold PyStr.str.
  assert (H : all_chars digit_or_minus
                (NilEmpty.string_of_uint (N.to_uint (Z.to_N (Z.abs z)))) = true).
  { eapply all_chars_weaken; [|apply uint_digits].
    intros c Hc. unfold digit_or_minus. rewrite Hc. reflexivity. }
  destruct (z <? 0); simpl; auto.
Qed.

(** The characters of a decimal numeral are none of the characters the
    parsers look for. *)
Lemma digit_or_minus_not c0 :
  digit_or_minus c0 = false ->
  forall c, digit_or_minus c = true -> Ascii.eqb c c0 = false.
Proof.
  intros H0 c Hc. destruct (Ascii.eqb_spec c c0) as [->|]; congruence.
Qed.

Lemma prefix_head_mismatch c0 old c r :
  Ascii.eqb c c0 = false -> String.prefix (String c0 old) (String c r) = false.
Proof.
  intros H. simpl. destruct (ascii_dec c0 c) as [->|]; [|reflexivity].
  rewrite Ascii.eqb_refl in H. discriminate.
Qed.

Lemma remove_go_app c0 old s t :
  all_chars (fun c => negb (Ascii.eqb c c0)) s = true ->
  PyStr.remove_go (String c0 old) 0 (s +:+ t)
  = s +:+ PyStr.remove_go (String c0 old) 0 t.
Proof.
  induction s as [|c s IH]; [reflexivity|].
  intros [Hc Hs]%andb_prop. apply negb_true_iff in Hc.
  change (String c s +:+ t) with (String c (s +:+ t)).
  cbn [PyStr.remove_go]. rewrite (prefix_head_mismatch _ _ _ _ Hc), (IH Hs).
  reflexivity.
Qed.

Lemma split_go_cons sep s : forall skip, PyStr.split_go sep skip s <> [].
Proof.
  induction s as [|c s IH]; intros skip; cbn [PyStr.split_go]; [done|].
  destruct skip; [|apply IH].
  destruct (String.prefix sep (String c s)); [done|].
  destruct (PyStr.split_go sep 0 s); done.
Qed.

Lemma split_go_app c0 sep s t :
  all_chars (fun c => negb (Ascii.eqb c c0)) s = true ->
  PyStr.split_go (String c0 sep) 0 (s +:+ t)
  = match PyStr.split_go (String c0 sep) 0 t with
    | h :: rest => (s +:+ h) :: rest
    | [] => [s]
    end.
Proof.
  induction s as [|c s IH].
  - intros _. change ("" +:+ t) with t.
    pose proof (split_go_cons (String c0 sep) t 0%nat) as Hne.
    destruct (PyStr.split_go _ _ t); [congruence|reflexivity].
  - intros [Hc Hs]%andb_prop. apply negb_true_iff in Hc.
    change (String c s +:+ t) with (String c (s +:+ t)).
    cbn [PyStr.split_go]. rewrite (prefix_head_mismatch _ _ _ _ Hc), (IH Hs).
    destruct (PyStr.split_go _ _ t); reflexivity.
Qed.

Lemma split_go_avoid c0 sep s :
  all_chars (fun c => negb (Ascii.eqb c c0)) s = true ->
  PyStr.split_go (String c0 sep) 0 s = [s].
Proof.
  intros H. pose proof (split_go_app c0 sep s "" H) as E.
  rewrite append_empty_r in E. cbn [PyStr.split_go] in E.
  rewrite append_empty_r in E. exact E.
Qed.

Lemma avoid_of_numeral c0 z :
  digit_or_minus c0 = false ->
  all_chars (fun c => negb (Ascii.eqb c c0)) (PyStr.str z) = true.
Proof.
  intros H0. eapply all_chars_weaken; [|apply str_chars].
  intros c Hc. rewrite (digit_or_minus_not c0 H0 c Hc). reflexivity.
Qed.

Lemma lstrip_no_space sp s :
  all_chars (fun c => negb (sp c)) s = true -> PyStr.lstrip_by sp s = s.
Proof.
  destruct s as [|c s]; [reflexivity|]. simpl.
  intros [Hc _]%andb_prop. apply negb_true_iff in Hc. rewrite Hc. reflexivity.
Qed.

Lemma rstrip_no_space sp s :
  all_chars (fun c => negb (sp c)) s = true -> PyStr.rstrip_by sp s = s.
Proof.
  induction s as [|c s IH]; [reflexivity|]. simpl.
  intros [Hc Hs]%andb_prop. apply negb_true_iff in Hc.
  rewrite (IH Hs), Hc. destruct s; reflexivity.
Qed.

Lemma digit_not_c_space c : digit_or_minus c = true -> PyStr.is_c_space c = false.
Proof.
  destruct c as [[] [] [] [] [] [] [] []]; vm_compute; congruence.
Qed.

Lemma digit_not_space c : digit_or_minus c = true -> PyStr.is_space c = false.
Proof.
  destruct c as [[] [] [] [] [] [] [] []]; vm_compute; congruence.
Qed.

Lemma digits_of_digits s :
  all_chars PyStr.is_digit s = true ->
  PyStr.digits_of true s = Some s
  /\ (s <> "" -> PyStr.digits_of false s = Some s).
Proof.
  induction s as [|c s IH]; simpl.
  - intros _. split; [reflexivity|congruence].
  - intros [Hc Hs]%andb_prop. rewrite Hc.
    destruct (IH Hs) as [-> _]. split; [reflexivity|]. intros _. reflexivity.
Qed.

Lemma nat_literal_numeral n :
  PyStr.nat_literal (NilEmpty.string_of_uint (N.to_uint n)) = Some (Z.of_N n).
Proof.
  unfold PyStr.nat_literal.
  destruct (digits_of_digits _ (uint_digits (N.to_uint n))) as [_ H].
  rewrite (H (uint_of_N_nonempty n)), NilEmpty.usu, DecimalN.Unsigned.of_to.
  reflexivity.
Qed.

(** [int(str(z)) == z]. *)
Lemma int_str z : PyStr.int (PyStr.str z) = Some z.
Proof.
  unfold PyStr.int.
  assert (Hsp : all_chars (fun c => negb (PyStr.is_c_space c)) (PyStr.str z) = true).
  { eapply all_chars_weaken; [|apply str_chars].
    intros c Hc. rewrite (digit_not_c_space c Hc). reflexivity. }
  rewrite (lstrip_no_space _ _ Hsp), (rstrip_no_space _ _ Hsp).
  unfold PyStr.str. destruct (Z.ltb_spec z 0) as [Hneg|Hpos].
  - rewrite nat_literal_numeral. simpl. f_equal. lia.
  - pose proof (nat_literal_numeral (Z.to_N (Z.abs z))) as Hn.
    pose proof (uint_digits (N.to_uint (Z.to_N (Z.abs z)))) as Hd.
    pose proof (uint_of_N_nonempty (Z.to_N (Z.abs z))) as Hne.
    destruct (NilEmpty.string_of_uint (N.to_uint (Z.to_N (Z.abs z))))
      as [|c r]; [congruence|].
    simpl in Hd. apply andb_prop in Hd as [Hc _].
    assert (E : Z.of_N (Z.to_N (Z.abs z)) = z) by lia.
    rewrite E in Hn.
    destruct c as [[] [] [] [] [] [] [] []]; try discriminate Hc; exact Hn.
Qed.

(** *** The labels Stage 2 writes are read back *)

Lemma strip_numeral z : PyStr.strip (PyStr.str z) = PyStr.str z.
Proof.
  assert (Hsp : all_chars (fun c => negb (PyStr.is_space c)) (PyStr.str z) = true).
  { eapply all_chars_weaken; [|apply str_chars].
    intros c Hc. rewrite (digit_not_space c Hc). reflexivity. }
  unfold PyStr.strip. rewrite (lstrip_no_space _ _ Hsp).
  apply rstrip_no_space, Hsp.
Qed.

Lemma prefix_empty s : String.prefix "" s = true.
Proof. destruct s; reflexivity. Qed.

Lemma faab_amount_parsed d :
  PyStr.int (PyStr.remove_all " FAAB" (PyStr.remove_all "$" (faab_label d)))
  = Some d.
Proof.
  assert (E1 : PyStr.remove_all "$" (faab_label d) = PyStr.str d +:+ " FAAB").
  { unfold PyStr.remove_all, faab_label.
    change ("$" +:+ PyStr.str d +:+ " FAAB")
      with (String "$" (PyStr.str d +:+ " FAAB")).
    cbn. rewrite prefix_empty.
    rewrite (remove_go_app "$" "" (PyStr.str d) " FAAB");
      [reflexivity | apply avoid_of_numeral; reflexivity]. }
  rewrite E1. unfold PyStr.remove_all.
  rewrite (remove_go_app " " "FAAB" (PyStr.str d) " FAAB");
    [| apply avoid_of_numeral; reflexivity].
  change (PyStr.remove_go " FAAB" 0 " FAAB") with "".
  rewrite append_empty_r. apply int_str.
Qed.

Lemma split_round_tail u :
  all_chars (fun c => negb (Ascii.eqb c "R")) u = true ->
  PyStr.split_go "Round" 0 (" Round " +:+ u) = [" "; String " " u].
Proof.
  intros Hu.
  change (" Round " +:+ u)
    with (String " " (String "R" (String "o" (String "u" (String "n"
            (String "d" (String " " u))))))).
  cbn. rewrite (split_go_avoid "R" "ound" u Hu). reflexivity.
Qed.

Lemma parse_round_label season r : parse_round (pick_label season r) = Some r.
Proof.
  unfold parse_round, pick_label, PyStr.split.
  rewrite (split_go_app "R" "ound" (PyStr.str season));
    [| apply avoid_of_numeral; reflexivity].
  rewrite split_round_tail; [| apply avoid_of_numeral; reflexivity].
  unfold PyStr.strip. cbn [PyStr.lstrip_by].
  change (PyStr.is_space " ") with true. cbv iota.
  fold (PyStr.strip (PyStr.str r)). rewrite strip_numeral. apply int_str.
Qed.

(** *** FAAB *)

(** C7. A FAAB asset labelled with the dollar amount [d] is recorded with
    [value_at_trade = value_current = d * FAAB_VALUE_PER_DOLLAR], whatever
    the commit map, the tables and the trade date are: the loop body
    returns and does not raise. With the rate of [constants.py] and
    [d = 50] both fields are 50. *)
Theorem faab_valuation (commit_cache : gmap string string)
    (df_current : list ValueRow) (st : loop_state) (row : AssetRow) (d : Z) :
  asset_type row = "faab" ->
  asset_name row = faab_label d ->
  exists rec,
    process_row commit_cache df_current st row
    = Ok {| cached_values := cached_values st ++ [rec];
            zero_value_count := zero_value_count st;
            git_df_cache := git_df_cache st |}
    /\ value_at_trade rec = d * FAAB_VALUE_PER_DOLLAR
    /\ value_current rec = d * FAAB_VALUE_PER_DOLLAR
    /\ (d = 50 -> value_at_trade rec = 50 /\ value_current rec = 50).
Proof.
  intros Htype Hname. unfold process_row, faab_record.
  rewrite Htype, Hname, faab_amount_parsed. cbn.
  eexists. split; [reflexivity|]. cbn.
  repeat split; subst; reflexivity.
Qed.

(** *** Pick labels *)

(** C8 (as amended). A label in the format Stage 2 writes,
    [f"{season} Round {round}"], is read back to its round, and writing
    that round in the same format gives the label again. *)
Theorem pick_label_round_trip (season r : Z) :
  parse_round (pick_label season r) = Some r
  /\ option_map (pick_label season) (parse_round (pick_label season r))
     = Some (pick_label season r).
Proof.
  rewrite parse_round_label. split; reflexivity.
Qed.

(** *** Week selection *)

Lemma fold_max_spec l : forall x,
  (fold_left Z.max l x = x \/ In (fold_left Z.max l x) l)
  /\ x <= fold_left Z.max l x
  /\ forall a, In a l -> a <= fold_left Z.max l x.
Proof.
  induction l as [|y l IH]; intros x; simpl.
  - repeat split; [left; reflexivity | lia | tauto].
  - destruct (IH (Z.max x y)) as (Hin & Hle & Hall).
    repeat split.
    + destruct Hin as [E|Hin]; [|right; right; exact Hin].
      rewrite E. destruct (Z.max_spec x y) as [[_ ->]|[_ ->]]; auto.
    + lia.
    + intros a [<-|Ha]; [lia | apply Hall, Ha].
Qed.

Lemma fold_min_spec l : forall x,
  (fold_left Z.min l x = x \/ In (fold_left Z.min l x) l)
  /\ fold_left Z.min l x <= x
  /\ forall a, In a l -> fold_left Z.min l x <= a.
Proof.
  induction l as [|y l IH]; intros x; simpl.
  - repeat split; [left; reflexivity | lia | tauto].
  - destruct (IH (Z.min x y)) as (Hin & Hle & Hall).
    repeat split.
    + destruct Hin as [E|Hin]; [|right; right; exact Hin].
      rewrite E. destruct (Z.min_spec x y) as [[_ ->]|[_ ->]]; auto.
    + lia.
    + intros a [<-|Ha]; [lia | apply Hall, Ha].
Qed.

Lemma py_max_spec l m :
  py_max l = Some m -> In m l /\ forall a, In a l -> a <= m.
Proof.
  destruct l as [|x l]; [discriminate|]. simpl. intros [= <-].
  destruct (fold_max_spec l x) as (Hin & Hle & Hall). split.
  - destruct Hin as [->|Hin]; auto.
  - intros a [<-|Ha]; auto.
Qed.

Lemma py_min_spec l m :
  py_min l = Some m -> In m l /\ forall a, In a l -> m <= a.
Proof.
  destruct l as [|x l]; [discriminate|]. simpl. intros [= <-].
  destruct (fold_min_spec l x) as (Hin & Hle & Hall). split.
  - destruct Hin as [->|Hin]; auto.
  - intros a [<-|Ha]; auto.
Qed.

Lemma py_max_some l : l <> [] -> exists m, py_max l = Some m.
Proof. destruct l; [congruence|]. intros _. eexists. reflexivity. Qed.

Lemma py_min_some l : l <> [] -> exists m, py_min l = Some m.
Proof. destruct l; [congruence|]. intros _. eexists. reflexivity. Qed.

(** The available weeks are the weeks of the columns the pattern matches. *)
Lemma available_weeks_columns team_row round_name w :
  In w (get_available_weeks team_row round_name)
  <-> exists col, In col (columns team_row)
                  /\ match_week_column round_name col = Some w.
Proof.
  unfold get_available_weeks.
  rewrite <- list_elem_of_In, merge_sort_Permutation, list_elem_of_omap.
  split; intros (col & Hcol & Hw); exists col; split; auto;
    apply list_elem_of_In; exact Hcol.
Qed.

(** C5. With at least one week column for the team and round, the week
    selected is an available one: the target week if it is available;
    otherwise the largest available week not after the target, if there
    is one; otherwise the smallest available week. When weeks 7 and 12
    are the only ones available, targets 9 and 3 both select week 7. *)
Theorem best_week_selection (team_row : list ProjRow) (round_name : string)
    (target : Z) :
  get_available_weeks team_row round_name <> [] ->
  exists w,
    let avail := get_available_weeks team_row round_name in
    get_best_week_column team_row round_name target
    = Ok (week_column w round_name, w)
    /\ In w avail
    /\ (In target avail -> w = target)
    /\ (~ In target avail -> (exists a, In a avail /\ a <= target) ->
        w <= target /\ forall a, In a avail -> a <= target -> a <= w)
    /\ (~ In target avail -> (forall a, In a avail -> target < a) ->
        forall a, In a avail -> w <= a)
    /\ ((forall a, In a avail <-> a = 7 \/ a = 12) ->
        target = 9 \/ target = 3 -> w = 7).
Proof using.
  clear.
  intros Hne. unfold get_best_week_column.
  set (avail := get_available_weeks team_row round_name) in *.
  assert (Hex : existsb (Z.eqb target) avail = true <-> In target avail).
  { rewrite existsb_exists. split.
    - intros (a & Ha & E). apply Z.eqb_eq in E. subst. exact Ha.
    - intros H. exists target. split; [exact H | apply Z.eqb_refl]. }
  assert (Hle : existsb (fun w => w <=? target) avail = true
                <-> exists a, In a avail /\ a <= target).
  { rewrite existsb_exists. split; intros (a & Ha & E); exists a;
      (split; [exact Ha|]); [apply Z.leb_le, E | apply Z.leb_le, E]. }
  assert (Hcore : exists w,
    (if existsb (Z.eqb target) avail then target
     else if existsb (fun w => w <=? target) avail
          then default 0 (py_max (List.filter (fun w => w <=? target) avail))
          else default 0 (py_min avail)) = w
    /\ In w avail
    /\ (In target avail -> w = target)
    /\ (~ In target avail -> (exists a, In a avail /\ a <= target) ->
        w <= target /\ forall a, In a avail -> a <= target -> a <= w)
    /\ (~ In target avail -> (forall a, In a avail -> target < a) ->
        forall a, In a avail -> w <= a)).
  { destruct (existsb (Z.eqb target) avail) eqn:E1.
    - assert (Hin : In target avail) by (apply Hex; reflexivity).
      exists target. repeat split; tauto.
    - assert (Hnot : ~ In target avail)
        by (intros H; apply Hex in H; discriminate).
      destruct (existsb (fun w => w <=? target) avail) eqn:E2.
      + destruct (proj1 Hle eq_refl) as (a0 & Ha0 & Hle0).
        assert (Hf : List.filter (fun w => w <=? target) avail <> []).
        { intros Hnil.
          assert (Hin : In a0 (List.filter (fun w => w <=? target) avail))
            by (apply filter_In; split; [exact Ha0 | apply Z.leb_le, Hle0]).
          rewrite Hnil in Hin. exact Hin. }
        destruct (py_max_some _ Hf) as (m & Hm). rewrite Hm. simpl.
        destruct (py_max_spec _ _ Hm) as (Hin & Hmax).
        apply filter_In in Hin as (Hin & Hmle). apply Z.leb_le in Hmle.
        exists m. repeat split; auto; try tauto.
        * intros a Ha Hat. apply Hmax, filter_In.
          split; [exact Ha | apply Z.leb_le, Hat].
        * intros _ Hall. specialize (Hall _ Ha0). lia.
      + assert (Hnone : ~ exists a, In a avail /\ a <= target)
          by (intros H; apply Hle in H; discriminate).
        destruct (py_min_some _ Hne) as (m & Hm). rewrite Hm. simpl.
        destruct (py_min_spec _ _ Hm) as (Hin & Hmin).
        exists m. repeat split; auto; tauto. }
  destruct Hcore as (w & Ew & Hin & Hexact & Hbelow & Hfirst).
  exists w. cbv zeta. rewrite Ew.
  split; [destruct avail; [congruence | reflexivity]|].
  repeat split; auto; try apply Hbelow; auto.
  intros Honly Htarget.
  assert (Hnot : ~ In target avail) by (rewrite Honly; lia).
  assert (Hw : w = 7 \/ w = 12) by (apply Honly, Hin).
  destruct Htarget as [-> | ->].
  - destruct (Hbelow Hnot) as [Hw9 _]; [|lia].
    exists 7. split; [apply Honly; auto | lia].
  - assert (H7 : w <= 7); [|lia].
    apply (Hfirst Hnot); [|apply Honly; auto].
    intros a Ha. apply Honly in Ha. lia.
Qed.

(** *** Current-season picks *)

Lemma bind_ok {A B} (a : A) (k : A -> result B) : (Ok a ≫= k) = k a.
Proof. reflexivity. Qed.

(** The loop body on a row that is not FAAB. *)
Lemma process_row_valued commit_cache df_current st row commit_sha v :
  String.eqb (asset_type row) "faab" = false ->
  closest_commit commit_cache (trade_date row) = Ok commit_sha ->
  value_asset row commit_sha
    (historical_values commit_sha (git_df_cache st)).1 df_current = Ok v ->
  process_row commit_cache df_current st row
  = Ok {| cached_values := cached_values st ++ [record_of row v];
          zero_value_count :=
            if v_at_trade v =? 0
            then zero_value_count st + 1 else zero_value_count st;
          git_df_cache :=
            (historical_values commit_sha (git_df_cache st)).2 |}.
Proof.
  intros Hfaab Hsha Hv. unfold process_row.
  rewrite Hfaab, Hsha, bind_ok, Hv, bind_ok. reflexivity.
Qed.

Lemma value_asset_2025 row commit_sha df_hist df_current :
  asset_type row = "pick" ->
  PyStr.contains_sub "2025 Round" (asset_name row) = true ->
  truthy (origin_owner row) = true ->
  value_asset row commit_sha df_hist df_current
  = (at_trade ← get_2025_pick_value (asset_name row) (origin_owner row)
                  (trade_date row) (default df_current df_hist) false;
     current ← get_2025_pick_value (asset_name row) (origin_owner row)
                 (trade_date row) df_current true;
     Ok (mk_valued at_trade current)).
Proof.
  intros Htype Hname Horigin. unfold value_asset.
  rewrite Htype, Hname, Horigin. reflexivity.
Qed.

(** [matches.iloc[0]['value_2qb']], or 0 when nothing matches. *)
Lemma player_valuation_value player df source m :
  (player_valuation player df source m).1.1
  = match matching player df with
    | r :: _ => value_2qb r
    | [] => 0
    end.
Proof. unfold player_valuation. destruct (matching player df); reflexivity. Qed.

(** On or after the draft-completion date both calls value the drafted
    player in the table they are given. *)
Lemma post_draft_value pick_name origin trade_date df is_current
    round_num trade_dt lineage rest :
  parse_round pick_name = Some round_num ->
  PyDate.strptime trade_date = Some trade_dt ->
  PyDate.lt trade_dt DRAFT_COMPLETION_DATE = false ->
  lineage_of origin round_num = lineage :: rest ->
  get_2025_pick_value pick_name origin trade_date df is_current
  = Ok (player_valuation (lin_player lineage) df
          ("Player:" +:+ lin_player lineage +:+ " (post-draft)")
          (Some [("player", MStr (lin_player lineage))])).
Proof.
  intros Hround Hdate Hlt Hlin. unfold get_2025_pick_value.
  rewrite Hround, Hdate. cbn [of_option]. rewrite bind_ok, Hlin, Hlt.
  reflexivity.
Qed.

(** C3. A current-season pick traded exactly on the draft-completion
    date is valued as a post-draft trade: [trade_dt < DRAFT_COMPLETION_DATE]
    is false there, so [value_at_trade] is the drafted player's value in
    the table used for the trade date and [value_current] is the drafted
    player's value in the current table. When the player's entry has the
    same value [v] in both tables, both fields are [v]. *)
Theorem draft_day_pick_is_post_draft (commit_cache : gmap string string)
    (df_current : list ValueRow) (st : loop_state) (row : AssetRow)
    (round_num : Z) (lineage : Lineage) (rest : list Lineage)
    (commit_sha : option string) :
  asset_type row = "pick" ->
  PyStr.contains_sub "2025 Round" (asset_name row) = true ->
  truthy (origin_owner row) = true ->
  PyDate.strptime (trade_date row) = Some DRAFT_COMPLETION_DATE ->
  parse_round (asset_name row) = Some round_num ->
  lineage_of (origin_owner row) round_num = lineage :: rest ->
  closest_commit commit_cache (trade_date row) = Ok commit_sha ->
  let df_at_trade :=
    default df_current (historical_values commit_sha (git_df_cache st)).1 in
  let drafted := lin_player lineage in
  PyDate.lt DRAFT_COMPLETION_DATE DRAFT_COMPLETION_DATE = false
  /\ exists st' rec,
      process_row commit_cache df_current st row = Ok st'
      /\ cached_values st' = cached_values st ++ [rec]
      /\ value_at_trade rec
         = match matching drafted df_at_trade with
           | m :: _ => value_2qb m
           | [] => 0
           end
      /\ value_current rec
         = match matching drafted df_current with
           | m :: _ => value_2qb m
           | [] => 0
           end
      /\ forall m1 r1 m2 r2 v,
          matching drafted df_at_trade = m1 :: r1 ->
          matching drafted df_current = m2 :: r2 ->
          value_2qb m1 = v -> value_2qb m2 = v ->
          value_at_trade rec = v /\ value_current rec = v.
Proof.
  intros Htype Hname Horigin Hdate Hround Hlin Hsha df_at_trade drafted.
  split; [reflexivity|].
  assert (Hfaab : String.eqb (asset_type row) "faab" = false)
    by (rewrite Htype; reflexivity).
  pose proof (value_asset_2025 row commit_sha
                (historical_values commit_sha (git_df_cache st)).1
                df_current Htype Hname Horigin) as Hv.
  rewrite !(post_draft_value _ _ _ _ _ _ _ _ _ Hround Hdate eq_refl Hlin),
    !bind_ok in Hv.
  eexists. eexists.
  split; [exact (process_row_valued _ _ _ _ _ _ Hfaab Hsha Hv)|].
  split; [reflexivity|].
  cbn [record_of value_at_trade value_current mk_valued v_at_trade v_current].
  rewrite !player_valuation_value.
  fold df_at_trade. fold drafted.
  split; [reflexivity|]. split; [reflexivity|].
  intros m1 r1 m2 r2 v -> -> <- <-. split; reflexivity.
Qed.

(** Before the draft, the value at trade of a first-round pick without
    an exact entry in the table is the tier value of its slot. *)
Lemma pre_draft_tier_value pick_name origin trade_date df
    trade_dt lineage rest :
  parse_round pick_name = Some 1 ->
  PyDate.strptime trade_date = Some trade_dt ->
  PyDate.lt trade_dt DRAFT_COMPLETION_DATE = true ->
  lineage_of origin 1 = lineage :: rest ->
  matching (exact_pick_name 1 (pick_in_round lineage)) df = [] ->
  get_2025_pick_value pick_name origin trade_date df false
  = Ok (PickTier.get_value (pick_in_round lineage),
        "Tier:" +:+ PickTier.get_tier_name (pick_in_round lineage) +:+ " 1st",
        Some [("tier", MStr (PickTier.get_tier_name (pick_in_round lineage)));
              ("pick_position",
               MStr (pick_position 1 (pick_in_round lineage)))]).
Proof.
  intros Hround Hdate Hlt Hlin Hexact. unfold get_2025_pick_value.
  rewrite Hround, Hdate. cbn [of_option]. rewrite bind_ok, Hlin, Hlt, Hexact.
  reflexivity.
Qed.

Lemma pre_draft_current_value pick_name origin trade_date df
    round_num trade_dt lineage rest :
  parse_round pick_name = Some round_num ->
  PyDate.strptime trade_date = Some trade_dt ->
  PyDate.lt trade_dt DRAFT_COMPLETION_DATE = true ->
  lineage_of origin round_num = lineage :: rest ->
  get_2025_pick_value pick_name origin trade_date df true
  = Ok (player_valuation (lin_player lineage) df
          ("Player:" +:+ lin_player lineage)
          (Some [("player", MStr (lin_player lineage));
                 ("pick_position",
                  MStr (pick_position round_num (pick_in_round lineage)))])).
Proof.
  intros Hround Hdate Hlt Hlin. unfold get_2025_pick_value.
  rewrite Hround, Hdate. cbn [of_option]. rewrite bind_ok, Hlin, Hlt.
  reflexivity.
Qed.

(** C4. A current-season first-round pick traded strictly before the
    draft-completion date, whose exact slot entry ("2025 Pick 1.SS") is
    not in the table used for the trade date, has the tier value of its
    resolved slot as [value_at_trade]: 5430 for slots 1 to 4, 2558 for
    slots 5 to 8 and 1232 for slots 9 to 12. *)
Theorem pre_draft_first_round_tier (commit_cache : gmap string string)
    (df_current : list ValueRow) (st : loop_state) (row : AssetRow)
    (trade_dt : datetime) (lineage : Lineage) (rest : list Lineage)
    (commit_sha : option string) :
  asset_type row = "pick" ->
  PyStr.contains_sub "2025 Round" (asset_name row) = true ->
  truthy (origin_owner row) = true ->
  PyDate.strptime (trade_date row) = Some trade_dt ->
  PyDate.lt trade_dt DRAFT_COMPLETION_DATE = true ->
  parse_round (asset_name row) = Some 1 ->
  lineage_of (origin_owner row) 1 = lineage :: rest ->
  closest_commit commit_cache (trade_date row) = Ok commit_sha ->
  matching (exact_pick_name 1 (pick_in_round lineage))
    (default df_current (historical_values commit_sha (git_df_cache st)).1)
  = [] ->
  let slot := pick_in_round lineage in
  exists st' rec,
    process_row commit_cache df_current st row = Ok st'
    /\ cached_values st' = cached_values st ++ [rec]
    /\ value_at_trade rec = PickTier.get_value slot
    /\ (1 <= slot <= 4 -> value_at_trade rec = 5430)
    /\ (5 <= slot <= 8 -> value_at_trade rec = 2558)
    /\ (9 <= slot <= 12 -> value_at_trade rec = 1232).
Proof.
  intros Htype Hname Horigin Hdate Hlt Hround Hlin Hsha Hexact slot.
  assert (Hfaab : String.eqb (asset_type row) "faab" = false)
    by (rewrite Htype; reflexivity).
  pose proof (value_asset_2025 row commit_sha
                (historical_values commit_sha (git_df_cache st)).1
                df_current Htype Hname Horigin) as Hv.
  rewrite (pre_draft_tier_value _ _ _ _ _ _ _ Hround Hdate Hlt Hlin Hexact),
    (pre_draft_current_value _ _ _ _ _ _ _ _ Hround Hdate Hlt Hlin),
    !bind_ok in Hv.
  eexists. eexists.
  split; [exact (process_row_valued _ _ _ _ _ _ Hfaab Hsha Hv)|].
  split; [reflexivity|].
  cbn [record_of value_at_trade mk_valued v_at_trade fst].
  fold slot. unfold PickTier.get_value.
  split; [reflexivity|].
  repeat split; intros [Hlo Hhi].
  - destruct (Z.leb_spec slot 4); [reflexivity | lia].
  - destruct (Z.leb_spec slot 4); [lia|].
    destruct (Z.leb_spec slot 8); [reflexivity | lia].
  - destruct (Z.leb_spec slot 4); [lia|].
    destruct (Z.leb_spec slot 8); [lia | reflexivity].
Qed.

(** *** The closest commit *)

Lemma search_days_step commit_cache trade_dt sign delta rest :
  search_days commit_cache trade_dt sign (delta :: rest)
  = match snapshot_at commit_cache trade_dt (sign * delta) with
    | Some (Some sha) => Ok (Some sha)
    | Some None => search_days commit_cache trade_dt sign rest
    | None => Raise OverflowError
    end.
Proof.
  cbn [search_days]. unfold snapshot_at.
  destruct (PyDate.add_days trade_dt (sign * delta)); reflexivity.
Qed.

Lemma search_days_miss commit_cache trade_dt sign deltas :
  (forall j, In j deltas ->
             snapshot_at commit_cache trade_dt (sign * j) = Some None) ->
  search_days commit_cache trade_dt sign deltas = Ok None.
Proof.
  induction deltas as [|d deltas IH]; intros H; [reflexivity|].
  rewrite search_days_step, (H d (or_introl eq_refl)).
  apply IH. intros j Hj. apply H. right. exact Hj.
Qed.

Lemma search_days_hit commit_cache trade_dt sign pre delta post sha :
  (forall j, In j pre ->
             snapshot_at commit_cache trade_dt (sign * j) = Some None) ->
  snapshot_at commit_cache trade_dt (sign * delta) = Some (Some sha) ->
  search_days commit_cache trade_dt sign (pre ++ delta :: post)
  = Ok (Some sha).
Proof.
  induction pre as [|d pre IH]; intros Hpre Hhit.
  - cbn [app]. rewrite search_days_step, Hhit. reflexivity.
  - change ((d :: pre) ++ delta :: post) with (d :: (pre ++ delta :: post)).
    rewrite search_days_step, (Hpre d (or_introl eq_refl)).
    apply IH; [|exact Hhit]. intros j Hj. apply Hpre. right. exact Hj.
Qed.

(** [range(1, n + 1)] up to a day [delta] in it. *)
Lemma search_range_split delta :
  1 <= delta <= git_commit_search_days config ->
  search_range
  = seqZ 1 (delta - 1)
    ++ delta :: seqZ (delta + 1) (git_commit_search_days config - delta).
Proof.
  intros [Hlo Hhi]. unfold search_range.
  replace (git_commit_search_days config)
    with ((delta - 1) + (1 + (git_commit_search_days config - delta)))
    at 1 by lia.
  rewrite seqZ_app by lia. f_equal.
  rewrite seqZ_cons by lia. f_equal; [lia|]. f_equal; lia.
Qed.

Lemma search_range_first_hit commit_cache trade_dt sign delta sha :
  1 <= delta <= git_commit_search_days config ->
  (forall j, 1 <= j < delta ->
             snapshot_at commit_cache trade_dt (sign * j) = Some None) ->
  snapshot_at commit_cache trade_dt (sign * delta) = Some (Some sha) ->
  search_days commit_cache trade_dt sign search_range = Ok (Some sha).
Proof.
  intros Hdelta Hmiss Hhit. rewrite (search_range_split delta Hdelta).
  apply search_days_hit; [|exact Hhit].
  intros j Hj. apply Hmiss.
  apply list_elem_of_In, elem_of_seqZ in Hj. lia.
Qed.

Lemma search_range_all_miss commit_cache trade_dt sign :
  (forall j, 1 <= j <= git_commit_search_days config ->
             snapshot_at commit_cache trade_dt (sign * j) = Some None) ->
  search_days commit_cache trade_dt sign search_range = Ok None.
Proof.
  intros Hmiss. apply search_days_miss. intros j Hj. apply Hmiss.
  apply list_elem_of_In, elem_of_seqZ in Hj. lia.
Qed.

Lemma truthy_str_some sha : sha <> "" -> truthy_str (Some sha) = true.
Proof.
  intros H. simpl. destruct (String.eqb_spec sha ""); [congruence|reflexivity].
Qed.

(** Without a table for the trade date, a pick is valued against the
    current table and a player gets no value at trade. *)
Lemma value_asset_pick_without_history row commit_sha df_current :
  asset_type row = "pick" ->
  value_asset row commit_sha None df_current
  = value_asset row commit_sha (Some df_current) df_current.
Proof. intros Htype. unfold value_asset. rewrite Htype. reflexivity. Qed.

Lemma value_asset_player_without_history row commit_sha df_current :
  String.eqb (asset_type row) "pick" = false ->
  exists v,
    value_asset row commit_sha None df_current = Ok v
    /\ v_at_trade v = 0
    /\ v_source_at_trade v = "No Git commit"
    /\ v_current v = first_value (asset_name row) df_current.
Proof.
  intros Htype. unfold value_asset, first_value. rewrite Htype.
  eexists. split; [reflexivity|]. cbn.
  repeat split. destruct (matching (asset_name row) df_current); reflexivity.
Qed.

(** C6 (as amended). The commit for a trade date is the one of the exact
    date if the commit map has it; otherwise the one of the nearest
    earlier day within the search window; otherwise the one of the
    nearest later day within the window; otherwise there is none, no
    historical table is loaded, a pick is then valued against the
    current table, and a player gets [value_at_trade = 0] with source
    "No Git commit". *)
Theorem closest_commit_selection (commit_cache : gmap string string)
    (trade_date : string) :
  let n := git_commit_search_days config in
  (forall sha, commit_cache !! trade_date = Some sha -> sha <> "" ->
     closest_commit commit_cache trade_date = Ok (Some sha))
  /\ forall trade_dt,
      commit_cache !! trade_date = None ->
      PyDate.strptime trade_date = Some trade_dt ->
      (forall delta sha,
         1 <= delta <= n -> sha <> "" ->
         (forall j, 1 <= j < delta ->
            snapshot_at commit_cache trade_dt (- j) = Some None) ->
         snapshot_at commit_cache trade_dt (- delta) = Some (Some sha) ->
         closest_commit commit_cache trade_date = Ok (Some sha))
      /\ ((forall j, 1 <= j <= n ->
             snapshot_at commit_cache trade_dt (- j) = Some None) ->
          (forall delta sha,
             1 <= delta <= n ->
             (forall j, 1 <= j < delta ->
                snapshot_at commit_cache trade_dt j = Some None) ->
             snapshot_at commit_cache trade_dt delta = Some (Some sha) ->
             closest_commit commit_cache trade_date = Ok (Some sha))
          /\ ((forall j, 1 <= j <= n ->
                 snapshot_at commit_cache trade_dt j = Some None) ->
              closest_commit commit_cache trade_date = Ok None
              /\ (forall cache, historical_values None cache = (None, cache))
              /\ (forall row df_current,
                    asset_type row = "pick" ->
                    value_asset row None None df_current
                    = value_asset row None (Some df_current) df_current)
              /\ (forall row df_current,
                    String.eqb (asset_type row) "pick" = false ->
                    exists v,
                      value_asset row None None df_current = Ok v
                      /\ v_at_trade v = 0
                      /\ v_source_at_trade v = "No Git commit"))).
Proof.
  intros n. split.
  - intros sha Hexact Hsha. unfold closest_commit.
    rewrite Hexact, (truthy_str_some sha Hsha). reflexivity.
  - intros trade_dt Hexact Hdate.
    assert (Hstart : forall back,
      search_days commit_cache trade_dt (-1) search_range = Ok back ->
      closest_commit commit_cache trade_date
      = (if truthy_str back then Ok back
         else found ← search_days commit_cache trade_dt 1 search_range;
              Ok (match found with Some s => Some s | None => back end))).
    { intros back Hback. unfold closest_commit.
      rewrite Hexact, Hdate. cbn [truthy_str of_option].
      rewrite bind_ok, Hback, bind_ok. destruct back; reflexivity. }
    assert (Hneg : forall j, -1 * j = - j) by (intros; lia).
    assert (Hpos : forall j, 1 * j = j) by (intros; lia).
    split.
    + intros delta sha Hdelta Hsha Hmiss Hhit.
      rewrite (Hstart (Some sha)), (truthy_str_some sha Hsha); [reflexivity|].
      apply (search_range_first_hit _ _ _ delta); [exact Hdelta | |].
      * intros j Hj. rewrite Hneg. apply Hmiss, Hj.
      * rewrite Hneg. exact Hhit.
    + intros Hback.
      assert (Hnone : search_days commit_cache trade_dt (-1) search_range
                      = Ok None).
      { apply search_range_all_miss. intros j Hj. rewrite Hneg.
        apply Hback, Hj. }
      rewrite (Hstart None Hnone). cbn [truthy_str]. split.
      * intros delta sha Hdelta Hmiss Hhit.
        rewrite (search_range_first_hit _ _ 1 delta sha); [reflexivity | | |].
        -- exact Hdelta.
        -- intros j Hj. rewrite Hpos. apply Hmiss, Hj.
        -- rewrite Hpos. exact Hhit.
      * intros Hfwd. rewrite search_range_all_miss.
        2:{ intros j Hj. rewrite Hpos. apply Hfwd, Hj. }
        split; [reflexivity|]. split; [reflexivity|]. split.
        -- intros row df_current Htype.
           apply value_asset_pick_without_history, Htype.
        -- intros row df_current Htype.
           destruct (value_asset_player_without_history row None df_current Htype)
             as (v & Hv & H0 & Hsrc & _).
           exists v. auto.
Qed.

(** *** An unavailable snapshot *)

(** No table for the trade date: no commit was found, or the table of
    the commit found is neither in the memo table nor readable. *)
Lemma historical_values_unavailable commit_sha cache :
  truthy_str commit_sha = false
  \/ (exists s, commit_sha = Some s /\ cache !! s = None
                /\ read_values_at s = None) ->
  historical_values commit_sha cache = (None, cache).
Proof.
  unfold historical_values, get_values_from_commit.
  intros [-> | (s & -> & Hcache & Hread)]; [reflexivity|].
  destruct (truthy_str (Some s)); [|reflexivity].
  change (default "" (Some s)) with s. rewrite Hcache, Hread. reflexivity.
Qed.

(** The current-season valuator raises only on a trade date that is not
    a date. *)
Lemma get_2025_pick_value_total pick_name origin trade_date df is_current :
  is_Some (PyDate.strptime trade_date) ->
  exists v, get_2025_pick_value pick_name origin trade_date df is_current = Ok v.
Proof.
  intros [trade_dt Hdate]. unfold get_2025_pick_value.
  destruct (parse_round pick_name); [|eexists; reflexivity].
  rewrite Hdate. cbn [of_option]. rewrite bind_ok.
  destruct (lineage_of origin z); [eexists; reflexivity|].
  destruct (PyDate.lt trade_dt DRAFT_COMPLETION_DATE); [|eexists; reflexivity].
  destruct is_current; [eexists; reflexivity|].
  destruct (matching _ df); [|eexists; reflexivity].
  destruct (z =? 1); [eexists; reflexivity|].
  destruct (matching _ df); eexists; reflexivity.
Qed.

(** C2 (as amended). When the snapshot table for a row is unavailable
    (no commit within the window, or the table of the commit cannot be
    read), the row is still processed. A pick is processed exactly as if
    the current table were the snapshot, so its [value_at_trade] is
    computed against the current table; a current-season pick with a
    well-formed trade date yields a record. A player yields a record with
    [value_at_trade = 0] and source "No Git commit": the current table is
    used for its [value_current] only. *)
Theorem snapshot_unavailable (commit_cache : gmap string string)
    (df_current : list ValueRow) (st : loop_state) (row : AssetRow)
    (commit_sha : option string) :
  String.eqb (asset_type row) "faab" = false ->
  closest_commit commit_cache (trade_date row) = Ok commit_sha ->
  (truthy_str commit_sha = false
   \/ exists s, commit_sha = Some s /\ git_df_cache st !! s = None
                /\ read_values_at s = None) ->
  (asset_type row = "pick" ->
     process_row commit_cache df_current st row
     = (v ← value_asset row commit_sha (Some df_current) df_current;
        Ok {| cached_values := cached_values st ++ [record_of row v];
              zero_value_count :=
                if v_at_trade v =? 0
                then zero_value_count st + 1 else zero_value_count st;
              git_df_cache := git_df_cache st |}))
  /\ (asset_type row = "pick" ->
      PyStr.contains_sub "2025 Round" (asset_name row) = true ->
      truthy (origin_owner row) = true ->
      is_Some (PyDate.strptime (trade_date row)) ->
      exists st' at_trade,
        process_row commit_cache df_current st row = Ok st'
        /\ get_2025_pick_value (asset_name row) (origin_owner row)
             (trade_date row) df_current false = Ok at_trade
        /\ (value_at_trade <$> last (cached_values st')) = Some at_trade.1.1)
  /\ (String.eqb (asset_type row) "pick" = false ->
      exists rec,
        process_row commit_cache df_current st row
        = Ok {| cached_values := cached_values st ++ [rec];
                zero_value_count := zero_value_count st + 1;
                git_df_cache := git_df_cache st |}
        /\ value_at_trade rec = 0
        /\ value_source_at_trade rec = "No Git commit"
        /\ value_current rec = first_value (asset_name row) df_current).
Proof.
  intros Hfaab Hsha Hunavailable.
  pose proof (historical_values_unavailable commit_sha (git_df_cache st)
                Hunavailable) as Hhist.
  assert (Hrow : process_row commit_cache df_current st row
    = (v ← value_asset row commit_sha None df_current;
       Ok {| cached_values := cached_values st ++ [record_of row v];
             zero_value_count :=
               if v_at_trade v =? 0
               then zero_value_count st + 1 else zero_value_count st;
             git_df_cache := git_df_cache st |})).
  { unfold process_row. rewrite Hfaab, Hsha, bind_ok, Hhist. reflexivity. }
  split; [|split].
  - intros Htype. rewrite Hrow.
    rewrite (value_asset_pick_without_history _ _ _ Htype). reflexivity.
  - intros Htype Hname Horigin Hdate. rewrite Hrow.
    rewrite (value_asset_2025 _ _ _ _ Htype Hname Horigin).
    change (default df_current None) with df_current.
    destruct (get_2025_pick_value_total (asset_name row) (origin_owner row)
                (trade_date row) df_current false Hdate) as (a & Ha).
    destruct (get_2025_pick_value_total (asset_name row) (origin_owner row)
                (trade_date row) df_current true Hdate) as (c & Hc).
    rewrite Ha, Hc, !bind_ok.
    eexists. exists a. split; [reflexivity|]. split; [reflexivity|].
    cbn [cached_values]. rewrite last_snoc. reflexivity.
  - intros Htype.
    destruct (value_asset_player_without_history row commit_sha df_current Htype)
      as (v & Hv & H0 & Hsrc & Hcur).
    rewrite Hrow, Hv, bind_ok, H0. exists (record_of row v).
    split; [reflexivity|]. cbn. auto.
Qed.

(** *** The memo table does not show in the output *)

Lemma coherent_empty : coherent ∅.
Proof. intros sha df H. rewrite lookup_empty in H. discriminate. Qed.

Lemma get_values_from_commit_coherent sha cache :
  coherent cache ->
  (get_values_from_commit sha cache).1 = read_values_at sha
  /\ coherent (get_values_from_commit sha cache).2.
Proof.
  intros Hc. unfold get_values_from_commit.
  destruct (cache !! sha) as [df|] eqn:Hlook.
  - split; [symmetry; apply Hc, Hlook | exact Hc].
  - destruct (read_values_at sha) as [df|] eqn:Hread; (split; [reflexivity|]);
      [|exact Hc].
    intros s df' Hs. cbn in Hs.
    destruct (decide (sha = s)) as [->|Hne].
    + rewrite lookup_insert_eq in Hs. congruence.
    + rewrite lookup_insert_ne in Hs by exact Hne. apply Hc, Hs.
Qed.

Lemma historical_values_coherent commit_sha cache1 cache2 :
  coherent cache1 -> coherent cache2 ->
  (historical_values commit_sha cache1).1
  = (historical_values commit_sha cache2).1
  /\ coherent (historical_values commit_sha cache1).2
  /\ coherent (historical_values commit_sha cache2).2.
Proof.
  intros H1 H2. unfold historical_values.
  destruct (truthy_str commit_sha); [|auto].
  destruct (get_values_from_commit_coherent (default "" commit_sha) _ H1)
    as [E1 C1].
  destruct (get_values_from_commit_coherent (default "" commit_sha) _ H2)
    as [E2 C2].
  rewrite E1, E2. auto.
Qed.

Lemma process_row_coherent commit_cache df_current st1 st2 row :
  cached_values st1 = cached_values st2 ->
  zero_value_count st1 = zero_value_count st2 ->
  coherent (git_df_cache st1) -> coherent (git_df_cache st2) ->
  match process_row commit_cache df_current st1 row,
        process_row commit_cache df_current st2 row with
  | Ok a, Ok b =>
      cached_values a = cached_values b
      /\ zero_value_count a = zero_value_count b
      /\ coherent (git_df_cache a) /\ coherent (git_df_cache b)
  | Raise e1, Raise e2 => e1 = e2
  | _, _ => False
  end.
Proof.
  intros Hrec Hzero H1 H2. unfold process_row.
  destruct (String.eqb (asset_type row) "faab").
  - destruct (faab_record row) as [rec|e]; [|reflexivity].
    rewrite !bind_ok. cbn. rewrite Hrec. auto.
  - destruct (closest_commit commit_cache (trade_date row)) as [sha|e];
      [|reflexivity].
    rewrite !bind_ok.
    destruct (historical_values_coherent sha _ _ H1 H2) as (E & C1 & C2).
    rewrite E.
    destruct (value_asset row sha _ df_current) as [v|e]; [|reflexivity].
    rewrite !bind_ok. cbn. rewrite Hrec, Hzero. auto.
Qed.

Lemma process_rows_coherent commit_cache df_current rows : forall st1 st2,
  cached_values st1 = cached_values st2 ->
  zero_value_count st1 = zero_value_count st2 ->
  coherent (git_df_cache st1) -> coherent (git_df_cache st2) ->
  match process_rows commit_cache df_current st1 rows,
        process_rows commit_cache df_current st2 rows with
  | Ok a, Ok b =>
      cached_values a = cached_values b
      /\ zero_value_count a = zero_value_count b
      /\ coherent (git_df_cache a) /\ coherent (git_df_cache b)
  | Raise e1, Raise e2 => e1 = e2
  | _, _ => False
  end.
Proof.
  induction rows as [|row rows IH]; intros st1 st2 Hrec Hzero H1 H2.
  - cbn. auto.
  - cbn [process_rows].
    pose proof (process_row_coherent commit_cache df_current st1 st2 row
                  Hrec Hzero H1 H2) as Hrow.
    destruct (process_row commit_cache df_current st1 row) as [a|e1],
             (process_row commit_cache df_current st2 row) as [b|e2];
      try contradiction.
    + rewrite !bind_ok. destruct Hrow as (Ha & Hb & Hc & Hd).
      apply IH; assumption.
    + exact Hrow.
Qed.

(** C9. The records of a run do not depend on what the memo table of
    value tables holds, as long as it holds what reading the commits
    gives: started from any such table the loop ends with the same
    records, or raises the same exception, as started from the empty
    table of [cache_asset_values]. The table a run leaves is of that
    kind, so a second run over the same rows that inherits it produces
    the records of the first. *)
Theorem valuation_is_deterministic (commit_cache : gmap string string)
    (df_current : list ValueRow) (rows : list AssetRow)
    (cache : gmap string (list ValueRow)) :
  coherent cache ->
  (st ← process_rows commit_cache df_current
          (with_cache initial_state cache) rows;
   Ok (cached_values st))
  = (st ← process_rows commit_cache df_current initial_state rows;
     Ok (cached_values st))
  /\ forall st1,
      process_rows commit_cache df_current initial_state rows = Ok st1 ->
      coherent (git_df_cache st1)
      /\ (st ← process_rows commit_cache df_current
                 (with_cache initial_state (git_df_cache st1)) rows;
          Ok (cached_values st))
         = Ok (cached_values st1).
Proof.
  intros Hcache.
  assert (Hany : forall c, coherent c ->
    match process_rows commit_cache df_current (with_cache initial_state c) rows,
          process_rows commit_cache df_current initial_state rows with
    | Ok a, Ok b =>
        cached_values a = cached_values b
        /\ zero_value_count a = zero_value_count b
        /\ coherent (git_df_cache a) /\ coherent (git_df_cache b)
    | Raise e1, Raise e2 => e1 = e2
    | _, _ => False
    end).
  { intros c Hc. apply process_rows_coherent;
      [reflexivity | reflexivity | exact Hc | apply coherent_empty]. }
  split.
  - specialize (Hany cache Hcache).
    destruct (process_rows _ _ (with_cache initial_state cache) rows),
             (process_rows _ _ initial_state rows); try contradiction.
    + rewrite !bind_ok. f_equal. apply Hany.
    + cbn. f_equal. exact Hany.
  - intros st1 Hrun.
    assert (Hco : coherent (git_df_cache st1)).
    { specialize (Hany ∅ coherent_empty).
      change (with_cache initial_state ∅) with initial_state in Hany.
      rewrite Hrun in Hany. apply Hany. }
    split; [exact Hco|].
    specialize (Hany (git_df_cache st1) Hco). rewrite Hrun in Hany.
    destruct (process_rows _ _ (with_cache initial_state (git_df_cache st1)) rows);
      [|contradiction].
    rewrite bind_ok. f_equal. apply Hany.
Qed.

(** *** The zero-value gate *)

Lemma validate_stage3_output_too_many w output_file max_zero_pct :
  validate_stage3_output w output_file max_zero_pct
  = Raise (ValidationError TooManyZeroValues)
  <-> exists df,
        files w !! output_file = Some (ValuesFile df)
        /\ df <> []
        /\ (max_zero_pct < zero_pct df)%Q.
Proof.
  unfold validate_stage3_output. split.
  - destruct (files w !! output_file) as [[rows|df|]|]; try discriminate.
    destruct df as [|r df]; [discriminate|].
    destruct (Qle_bool (zero_pct (r :: df)) max_zero_pct) eqn:E;
      [discriminate|].
    intros _. exists (r :: df). split; [reflexivity|]. split; [discriminate|].
    apply Qnot_le_lt. intros Hle. apply Qle_bool_iff in Hle. congruence.
  - intros (df & -> & Hne & Hlt).
    destruct df as [|r df]; [congruence|].
    destruct (Qle_bool (zero_pct (r :: df)) max_zero_pct) eqn:E; [|reflexivity].
    apply Qle_bool_iff in E. exfalso. exact (Qlt_not_le _ _ Hlt E).
Qed.

Lemma process_rows_length commit_cache df_current rows : forall st st',
  process_rows commit_cache df_current st rows = Ok st' ->
  List.length (cached_values st')
  = (List.length (cached_values st) + List.length rows)%nat.
Proof.
  induction rows as [|row rows IH]; intros st st' H.
  - cbn in H. injection H as <-. cbn. lia.
  - cbn [process_rows] in H.
    destruct (process_row commit_cache df_current st row) as [st1|e] eqn:Hrow;
      [|discriminate].
    rewrite bind_ok in H. rewrite (IH _ _ H). cbn [List.length].
    assert (Hone : List.length (cached_values st1)
                   = S (List.length (cached_values st))); [|lia].
    unfold process_row in Hrow.
    destruct (String.eqb (asset_type row) "faab").
    + destruct (faab_record row); [|discriminate].
      rewrite bind_ok in Hrow. injection Hrow as <-. cbn.
      rewrite length_app. cbn. lia.
    + destruct (closest_commit commit_cache (trade_date row)); [|discriminate].
      rewrite bind_ok in Hrow.
      destruct (value_asset _ _ _ _); [|discriminate].
      rewrite bind_ok in Hrow. injection Hrow as <-. cbn.
      rewrite length_app. cbn. lia.
Qed.

(** One record per asset row, FAAB rows included. *)
Lemma cache_asset_values_length df_assets cached :
  cache_asset_values df_assets = Ok cached ->
  List.length cached = List.length df_assets.
Proof.
  unfold cache_asset_values.
  destruct load_current_values as [df_current|]; [|discriminate].
  rewrite bind_ok.
  destruct (load_commit_cache df_assets) as [commit_cache|]; [|discriminate].
  rewrite bind_ok.
  destruct (process_rows commit_cache df_current initial_state df_assets)
    as [st|] eqn:Hrun; [|discriminate].
  rewrite bind_ok. intros [= <-].
  rewrite (process_rows_length _ _ _ _ _ Hrun). reflexivity.
Qed.

(** What [main] does once the valuation has succeeded: the table is
    written and backed up, then validated. *)
Lemma main_after_valuation w df_assets cached :
  validate_stage3_prerequisites w = Ok tt ->
  read_asset_transactions w = Ok df_assets ->
  cache_asset_values df_assets = Ok cached ->
  let w' := backup_file OutputFiles.ASSET_VALUES_CACHE
              (to_csv OutputFiles.ASSET_VALUES_CACHE cached w) in
  files w' !! OutputFiles.ASSET_VALUES_CACHE = Some (ValuesFile cached)
  /\ backups w' = backups w ++ [ValuesFile cached]
  /\ main w
     = (w', match validate_stage3_output w' OutputFiles.ASSET_VALUES_CACHE
                    (max_zero_value_pct config) with
            | Raise e => Raise e
            | Ok _ => Ok OutputFiles.ASSET_VALUES_CACHE
            end).
Proof.
  intros Hpre Hread Hrun w'.
  assert (Hw' : w' = {| files := <[OutputFiles.ASSET_VALUES_CACHE
                                   := ValuesFile cached]> (files w);
                        backups := backups w ++ [ValuesFile cached] |}).
  { unfold w', backup_file, to_csv. cbn [files backups].
    rewrite lookup_insert_eq. reflexivity. }
  split; [rewrite Hw'; cbn [files]; apply lookup_insert_eq|].
  split; [rewrite Hw'; reflexivity|].
  unfold main. rewrite Hpre, Hread, Hrun. fold w'.
  destruct (validate_stage3_output w' _ _); reflexivity.
Qed.

(** C1 (as amended). When more than the configured fraction of the
    records of a batch have [value_at_trade = 0], [main] raises the
    data-quality failure. It does so after the valuation table has been
    written to the output file and backed up: the file then holds the
    records of the batch. The script exits with status 1 and the driver
    stops there, so no later stage runs on that table. *)
Theorem zero_value_gate_after_write (w : world) (df_assets : list AssetRow)
    (cached : list ValuationRecord) :
  validate_stage3_prerequisites w = Ok tt ->
  read_asset_transactions w = Ok df_assets ->
  cache_asset_values df_assets = Ok cached ->
  cached <> [] ->
  (max_zero_value_pct config < zero_pct cached)%Q ->
  exists w',
    main w = (w', Raise (ValidationError TooManyZeroValues))
    /\ files w' !! OutputFiles.ASSET_VALUES_CACHE = Some (ValuesFile cached)
    /\ backups w' = backups w ++ [ValuesFile cached]
    /\ stage3_script w = (w', 1)
    /\ forall later_stages, pipeline_from_stage3 later_stages w = (w', false).
Proof.
  intros Hpre Hread Hrun Hne Hlt.
  destruct (main_after_valuation w df_assets cached Hpre Hread Hrun)
    as (Hfile & Hbackup & Hmain).
  assert (Hraise : main w
    = (backup_file OutputFiles.ASSET_VALUES_CACHE
         (to_csv OutputFiles.ASSET_VALUES_CACHE cached w),
       Raise (ValidationError TooManyZeroValues))).
  { rewrite Hmain. f_equal.
    replace (validate_stage3_output _ _ _)
      with (@Raise unit (ValidationError TooManyZeroValues)); [reflexivity|].
    symmetry. apply validate_stage3_output_too_many.
    exists cached. auto. }
  eexists. split; [exact Hraise|].
  split; [exact Hfile|]. split; [exact Hbackup|].
  assert (Hscript : stage3_script w
    = (backup_file OutputFiles.ASSET_VALUES_CACHE
         (to_csv OutputFiles.ASSET_VALUES_CACHE cached w), 1)).
  { unfold stage3_script. rewrite Hraise. reflexivity. }
  split; [exact Hscript|].
  intros later_stages. unfold pipeline_from_stage3. rewrite Hscript.
  reflexivity.
Qed.

Lemma zero_at_trade_cons r df :
  zero_at_trade (r :: df)
  = (if value_at_trade r =? 0 then 1 else 0) + zero_at_trade df.
Proof.
  unfold zero_at_trade. cbn [List.filter].
  destruct (value_at_trade r =? 0); cbn [List.length]; lia.
Qed.

Lemma zero_at_trade_column df1 : forall df2,
  map value_at_trade df1 = map value_at_trade df2 ->
  zero_at_trade df1 = zero_at_trade df2.
Proof.
  induction df1 as [|r1 df1 IH]; intros [|r2 df2] H; try discriminate.
  - reflexivity.
  - cbn [map] in H. injection H as Hr Hdf.
    rewrite !zero_at_trade_cons, Hr, (IH _ Hdf). reflexivity.
Qed.

(** C10. The gate counts the records whose [value_at_trade] is 0 and
    nothing else: the count and the fraction are functions of the
    [value_at_trade] column alone, so [value_current] never contributes.
    The fraction is taken over all records of the batch, one per asset
    row, FAAB rows included. Once the valuation has produced its records,
    [main] raises the data-quality failure exactly when that fraction
    exceeds the configured threshold. *)
Theorem zero_value_gate_counts_value_at_trade :
  (forall r df,
     zero_at_trade (r :: df)
     = (if value_at_trade r =? 0 then 1 else 0) + zero_at_trade df)
  /\ (forall df1 df2,
        map value_at_trade df1 = map value_at_trade df2 ->
        zero_at_trade df1 = zero_at_trade df2 /\ zero_pct df1 = zero_pct df2)
  /\ (forall w df_assets cached,
        validate_stage3_prerequisites w = Ok tt ->
        read_asset_transactions w = Ok df_assets ->
        cache_asset_values df_assets = Ok cached ->
        cached <> [] ->
        List.length cached = List.length df_assets
        /\ ((main w).2 = Raise (ValidationError TooManyZeroValues)
            <-> (max_zero_value_pct config
                 < inject_Z (zero_at_trade cached)
                   / inject_Z (Z.of_nat (List.length cached)))%Q)).
Proof.
  split; [exact zero_at_trade_cons|]. split.
  - intros df1 df2 H. pose proof (zero_at_trade_column df1 df2 H) as Hz.
    split; [exact Hz|]. unfold zero_pct. rewrite Hz.
    assert (Hlen : List.length df1 = List.length df2).
    { rewrite <- (length_map value_at_trade df1), H. apply length_map. }
    rewrite Hlen. reflexivity.
  - intros w df_assets cached Hpre Hread Hrun Hne.
    split; [exact (cache_asset_values_length _ _ Hrun)|].
    destruct (main_after_valuation w df_assets cached Hpre Hread Hrun)
      as (Hfile & _ & Hmain).
    rewrite Hmain. cbn [snd].
    fold (zero_pct cached). split.
    + intros H.
      destruct (validate_stage3_output _ _ _) as [u|e] eqn:Hval;
        [discriminate|].
      injection H as ->.
      apply validate_stage3_output_too_many in Hval as (df & Hdf & _ & Hlt).
      rewrite Hfile in Hdf. injection Hdf as <-. exact Hlt.
    + intros Hlt.
      replace (validate_stage3_output _ _ _)
        with (@Raise unit (ValidationError TooManyZeroValues)); [reflexivity|].
      symmetry. apply validate_stage3_output_too_many. exists cached. auto.
Qed.

(* ================================================================== *)
(** ** Further properties of the valuation stage *)
(* ================================================================== *)

(** *** The pick lineage and the origin mapping *)

Lemma add_lineage_insert m row :
  add_lineage m row
  = <[lineage_key row
      := default [] (m !! lineage_key row) ++ [lineage_entry row]]> m.
Proof. reflexivity. Qed.

Lemma foldl_add_lineage_lookup rows : forall m key,
  foldl add_lineage m rows !! key
  = match map lineage_entry
            (List.filter (fun row => bool_decide (lineage_key row = key)) rows)
    with
    | [] => m !! key
    | es => Some (default [] (m !! key) ++ es)
    end.
Proof.
  induction rows as [|row rows IH]; intros m key; [reflexivity|].
  cbn [foldl List.filter]. rewrite IH, add_lineage_insert.
  destruct (bool_decide_reflect (lineage_key row = key)) as [<-|Hne].
  - rewrite lookup_insert_eq. cbn [map].
    destruct (map lineage_entry _) as [|e es]; [reflexivity|].
    cbn [default from_option id]. rewrite <- app_assoc. reflexivity.
  - rewrite lookup_insert_ne by exact Hne. reflexivity.
Qed.

(** X1. The lineage of an origin owner and round is made of the draft
    rows whose slot the origin mapping gives to that owner in that round,
    in the order of the draft results; an owner that is missing or [NaN]
    has none. *)
Theorem lineage_of_draft_rows (o : string) (round_num : Z) :
  lineage_of (CStr o) round_num
  = map lineage_entry
      (List.filter (fun row => bool_decide (lineage_key row = (o, round_num)))
         DRAFT_RESULTS)
  /\ lineage_of CNaN round_num = []
  /\ lineage_of CNone round_num = [].
Proof.
  split; [|split; reflexivity].
  unfold lineage_of, PICK_LINEAGE. rewrite foldl_add_lineage_lookup.
  rewrite lookup_empty.
  destruct (map lineage_entry _); reflexivity.
Qed.

Lemma explicit_origins_in_range round_num pick o :
  PickOrigin.EXPLICIT_ORIGINS !! (round_num, pick) = Some o ->
  1 <= round_num <= 4 /\ 1 <= pick <= 12.
Proof.
  intros H. apply elem_of_map_to_list in H.
  remember (map_to_list PickOrigin.EXPLICIT_ORIGINS) as l eqn:Hl.
  vm_compute in Hl. subst l.
  repeat (apply elem_of_cons in H as [H|H]; [injection H as -> -> _; lia|]).
  apply elem_of_nil in H. contradiction.
Qed.

Lemma owner_to_roster_names name roster :
  PickRoster.OWNER_TO_ROSTER !! name = Some roster ->
  In name (map snd PickRoster.ROSTER_TO_OWNER_ITEMS).
Proof.
  intros H. apply elem_of_map_to_list in H.
  remember (map_to_list PickRoster.OWNER_TO_ROSTER) as l eqn:Hl.
  vm_compute in Hl. subst l.
  repeat (apply elem_of_cons in H as [H|H];
          [injection H as -> _; cbn; tauto|]).
  apply elem_of_nil in H. contradiction.
Qed.

Lemma origins_checked :
  forallb (fun r =>
    forallb (fun p =>
      String.eqb (PickOrigin.get_pick_origin_owner r p)
                 (PickOrigin.get_pick_origin_owner 1 p)
      && (1 <=? PickRoster.get_pick_origin_roster r p)
      && (PickRoster.get_pick_origin_roster r p <=? 12)
      && forallb (fun q =>
           negb (String.eqb (PickOrigin.get_pick_origin_owner r p)
                            (PickOrigin.get_pick_origin_owner r q))
           || (p =? q)) (seqZ 1 12))
      (seqZ 1 12)) (seqZ 1 4) = true.
Proof. vm_compute. reflexivity. Qed.

Lemma origins_in_range round_num pick :
  1 <= round_num <= 4 -> 1 <= pick <= 12 ->
  PickOrigin.get_pick_origin_owner round_num pick
  = PickOrigin.get_pick_origin_owner 1 pick
  /\ 1 <= PickRoster.get_pick_origin_roster round_num pick <= 12
  /\ forall q, 1 <= q <= 12 ->
       PickOrigin.get_pick_origin_owner round_num pick
       = PickOrigin.get_pick_origin_owner round_num q -> pick = q.
Proof.
  intros Hr Hp. pose proof origins_checked as H.
  rewrite forallb_forall in H.
  specialize (H round_num). rewrite forallb_forall in H.
  assert (Hin : forall a b n, a <= n < a + b -> In n (seqZ a b)).
  { intros a b n Hn. apply list_elem_of_In, elem_of_seqZ. exact Hn. }
  specialize (H (Hin 1 4 round_num ltac:(lia)) pick (Hin 1 12 pick ltac:(lia))).
  apply andb_prop in H as [H Hinj]. apply andb_prop in H as [H Hhi].
  apply andb_prop in H as [Heq Hlo].
  apply String.eqb_eq in Heq. apply Z.leb_le in Hlo, Hhi.
  split; [exact Heq|]. split; [lia|].
  intros q Hq Hsame. rewrite forallb_forall in Hinj.
  specialize (Hinj q (Hin 1 12 q ltac:(lia))).
  rewrite Hsame, String.eqb_refl in Hinj. cbn in Hinj.
  apply Z.eqb_eq in Hinj. exact Hinj.
Qed.

(** X2. The origin mapping is the linear draft: in rounds 1 to 4 a slot
    1 to 12 belongs to the owner of that slot in round 1, that owner has
    a roster number from 1 to 12, and no owner has two slots of a round.
    Any other round or slot gets the placeholder name
    [UNKNOWN_R<round>P<slot>] and roster 0. *)
Theorem origin_mapping_is_linear (round_num pick : Z) :
  (1 <= round_num <= 4 -> 1 <= pick <= 12 ->
     PickOrigin.get_pick_origin_owner round_num pick
     = PickOrigin.get_pick_origin_owner 1 pick
     /\ 1 <= PickRoster.get_pick_origin_roster round_num pick <= 12
     /\ forall q, 1 <= q <= 12 ->
          PickOrigin.get_pick_origin_owner round_num pick
          = PickOrigin.get_pick_origin_owner round_num q -> pick = q)
  /\ (~ (1 <= round_num <= 4 /\ 1 <= pick <= 12) ->
      PickOrigin.get_pick_origin_owner round_num pick
      = "UNKNOWN_R" +:+ PyStr.str round_num +:+ "P" +:+ PyStr.str pick
      /\ PickRoster.get_pick_origin_roster round_num pick = 0).
Proof using.
  clear. split; [apply origins_in_range|].
  intros Hout.
  assert (Howner : PickOrigin.get_pick_origin_owner round_num pick
                   = "UNKNOWN_R" +:+ PyStr.str round_num +:+ "P"
                     +:+ PyStr.str pick).
  { unfold PickOrigin.get_pick_origin_owner.
    destruct (PickOrigin.EXPLICIT_ORIGINS !! (round_num, pick)) as [o|] eqn:E;
      [|reflexivity].
    exfalso. apply Hout. exact (explicit_origins_in_range _ _ _ E). }
  split; [exact Howner|].
  unfold PickRoster.get_pick_origin_roster. rewrite Howner.
  destruct (PickRoster.OWNER_TO_ROSTER !! _) as [z|] eqn:E; [|reflexivity].
  exfalso. apply owner_to_roster_names in E.
  change ("UNKNOWN_R" +:+ PyStr.str round_num +:+ "P" +:+ PyStr.str pick)
    with (String "U" ("NKNOWN_R" +:+ PyStr.str round_num +:+ "P"
                        +:+ PyStr.str pick)) in E.
  cbn in E. intuition discriminate.
Qed.

Lemma filter_same_key_short {A B : Type} (f : A -> B) (P : A -> bool) l :
  NoDup (map f l) ->
  (forall x y, In x l -> In y l -> P x = true -> P y = true -> f x = f y) ->
  (List.length (List.filter P l) <= 1)%nat.
Proof.
  induction l as [|a l IH]; intros Hnd Hkey; [cbn; lia|].
  cbn [map] in Hnd. apply NoDup_cons in Hnd as [Hnotin Hnd].
  assert (IHl : (List.length (List.filter P l) <= 1)%nat).
  { apply IH; [exact Hnd|]. intros x y Hx Hy. apply Hkey; right; assumption. }
  cbn [List.filter]. destruct (P a) eqn:Pa; [|exact IHl].
  destruct (List.filter P l) as [|b rest] eqn:Hf; [cbn; lia|].
  exfalso. apply Hnotin.
  assert (Hb : In b (List.filter P l)) by (rewrite Hf; left; reflexivity).
  apply filter_In in Hb as [Hbl Pb].
  rewrite (Hkey a b (or_introl eq_refl) (or_intror Hbl) Pa Pb).
  apply list_elem_of_In, in_map, Hbl.
Qed.

(** X3. When the draft results list every slot of rounds 1 to 4 at most
    once, with slots from 1 to 12, a lineage has at most one entry: the
    first entry the valuators take is the only one. *)
Theorem lineage_has_one_entry (origin : cell) (round_num : Z) :
  (forall row, In row DRAFT_RESULTS ->
     1 <= dr_round row <= 4 /\ 1 <= dr_pick_in_round row <= 12) ->
  NoDup (map (fun row => (dr_round row, dr_pick_in_round row)) DRAFT_RESULTS) ->
  (List.length (lineage_of origin round_num) <= 1)%nat.
Proof.
  intros Hrange Hnd.
  destruct origin as [| |o]; [cbn; lia | cbn; lia |].
  unfold lineage_of, PICK_LINEAGE. rewrite foldl_add_lineage_lookup, lookup_empty.
  assert (Hlen : (List.length
                    (map lineage_entry
                       (List.filter
                          (fun row => bool_decide (lineage_key row = (o, round_num)))
                          DRAFT_RESULTS)) <= 1)%nat).
  { rewrite length_map. apply (filter_same_key_short _ _ _ Hnd).
    intros x y Hx Hy Px Py.
    apply bool_decide_eq_true in Px, Py. unfold lineage_key in Px, Py.
    apply pair_equal_spec in Px as [Ox Rx].
    apply pair_equal_spec in Py as [Oy Ry].
    destruct (Hrange x Hx) as [Hrx Hpx]. destruct (Hrange y Hy) as [Hry Hpy].
    f_equal; [congruence|].
    destruct (origins_in_range (dr_round x) (dr_pick_in_round x) Hrx Hpx)
      as (_ & _ & Hinj).
    apply Hinj; [exact Hpy|]. rewrite Ox, Rx, <- Ry, Oy. reflexivity. }
  destruct (map lineage_entry _); [cbn; lia | exact Hlen].
Qed.

(** *** The commit map and the memo table *)

Lemma foldl_insert_lookup (l : list (string * string)) :
  forall (m : gmap string string) (d : string),
  foldl (fun m kv => <[fst kv := snd kv]> m) m l !! d
  = match last (List.filter (fun kv => String.eqb (fst kv) d) l) with
    | Some kv => Some (snd kv)
    | None => m !! d
    end.
Proof.
  induction l as [|kv l IH]; intros m d; [reflexivity|].
  cbn [foldl List.filter]. rewrite IH.
  destruct (String.eqb_spec (fst kv) d) as [<-|Hne].
  - rewrite last_cons, lookup_insert_eq.
    destruct (last _); reflexivity.
  - rewrite lookup_insert_ne by exact Hne. reflexivity.
Qed.

(** X4. The commit map holds, for a day, the SHA of the last commit of
    the listing that carries that day, and nothing for a day no commit
    carries; when the listing fails or is empty the map is empty. *)
Theorem commit_map_last_of_day (since_date : datetime) (d : string) :
  get_all_commits_since since_date !! d
  = match github_commits since_date with
    | Some commits =>
        snd <$> last (List.filter (fun kv => String.eqb (fst kv) d) commits)
    | None => None
    end.
Proof.
  unfold get_all_commits_since.
  destruct (github_commits since_date) as [[|c cs]|];
    [apply lookup_empty | | apply lookup_empty].
  rewrite foldl_insert_lookup, lookup_empty.
  destruct (last _); reflexivity.
Qed.

Lemma search_days_found commit_cache trade_dt sign deltas : forall sha,
  search_days commit_cache trade_dt sign deltas = Ok (Some sha) ->
  exists delta, In delta deltas
    /\ snapshot_at commit_cache trade_dt (sign * delta) = Some (Some sha).
Proof.
  induction deltas as [|d deltas IH]; intros sha H; [discriminate|].
  rewrite search_days_step in H.
  destruct (snapshot_at commit_cache trade_dt (sign * d)) as [[s|]|] eqn:E;
    [| |discriminate].
  - injection H as ->. exists d. split; [left; reflexivity | exact E].
  - destruct (IH sha H) as (delta & Hin & Hs).
    exists delta. split; [right; exact Hin | exact Hs].
Qed.

Lemma in_search_range delta :
  In delta search_range -> 1 <= delta <= git_commit_search_days config.
Proof.
  intros H. apply list_elem_of_In, elem_of_seqZ in H. lia.
Qed.

(** X6. A commit chosen for a trade date is the commit of the trade
    date itself or of a day at most the search window away from it:
    nothing outside the window is ever chosen. *)
Theorem closest_commit_within_window (commit_cache : gmap string string)
    (trade_date sha : string) :
  closest_commit commit_cache trade_date = Ok (Some sha) ->
  commit_cache !! trade_date = Some sha
  \/ exists trade_dt k,
       PyDate.strptime trade_date = Some trade_dt
       /\ 1 <= Z.abs k <= git_commit_search_days config
       /\ snapshot_at commit_cache trade_dt k = Some (Some sha).
Proof.
  unfold closest_commit. intros H.
  destruct (truthy_str (commit_cache !! trade_date)) eqn:Hexact;
    [left; injection H as ->; reflexivity|].
  destruct (PyDate.strptime trade_date) as [trade_dt|] eqn:Hdate;
    [|discriminate].
  cbn [of_option] in H. rewrite bind_ok in H.
  destruct (search_days commit_cache trade_dt (-1) search_range)
    as [back|] eqn:Hback; [|discriminate].
  rewrite bind_ok in H.
  destruct back as [s|].
  - destruct (search_days_found _ _ _ _ _ Hback) as (delta & Hin & Hs).
    apply in_search_range in Hin.
    destruct (truthy_str (Some s)) eqn:Hs_truthy.
    + injection H as ->. right. exists trade_dt, (-1 * delta).
      split; [reflexivity|]. split; [lia | exact Hs].
    + destruct (search_days commit_cache trade_dt 1 search_range)
        as [[s'|]|] eqn:Hfwd; [| |discriminate].
      * rewrite bind_ok in H. injection H as ->.
        destruct (search_days_found _ _ _ _ _ Hfwd) as (delta' & Hin' & Hs').
        apply in_search_range in Hin'.
        right. exists trade_dt, (1 * delta').
        split; [reflexivity|]. split; [lia | exact Hs'].
      * rewrite bind_ok in H. injection H as ->.
        right. exists trade_dt, (-1 * delta).
        split; [reflexivity|]. split; [lia | exact Hs].
  - rewrite Hexact in H.
    destruct (search_days commit_cache trade_dt 1 search_range)
      as [[s'|]|] eqn:Hfwd; [| |discriminate].
    + rewrite bind_ok in H. injection H as ->.
      destruct (search_days_found _ _ _ _ _ Hfwd) as (delta' & Hin' & Hs').
      apply in_search_range in Hin'.
      right. exists trade_dt, (1 * delta').
      split; [reflexivity|]. split; [lia | exact Hs'].
    + rewrite bind_ok in H. left. injection H as H. exact H.
Qed.

(** X7. Without a commit for the trade date itself, a trade date that
    is not a date makes the search raise [ValueError]; and with a search
    window of no days the search consults the trade date alone. *)
Theorem closest_commit_edges (commit_cache : gmap string string)
    (trade_date : string) :
  truthy_str (commit_cache !! trade_date) = false ->
  (PyDate.strptime trade_date = None ->
     closest_commit commit_cache trade_date = Raise ValueError)
  /\ (is_Some (PyDate.strptime trade_date) ->
      git_commit_search_days config <= 0 ->
      closest_commit commit_cache trade_date
      = Ok (commit_cache !! trade_date)).
Proof.
  intros Hexact. unfold closest_commit. rewrite Hexact. split.
  - intros ->. reflexivity.
  - intros [trade_dt ->] Hwindow. cbn [of_option]. rewrite bind_ok.
    assert (Hrange : search_range = []).
    { unfold search_range, seqZ.
      replace (Z.to_nat (git_commit_search_days config)) with 0%nat by lia.
      reflexivity. }
    rewrite Hrange. cbn [search_days]. rewrite bind_ok, Hexact.
    rewrite bind_ok. reflexivity.
Qed.

(** *** When the pick valuators raise *)

Lemma split_without_separator sep s :
  PyStr.contains_sub sep s = false -> PyStr.split sep s = [s].
Proof.
  unfold PyStr.split. induction s as [|c s IH]; intros H; [reflexivity|].
  cbn [PyStr.contains_sub] in H. apply orb_false_iff in H as [Hpre Hrest].
  cbn [PyStr.split_go]. rewrite Hpre, (IH Hrest). reflexivity.
Qed.

(** X8. With a text search that returns, the current-season valuator
    raises in one case only: the label gives a round and the trade date
    is not a date; the exception is then [ValueError]. A label that gives
    no round, as every label without "Round" in it, is valued 0 with
    source "Parse error" even on a trade date that is not a date. *)
Theorem current_season_valuator_failures (pick_name : string) (origin : cell)
    (trade_date : string) (df_values : list ValueRow) (is_current : bool) :
  (PyStr.contains_sub "Round" pick_name = false ->
     parse_round pick_name = None)
  /\ (parse_round pick_name = None ->
      get_2025_pick_value pick_name origin trade_date df_values is_current
      = Ok (0, "Parse error", None))
  /\ ((exists e,
         get_2025_pick_value pick_name origin trade_date df_values is_current
         = Raise e)
      <-> is_Some (parse_round pick_name)
          /\ PyDate.strptime trade_date = None)
  /\ (forall e,
        get_2025_pick_value pick_name origin trade_date df_values is_current
        = Raise e -> e = ValueError).
Proof.
  split; [|split; [|split]].
  - intros H. unfold parse_round. rewrite (split_without_separator _ _ H).
    reflexivity.
  - intros H. unfold get_2025_pick_value. rewrite H. reflexivity.
  - split.
    + intros [e He].
      destruct (parse_round pick_name) as [r|] eqn:Hround.
      * split; [eexists; reflexivity|].
        destruct (PyDate.strptime trade_date) as [dt|] eqn:Hdate;
          [|reflexivity].
        destruct (get_2025_pick_value_total pick_name origin trade_date
                    df_values is_current) as [v Hv];
          [rewrite Hdate; eexists; reflexivity|].
        congruence.
      * unfold get_2025_pick_value in He. rewrite Hround in He. discriminate.
    + intros [[r Hround] Hdate]. exists ValueError.
      unfold get_2025_pick_value. rewrite Hround, Hdate. reflexivity.
  - intros e He. unfold get_2025_pick_value in He.
    destruct (parse_round pick_name) as [r|]; [|discriminate].
    destruct (PyDate.strptime trade_date) as [dt|] eqn:Hdate.
    + cbn [of_option] in He. rewrite bind_ok in He.
      destruct (lineage_of origin r); [discriminate|].
      destruct (PyDate.lt dt DRAFT_COMPLETION_DATE); [|discriminate].
      destruct is_current; [discriminate|].
      destruct (matching _ df_values); [|discriminate].
      destruct (r =? 1); [discriminate|].
      destruct (matching _ df_values); discriminate.
    + cbn in He. congruence.
Qed.

(** X9. The future-pick valuator reads the trade date first, so a trade
    date that is not a date raises [ValueError] for every label. On a
    well-formed date, a label that is not of the shape
    "<year> Round <round> ..." is valued 0 with source "Parse error",
    while a label of that shape whose round is not an integer raises
    [ValueError]: the round is converted outside any handler. *)
Theorem future_valuator_failures (pick_name : string) (origin : cell)
    (trade_date : string) (df_values : list ValueRow) :
  (PyDate.strptime trade_date = None ->
     get_2026_plus_pick_value pick_name origin trade_date df_values
     = Raise ValueError)
  /\ (is_Some (PyDate.strptime trade_date) ->
      (forall year_text round_text rest,
         PyStr.words pick_name <> year_text :: "Round" :: round_text :: rest) ->
      get_2026_plus_pick_value pick_name origin trade_date df_values
      = Ok (0, "Parse error", None))
  /\ (is_Some (PyDate.strptime trade_date) ->
      forall year_text round_text rest,
        PyStr.words pick_name = year_text :: "Round" :: round_text :: rest ->
        PyStr.int round_text = None ->
        get_2026_plus_pick_value pick_name origin trade_date df_values
        = Raise ValueError).
Proof.
  unfold get_2026_plus_pick_value. split; [|split].
  - intros ->. reflexivity.
  - intros [dt ->] Hshape. cbn [of_option]. rewrite bind_ok.
    destruct (PyStr.words pick_name) as [|y [|w [|rt rest]]]; try reflexivity.
    destruct (String.eqb_spec w "Round") as [->|]; [|reflexivity].
    destruct (Hshape y rt rest). reflexivity.
  - intros [dt ->] y rt rest -> Hint. cbn [of_option]. rewrite bind_ok.
    rewrite String.eqb_refl.
    unfold projection_2026, projection_later. rewrite Hint.
    destruct (PyStr.contains_sub "2026" pick_name && truthy origin);
      [reflexivity|].
    rewrite bind_ok.
    destruct ((PyStr.contains_sub "2027" pick_name
               || PyStr.contains_sub "2028" pick_name) && truthy origin);
      reflexivity.
Qed.

(** *** Week columns *)

Lemma append_assoc s t u : (s +:+ t) +:+ u = s +:+ t +:+ u.
Proof.
  induction s as [|c s IH]; [reflexivity|].
  rewrite !append_cons, IH. reflexivity.
Qed.

Lemma prefix_append p s : String.prefix p (p +:+ s) = true.
Proof.
  induction p as [|c p IH]; [apply prefix_empty|].
  rewrite append_cons. cbn [String.prefix].
  destruct (ascii_dec c c); [exact IH | congruence].
Qed.

Lemma take_digits_app ds r :
  all_chars PyStr.is_digit ds = true ->
  take_digits (ds +:+ String "_" r) = (ds, String "_" r).
Proof.
  induction ds as [|c ds IH]; [reflexivity|].
  cbn [all_chars]. intros [Hc Hds]%andb_prop.
  rewrite append_cons. cbn [take_digits]. rewrite Hc, (IH Hds). reflexivity.
Qed.

Lemma str_nonneg_digits w :
  0 <= w ->
  all_chars PyStr.is_digit (PyStr.str w) = true /\ PyStr.str w <> "".
Proof.
  intros Hw. unfold PyStr.str.
  destruct (Z.ltb_spec w 0); [lia|].
  split; [apply uint_digits | apply uint_of_N_nonempty].
Qed.

(** X10. Column discovery reads back the column names it builds: for a
    round name of [ROUND_ORDINALS], the name [Week<w>_2026_<round>] of a
    week [w >= 0] is recognised as week [w] of that round, and so is any
    column name that only starts with it, because the pattern is anchored
    at the start alone. *)
Theorem week_column_round_trip (round_num : Z) (round_name suffix : string)
    (w : Z) :
  ROUND_ORDINALS !! round_num = Some round_name ->
  0 <= w ->
  match_week_column round_name (week_column w round_name) = Some w
  /\ match_week_column round_name (week_column w round_name +:+ suffix)
     = Some w.
Proof using.
  clear. intros _ Hw.
  assert (Hgen : forall sfx,
    match_week_column round_name (week_column w round_name +:+ sfx) = Some w).
  { intros sfx. destruct (str_nonneg_digits w Hw) as [Hd Hne].
    unfold week_column.
    rewrite !append_assoc.
    change ("Week" +:+ PyStr.str w +:+ "_2026_" +:+ round_name +:+ sfx)
      with (String "W" (String "e" (String "e" (String "k"
              (PyStr.str w +:+ String "_" ("2026_" +:+ round_name +:+ sfx)))))).
    cbn [match_week_column].
    rewrite (take_digits_app _ _ Hd).
    change (String "_" ("2026_" +:+ round_name +:+ sfx))
      with ("_2026_" +:+ round_name +:+ sfx).
    rewrite <- (append_assoc "_2026_" round_name sfx), prefix_append.
    rewrite int_str.
    destruct (PyStr.str w); [congruence | reflexivity]. }
  split; [|apply Hgen].
  rewrite <- (append_empty_r (week_column w round_name)). apply Hgen.
Qed.

(** X11. Both column selectors raise [ValueError] when no column of the
    team is a week column of the round. Otherwise the latest-week
    selector returns the largest available week and the column named
    after it. The available weeks come sorted. *)
Theorem latest_week_is_maximum (team_row : list ProjRow) (round_name : string) :
  Sorted Z.le (get_available_weeks team_row round_name)
  /\ (get_available_weeks team_row round_name = [] ->
      get_latest_week_column team_row round_name = Raise ValueError
      /\ forall target,
           get_best_week_column team_row round_name target = Raise ValueError)
  /\ (get_available_weeks team_row round_name <> [] ->
      exists m,
        get_latest_week_column team_row round_name
        = Ok (week_column m round_name, m)
        /\ In m (get_available_weeks team_row round_name)
        /\ forall a, In a (get_available_weeks team_row round_name) -> a <= m).
Proof using.
  clear. split; [apply Sorted_merge_sort, _|]. split.
  - intros Hnone. unfold get_latest_week_column, get_best_week_column.
    rewrite Hnone. split; reflexivity.
  - intros Hsome. unfold get_latest_week_column.
    destruct (py_max_some _ Hsome) as [m Hm]. rewrite Hm.
    destruct (py_max_spec _ _ Hm) as [Hin Hmax].
    exists m. auto.
Qed.

(** X12. A 2026 pick of an owner with a projection row, on a well-formed
    label and trade date, is valued at the cell of the selected week
    column in the owner's first row, with source
    "Projection:Week<week>_<round>". When the frame has no column of
    exactly the name rebuilt from the selected week, the lookup raises
    [KeyError], which is not swallowed. *)
Theorem projection_value_or_key_error (pick_name : string) (o : string)
    (trade_date : string) (df_values : list ValueRow) (trade_dt : datetime)
    (year_text round_text : string) (rest : list string) (round_num : Z)
    (round_name : string) (row : ProjRow) (more : list ProjRow)
    (column_name : string) (week : Z) :
  PyDate.strptime trade_date = Some trade_dt ->
  PyStr.words pick_name = year_text :: "Round" :: round_text :: rest ->
  PyStr.contains_sub "2026" pick_name = true ->
  o <> "" ->
  PyStr.int round_text = Some round_num ->
  ROUND_ORDINALS !! round_num = Some round_name ->
  team_rows (CStr o) = row :: more ->
  get_best_week_column (row :: more) round_name (target_week trade_dt)
  = Ok (column_name, week) ->
  get_2026_plus_pick_value pick_name (CStr o) trade_date df_values
  = match find (fun kv => String.eqb (fst kv) column_name) (cells row) with
    | Some kv =>
        Ok (snd kv,
            "Projection:Week" +:+ PyStr.str week +:+ "_" +:+ round_name,
            Some [("week", MInt week);
                  ("target_week", MInt (target_week trade_dt));
                  ("origin", MStr o);
                  ("round", MStr round_name);
                  ("column_used", MStr column_name)])
    | None => Raise KeyError
    end.
Proof.
  intros Hdate Hwords H2026 Ho Hint Hord Hteam Hsel.
  unfold get_2026_plus_pick_value.
  rewrite Hdate, Hwords. cbn [of_option]. rewrite bind_ok, String.eqb_refl.
  unfold projection_2026.
  assert (Htruthy : truthy (CStr o) = true).
  { cbn. destruct (String.eqb_spec o ""); [congruence | reflexivity]. }
  rewrite H2026, Htruthy, Hint. cbn [andb of_option].
  rewrite !bind_ok, Hord, Hteam, Hsel. unfold swallow_value_error.
  rewrite !bind_ok. cbn [fst snd cell_value cell_meta].
  destruct (find _ (cells row)) as [kv|]; reflexivity.
Qed.

(** *** Records and counters of the loop *)

Lemma filter_split_length {A} (p q : A -> bool) l :
  List.length (List.filter p l)
  = (List.length (List.filter (fun x => q x && p x) l)
     + List.length (List.filter (fun x => negb (q x) && p x) l))%nat.
Proof.
  induction l as [|x l IH]; [reflexivity|].
  cbn [List.filter]. destruct (q x), (p x); cbn; lia.
Qed.

Lemma process_row_one_record commit_cache df_current st row st' :
  process_row commit_cache df_current st row = Ok st' ->
  exists rec,
    cached_values st' = cached_values st ++ [rec]
    /\ r_asset_name rec = asset_name row
    /\ r_asset_type rec = asset_type row
    /\ r_trade_date rec = trade_date row
    /\ r_trade_id rec = trade_id row
    /\ r_trade_type rec = default "2-team" (trade_type row)
    /\ r_receiving_team rec = receiving_team row
    /\ r_giving_team rec = giving_team row
    /\ r_origin_owner rec = origin_owner row
    /\ zero_value_count st'
       = zero_value_count st
         + (if negb (String.eqb (asset_type row) "faab")
               && (value_at_trade rec =? 0) then 1 else 0).
Proof.
  unfold process_row. intros H.
  destruct (String.eqb (asset_type row) "faab") eqn:Hfaab.
  - unfold faab_record in H.
    destruct (of_option _ ValueError) as [amount|]; [|discriminate].
    rewrite !bind_ok in H. injection H as <-.
    eexists. split; [reflexivity|]. cbn. repeat split; lia.
  - destruct (closest_commit commit_cache (trade_date row)); [|discriminate].
    rewrite bind_ok in H.
    destruct (value_asset _ _ _ _) as [v|]; [|discriminate].
    rewrite bind_ok in H. injection H as <-.
    exists (record_of row v). split; [reflexivity|]. cbn.
    repeat split. destruct (v_at_trade v =? 0); lia.
Qed.

(** X13. The loop's own counter of zero values leaves FAAB rows out: at
    the end it is the number of records that are not FAAB and have
    [value_at_trade = 0]. The count of the output gate is that counter
    plus the number of FAAB records of value 0, so the logged figure
    never exceeds the one the gate judges. *)
Theorem loop_counter_skips_faab (commit_cache : gmap string string)
    (df_current : list ValueRow) (rows : list AssetRow) (st : loop_state) :
  process_rows commit_cache df_current initial_state rows = Ok st ->
  zero_value_count st
  = Z.of_nat (List.length
      (List.filter (fun r => negb (String.eqb (r_asset_type r) "faab")
                             && (value_at_trade r =? 0))
         (cached_values st)))
  /\ zero_at_trade (cached_values st)
     = zero_value_count st
       + Z.of_nat (List.length
           (List.filter (fun r => String.eqb (r_asset_type r) "faab"
                                  && (value_at_trade r =? 0))
              (cached_values st)))
  /\ zero_value_count st <= zero_at_trade (cached_values st).
Proof.
  intros Hrun.
  set (cnt := fun recs : list ValuationRecord =>
    Z.of_nat (List.length
      (List.filter (fun r => negb (String.eqb (r_asset_type r) "faab")
                             && (value_at_trade r =? 0)) recs))).
  assert (Hinv : forall rows st0 st1,
    process_rows commit_cache df_current st0 rows = Ok st1 ->
    zero_value_count st0 = cnt (cached_values st0) ->
    zero_value_count st1 = cnt (cached_values st1)).
  { clear. intros rows. induction rows as [|row rows IH]; intros st0 st1 H I0.
    - injection H as <-. exact I0.
    - cbn [process_rows] in H.
      destruct (process_row commit_cache df_current st0 row) as [sm|] eqn:Hrow;
        [|discriminate].
      rewrite bind_ok in H. apply (IH _ _ H).
      destruct (process_row_one_record _ _ _ _ _ Hrow)
        as (rec & Hrecs & _ & Htype & _ & _ & _ & _ & _ & _ & Hzero).
      rewrite Hzero, Hrecs, I0. unfold cnt.
      rewrite List.filter_app, length_app. cbn [List.filter]. rewrite Htype.
      destruct (negb _ && _); cbn [List.length]; lia. }
  assert (H1 : zero_value_count st = cnt (cached_values st))
    by (apply (Hinv rows initial_state st Hrun); reflexivity).
  assert (H2 : zero_at_trade (cached_values st)
               = cnt (cached_values st)
                 + Z.of_nat (List.length
                     (List.filter (fun r => String.eqb (r_asset_type r) "faab"
                                            && (value_at_trade r =? 0))
                        (cached_values st)))).
  { unfold zero_at_trade, cnt.
    rewrite (filter_split_length _
               (fun r => String.eqb (r_asset_type r) "faab")).
    lia. }
  split; [exact H1|]. split; [rewrite H1; exact H2|]. rewrite H2, H1. lia.
Qed.

Lemma process_rows_mirror commit_cache df_current rows : forall st st',
  process_rows commit_cache df_current st rows = Ok st' ->
  exists recs,
    cached_values st' = cached_values st ++ recs
    /\ Forall2 (fun rec row =>
         r_asset_name rec = asset_name row
         /\ r_asset_type rec = asset_type row
         /\ r_trade_date rec = trade_date row
         /\ r_trade_id rec = trade_id row
         /\ r_trade_type rec = default "2-team" (trade_type row)
         /\ r_receiving_team rec = receiving_team row
         /\ r_giving_team rec = giving_team row
         /\ r_origin_owner rec = origin_owner row) recs rows.
Proof.
  induction rows as [|row rows IH]; intros st st' H.
  - injection H as <-. exists []. split; [symmetry; apply app_nil_r | constructor].
  - cbn [process_rows] in H.
    destruct (process_row commit_cache df_current st row) as [sm|] eqn:Hrow;
      [|discriminate].
    rewrite bind_ok in H.
    destruct (process_row_one_record _ _ _ _ _ Hrow)
      as (rec & Hrecs & H1 & H2 & H3 & H4 & H5 & H6 & H7 & H8 & _).
    destruct (IH _ _ H) as (recs & Hall & Hmirror).
    exists (rec :: recs). split.
    + rewrite Hall, Hrecs, <- app_assoc. reflexivity.
    + constructor; [repeat split; assumption | exact Hmirror].
Qed.

(** X14. A run that returns gives one record per asset row, in the
    order of the rows, and each record carries the name, type, trade
    date, trade id, teams and origin owner of its row (and "2-team" as
    trade type when the row has none). *)
Theorem records_mirror_rows (df_assets : list AssetRow)
    (cached : list ValuationRecord) :
  cache_asset_values df_assets = Ok cached ->
  Forall2 (fun rec row =>
    r_asset_name rec = asset_name row
    /\ r_asset_type rec = asset_type row
    /\ r_trade_date rec = trade_date row
    /\ r_trade_id rec = trade_id row
    /\ r_trade_type rec = default "2-team" (trade_type row)
    /\ r_receiving_team rec = receiving_team row
    /\ r_giving_team rec = giving_team row
    /\ r_origin_owner rec = origin_owner row) cached df_assets.
Proof.
  unfold cache_asset_values.
  destruct load_current_values as [df_current|]; [|discriminate].
  rewrite bind_ok.
  destruct (load_commit_cache df_assets) as [commit_cache|]; [|discriminate].
  rewrite bind_ok.
  destruct (process_rows commit_cache df_current initial_state df_assets)
    as [st|] eqn:Hrun; [|discriminate].
  rewrite bind_ok. intros [= <-].
  destruct (process_rows_mirror _ _ _ _ _ Hrun) as (recs & Hall & Hmirror).
  cbn in Hall. rewrite Hall. exact Hmirror.
Qed.

(** *** The fatal conditions and the outcomes of [main] *)

(** X15. When the current value table cannot be read, or is read empty,
    the valuation raises [APIError] for every batch, and [main] raises
    it without writing anything. *)
Theorem current_table_unreachable_is_fatal (w : world)
    (df_assets : list AssetRow) :
  read_current_values = None \/ read_current_values = Some [] ->
  cache_asset_values df_assets = Raise APIError
  /\ (validate_stage3_prerequisites w = Ok tt ->
      read_asset_transactions w = Ok df_assets ->
      main w = (w, Raise APIError)).
Proof.
  intros Hcur.
  assert (Hload : load_current_values = Raise APIError).
  { unfold load_current_values. destruct Hcur as [-> | ->]; reflexivity. }
  assert (Hrun : cache_asset_values df_assets = Raise APIError).
  { unfold cache_asset_values. rewrite Hload. reflexivity. }
  split; [exact Hrun|].
  intros Hpre Hread. unfold main. rewrite Hpre, Hread, Hrun. reflexivity.
Qed.

(** X16. The outcomes of [main]. Either it raises before the valuation
    has produced records and leaves the output file and the backups as
    they were; or the records have been written to the output file and
    backed up, and then
    it returns the output path exactly when there is at least one record
    and the fraction of zero values does not exceed the threshold (a
    fraction equal to the threshold passes), and raises the data-quality
    failure otherwise. *)
Theorem main_outcomes (w : world) :
  ((main w).1 = w /\ exists e, (main w).2 = Raise e)
  \/ exists df_assets cached,
       read_asset_transactions w = Ok df_assets
       /\ cache_asset_values df_assets = Ok cached
       /\ files (main w).1
          = <[OutputFiles.ASSET_VALUES_CACHE := ValuesFile cached]> (files w)
       /\ backups (main w).1 = backups w ++ [ValuesFile cached]
       /\ (((main w).2 = Ok OutputFiles.ASSET_VALUES_CACHE
            /\ cached <> []
            /\ (zero_pct cached <= max_zero_value_pct config)%Q)
           \/ ((main w).2 = Raise (ValidationError NoCachedValues)
               /\ cached = [])
           \/ ((main w).2 = Raise (ValidationError TooManyZeroValues)
               /\ cached <> []
               /\ (max_zero_value_pct config < zero_pct cached)%Q)).
Proof.
  unfold main.
  destruct (validate_stage3_prerequisites w) as [u|e];
    [|left; split; [reflexivity | eexists; reflexivity]].
  destruct (read_asset_transactions w) as [df_assets|e];
    [|left; split; [reflexivity | eexists; reflexivity]].
  destruct (cache_asset_values df_assets) as [cached|e] eqn:Hrun;
    [|left; split; [reflexivity | eexists; reflexivity]].
  right. exists df_assets, cached.
  split; [reflexivity|]. split; [exact Hrun|].
  set (w1 := to_csv OutputFiles.ASSET_VALUES_CACHE cached w).
  assert (Hw2 : backup_file OutputFiles.ASSET_VALUES_CACHE w1
                = {| files := <[OutputFiles.ASSET_VALUES_CACHE
                                := ValuesFile cached]> (files w);
                     backups := backups w ++ [ValuesFile cached] |}).
  { unfold backup_file, w1, to_csv. cbn [files backups].
    rewrite lookup_insert_eq. reflexivity. }
  rewrite Hw2.
  assert (Hval : validate_stage3_output
                   {| files := <[OutputFiles.ASSET_VALUES_CACHE
                                 := ValuesFile cached]> (files w);
                      backups := backups w ++ [ValuesFile cached] |}
                   OutputFiles.ASSET_VALUES_CACHE (max_zero_value_pct config)
                 = match cached with
                   | [] => Raise (ValidationError NoCachedValues)
                   | _ =>
                       if negb (Qle_bool (zero_pct cached)
                                  (max_zero_value_pct config))
                       then Raise (ValidationError TooManyZeroValues)
                       else Ok tt
                   end).
  { unfold validate_stage3_output. cbn [files].
    rewrite lookup_insert_eq. reflexivity. }
  rewrite Hval.
  destruct cached as [|r cached].
  - cbn [fst snd files backups]. split; [reflexivity|]. split; [reflexivity|].
    right. left. split; reflexivity.
  - destruct (Qle_bool (zero_pct (r :: cached)) (max_zero_value_pct config))
      eqn:Hle; cbn [negb fst snd files backups].
    + split; [reflexivity|]. split; [reflexivity|]. left.
      split; [reflexivity|]. split; [discriminate|].
      apply Qle_bool_iff, Hle.
    + split; [reflexivity|]. split; [reflexivity|]. right. right.
      split; [reflexivity|]. split; [discriminate|].
      apply Qnot_le_lt. intros H. apply Qle_bool_iff in H. congruence.
Qed.

(** *** Tiers and picks without a usable owner *)

(** X17. The three tier functions cut the slots at the same places: a
    slot is Early up to 4, Mid from 5 to 8 and Late from 9 on, slots
    below 1 count as Early and slots above 12 as Late; the value of
    [constants.py] is the one [config.py] computes when it is configured
    with the tier values of [constants.py]; and a later slot is never
    worth more than an earlier one. *)
Theorem tier_functions_agree (slot : Z) :
  (PickTier.get_tier_name slot = "Early" <-> slot <= 4)
  /\ (PickTier.get_tier_name slot = "Mid" <-> 5 <= slot <= 8)
  /\ (PickTier.get_tier_name slot = "Late" <-> 9 <= slot)
  /\ PickTier.get_value slot
     = get_tier_value {| early_first := PickTier.EARLY_FIRST;
                         mid_first := PickTier.MID_FIRST;
                         late_first := PickTier.LATE_FIRST |} slot
  /\ forall later, slot <= later ->
       PickTier.get_value later <= PickTier.get_value slot.
Proof using.
  clear. unfold PickTier.get_tier_name, PickTier.get_value, get_tier_value.
  destruct (Z.leb_spec slot 4), (Z.leb_spec slot 8);
    (repeat split; try discriminate; try lia; try reflexivity);
    intros later Hl; cbn;
    destruct (Z.leb_spec later 4), (Z.leb_spec later 8);
    unfold PickTier.EARLY_FIRST, PickTier.MID_FIRST, PickTier.LATE_FIRST; lia.
Qed.


End Stage3.

(* ================================================================== *)
(** ** The properties on the fixtures *)
(* ================================================================== *)

Import Fixture.

Local Abbreviation fx_process_row snaps :=
  (process_row contains_ci mock_pick_projections mock_draft_results
     default_validation snaps).

Local Abbreviation fx_main commits snaps :=
  (main contains_ci mock_pick_projections mock_draft_results
     default_validation (Some mock_dynasty_values) earliest commits snaps).

Local Abbreviation fx_cache_asset_values commits snaps :=
  (cache_asset_values contains_ci mock_pick_projections mock_draft_results
     default_validation (Some mock_dynasty_values) earliest commits snaps).

Local Abbreviation one_snapshot :=
  ({[ "2025-10-18" := "abc1234def" ]} : gmap string string).

(** The assertions of [tests/test_stage3_valuations.py] on the tiers, and
    the definitions run on a few inputs. *)
Example test_early_first_tier_value :
  map PickTier.get_value [1; 2; 3; 4] = [5430; 5430; 5430; 5430].
Proof. reflexivity. Qed.

Example test_mid_first_tier_value :
  map PickTier.get_value [5; 6; 7; 8] = [2558; 2558; 2558; 2558].
Proof. reflexivity. Qed.

Example test_late_first_tier_value :
  map PickTier.get_value [9; 10; 11; 12] = [1232; 1232; 1232; 1232].
Proof. reflexivity. Qed.

Example test_tier_names :
  map PickTier.get_tier_name [1; 4; 5; 8; 9; 12]
  = ["Early"; "Early"; "Mid"; "Mid"; "Late"; "Late"].
Proof. reflexivity. Qed.

Example strptime_accepts_unpadded :
  PyDate.strptime "2025-5-5" = Some DRAFT_COMPLETION_DATE
  /\ PyDate.strptime "2025-02-29" = None
  /\ PyDate.strptime "2025-05-05 " = None.
Proof. repeat split; reflexivity. Qed.

Example day_before_march_first :
  option_map PyDate.strftime (PyDate.add_days (mk_datetime 2024 3 1) (-1))
  = Some "2024-02-29".
Proof. vm_compute. reflexivity. Qed.

Example week_of_late_october :
  target_week (mk_datetime 2025 10 24) = 8
  /\ target_week (mk_datetime 2025 6 1) = 2.
Proof. split; reflexivity. Qed.

Example sparse_weeks_selected :
  get_best_week_column sparse_projections "2nd" 9 = Ok ("Week7_2026_2nd", 7)
  /\ get_best_week_column sparse_projections "2nd" 3 = Ok ("Week7_2026_2nd", 7)
  /\ get_best_week_column sparse_projections "2nd" 12
     = Ok ("Week12_2026_2nd", 12)
  /\ get_best_week_column sparse_projections "1st" 9 = Raise ValueError.
Proof. vm_compute. repeat split. Qed.

Example origin_of_slot_five :
  PickOrigin.get_pick_origin_owner 1 5 = "jwalters74"
  /\ PickOrigin.get_pick_origin_owner 3 5 = "jwalters74"
  /\ PickOrigin.get_pick_origin_owner 5 1 = "UNKNOWN_R5P1".
Proof. vm_compute. repeat split. Qed.

Lemma faab_valuation_witness :
  (asset_type faab50 = "faab" /\ asset_name faab50 = faab_label 50)
  /\ exists rec,
      fx_process_row snapshot one_snapshot mock_dynasty_values
        initial_state faab50
      = Ok {| cached_values := [rec]; zero_value_count := 0;
              git_df_cache := ∅ |}
      /\ value_at_trade rec = 50 * FAAB_VALUE_PER_DOLLAR
      /\ value_current rec = 50 * FAAB_VALUE_PER_DOLLAR
      /\ (50 = 50 -> value_at_trade rec = 50 /\ value_current rec = 50).
Proof.
  split; [split; reflexivity|].
  apply (faab_valuation contains_ci mock_pick_projections mock_draft_results
           default_validation snapshot one_snapshot mock_dynasty_values
           initial_state faab50 50); reflexivity.
Defined.

Lemma best_week_selection_witness :
  get_available_weeks sparse_projections "2nd" = [7; 12]
  /\ exists w,
      get_best_week_column sparse_projections "2nd" 9
      = Ok (week_column w "2nd", w)
      /\ w = 7.
Proof.
  split; [reflexivity|].
  destruct (best_week_selection sparse_projections "2nd" 9)
    as (w & Hsel & _ & _ & _ & _ & Honly).
  - vm_compute. discriminate.
  - exists w. split; [exact Hsel|].
    apply Honly; [|left; reflexivity].
    intros a. change (get_available_weeks sparse_projections "2nd")
      with [7; 12]. simpl. intuition lia.
Defined.

Local Abbreviation bowers_lineage :=
  {| final_owner := "Manager A"; pick_in_round := 5;
     lin_player := "Brock Bowers"; overall_pick := 5 |}.

Lemma draft_day_pick_is_post_draft_witness :
  PyDate.strptime "2025-05-05" = Some DRAFT_COMPLETION_DATE
  /\ exists st' rec,
      fx_process_row snapshot one_snapshot mock_dynasty_values
        initial_state (bowers_pick "2025-05-05") = Ok st'
      /\ cached_values st' = [rec]
      /\ value_at_trade rec = 3500
      /\ value_current rec = 3500.
Proof.
  split; [reflexivity|].
  destruct (draft_day_pick_is_post_draft contains_ci mock_pick_projections
              mock_draft_results default_validation snapshot one_snapshot
              mock_dynasty_values initial_state (bowers_pick "2025-05-05")
              1 bowers_lineage [] None)
    as (_ & st' & rec & Hrun & Hrecs & _ & _ & Hsame);
    [vm_compute; reflexivity .. |].
  exists st', rec. split; [exact Hrun|]. split; [exact Hrecs|].
  apply (Hsame (value_row "Brock Bowers" 3500) []
               (value_row "Brock Bowers" 3500) []);
    vm_compute; reflexivity.
Defined.

Lemma pre_draft_first_round_tier_witness :
  PyDate.lt (mk_datetime 2024 11 15) DRAFT_COMPLETION_DATE = true
  /\ matching contains_ci (exact_pick_name 1 5) players_only = []
  /\ exists st' rec,
      fx_process_row unreachable ∅ players_only initial_state
        (bowers_pick "2024-11-15") = Ok st'
      /\ cached_values st' = [rec]
      /\ value_at_trade rec = 2558.
Proof.
  split; [reflexivity|]. split; [reflexivity|].
  destruct (pre_draft_first_round_tier contains_ci mock_pick_projections
              mock_draft_results default_validation unreachable ∅
              players_only initial_state (bowers_pick "2024-11-15")
              (mk_datetime 2024 11 15) bowers_lineage [] None)
    as (st' & rec & Hrun & Hrecs & _ & _ & Hmid & _);
    [vm_compute; reflexivity .. |].
  exists st', rec. split; [exact Hrun|]. split; [exact Hrecs|].
  apply Hmid. change (5 <= 5 <= 8). lia.
Defined.

Lemma closest_commit_selection_witness :
  one_snapshot !! "2025-10-20" = None
  /\ snapshot_at one_snapshot (mk_datetime 2025 10 20) (-1) = Some None
  /\ snapshot_at one_snapshot (mk_datetime 2025 10 20) (-2)
     = Some (Some "abc1234def")
  /\ closest_commit default_validation one_snapshot "2025-10-20"
     = Ok (Some "abc1234def").
Proof.
  split; [reflexivity|]. split; [reflexivity|]. split; [reflexivity|].
  destruct (closest_commit_selection contains_ci mock_pick_projections
              mock_draft_results default_validation snapshot one_snapshot
              "2025-10-20") as [_ Hsearch].
  destruct (Hsearch (mk_datetime 2025 10 20)) as [Hback _];
    [vm_compute; reflexivity .. |].
  apply (Hback 2 "abc1234def").
  - change (1 <= 2 <= 7). lia.
  - discriminate.
  - intros j Hj. assert (j = 1) as -> by lia. reflexivity.
  - reflexivity.
Defined.

Lemma snapshot_unavailable_witness :
  closest_commit default_validation one_snapshot (trade_date mahomes)
  = Ok (Some "abc1234def")
  /\ unreachable "abc1234def" = None
  /\ exists rec,
      fx_process_row unreachable one_snapshot mock_dynasty_values
        initial_state mahomes
      = Ok {| cached_values := [rec]; zero_value_count := 1;
              git_df_cache := ∅ |}
      /\ value_at_trade rec = 0
      /\ value_source_at_trade rec = "No Git commit"
      /\ value_current rec = 10000.
Proof.
  split; [vm_compute; reflexivity|]. split; [reflexivity|].
  destruct (snapshot_unavailable contains_ci mock_pick_projections
              mock_draft_results default_validation unreachable one_snapshot
              mock_dynasty_values initial_state mahomes (Some "abc1234def"))
    as (_ & _ & Hplayer).
  - reflexivity.
  - vm_compute. reflexivity.
  - right. exists "abc1234def". repeat split; reflexivity.
  - apply Hplayer. reflexivity.
Defined.

Lemma valuation_is_deterministic_witness :
  coherent snapshot {[ "abc1234def" := mock_dynasty_values ]}
  /\ (st ← process_rows contains_ci mock_pick_projections mock_draft_results
             default_validation snapshot one_snapshot mock_dynasty_values
             (with_cache initial_state
                {[ "abc1234def" := mock_dynasty_values ]})
             [mahomes; faab50];
      Ok (cached_values st))
     = (st ← process_rows contains_ci mock_pick_projections mock_draft_results
               default_validation snapshot one_snapshot mock_dynasty_values
               initial_state [mahomes; faab50];
        Ok (cached_values st)).
Proof.
  assert (Hco : coherent snapshot {[ "abc1234def" := mock_dynasty_values ]}).
  { intros sha df H. destruct (decide (sha = "abc1234def")) as [->|Hne].
    - rewrite lookup_singleton_eq in H. injection H as <-. reflexivity.
    - rewrite lookup_singleton_ne in H by congruence. discriminate. }
  split; [exact Hco|].
  apply (valuation_is_deterministic contains_ci mock_pick_projections
           mock_draft_results default_validation snapshot one_snapshot
           mock_dynasty_values [mahomes; faab50] _ Hco).
Defined.

Local Abbreviation stale_world :=
  {| files := workdir [jefferson; faab50]; backups := [] |}.

Lemma zero_value_gate_after_write_witness :
  exists recs w',
    fx_cache_asset_values no_commits snapshot [jefferson; faab50] = Ok recs
    /\ (max_zero_value_pct default_validation < zero_pct recs)%Q
    /\ fx_main no_commits snapshot stale_world
       = (w', Raise (ValidationError TooManyZeroValues))
    /\ files w' !! OutputFiles.ASSET_VALUES_CACHE = Some (ValuesFile recs)
    /\ forall later_stages,
        pipeline_from_stage3 contains_ci mock_pick_projections
          mock_draft_results default_validation (Some mock_dynasty_values)
          earliest no_commits snapshot later_stages stale_world
        = (w', false).
Proof.
  destruct (fx_cache_asset_values no_commits snapshot [jefferson; faab50])
    as [recs|e] eqn:Hrun; [|vm_compute in Hrun; discriminate].
  assert (Hrecs : map value_at_trade recs = [0; 50]).
  { vm_compute in Hrun. injection Hrun as <-. reflexivity. }
  assert (Hlt : (max_zero_value_pct default_validation < zero_pct recs)%Q).
  { vm_compute in Hrun. injection Hrun as <-. reflexivity. }
  destruct (zero_value_gate_after_write contains_ci mock_pick_projections
              mock_draft_results default_validation
              (Some mock_dynasty_values) earliest no_commits snapshot
              stale_world [jefferson; faab50] recs)
    as (w' & Hmain & Hfile & _ & _ & Hstop).
  - reflexivity.
  - reflexivity.
  - exact Hrun.
  - intros ->. discriminate.
  - exact Hlt.
  - exists recs, w'. auto.
Defined.

Lemma zero_value_gate_counts_value_at_trade_witness :
  exists recs,
    fx_cache_asset_values no_commits snapshot [jefferson; faab50] = Ok recs
    /\ List.length recs = 2%nat
    /\ zero_at_trade recs = 1
    /\ (fx_main no_commits snapshot stale_world).2
       = Raise (ValidationError TooManyZeroValues).
Proof.
  destruct (fx_cache_asset_values no_commits snapshot [jefferson; faab50])
    as [recs|e] eqn:Hrun; [|vm_compute in Hrun; discriminate].
  assert (Hz : zero_at_trade recs = 1).
  { vm_compute in Hrun. injection Hrun as <-. reflexivity. }
  assert (Hne : recs <> []).
  { vm_compute in Hrun. injection Hrun as <-. discriminate. }
  destruct (zero_value_gate_counts_value_at_trade contains_ci
              mock_pick_projections mock_draft_results default_validation
              (Some mock_dynasty_values) earliest no_commits snapshot)
    as (_ & _ & Hgate).
  destruct (Hgate stale_world [jefferson; faab50] recs) as (Hlen & Hiff);
    [reflexivity | reflexivity | exact Hrun | exact Hne |].
  exists recs. split; [reflexivity|]. split; [exact Hlen|].
  split; [exact Hz|].
  apply Hiff. rewrite Hz, Hlen. reflexivity.
Defined.

(** *** Where the code departs from the specification *)

(** Against C1: the gate raises, and the output table is on disk. *)
Lemma zero_gate_failure_leaves_output_table :
  let out := fx_main no_commits snapshot stale_world in
  out.2 = Raise (ValidationError TooManyZeroValues)
  /\ files stale_world !! OutputFiles.ASSET_VALUES_CACHE = None
  /\ exists r1 r2,
      files out.1 !! OutputFiles.ASSET_VALUES_CACHE
      = Some (ValuesFile [r1; r2])
      /\ backups out.1 = [ValuesFile [r1; r2]].
Proof.
  vm_compute. split; [reflexivity|]. split; [reflexivity|].
  eexists. eexists. split; reflexivity.
Qed.

(** Against C2: the table of the commit found cannot be read, the asset
    is a player the current table values at 10000, and its
    [value_at_trade] is 0. *)
Lemma player_without_snapshot_not_valued_on_current_table :
  closest_commit default_validation one_snapshot (trade_date mahomes)
  = Ok (Some "abc1234def")
  /\ unreachable "abc1234def" = None
  /\ first_value contains_ci (asset_name mahomes) mock_dynasty_values = 10000
  /\ exists st' rec,
      fx_process_row unreachable one_snapshot mock_dynasty_values
        initial_state mahomes = Ok st'
      /\ cached_values st' = [rec]
      /\ value_at_trade rec = 0
      /\ value_at_trade rec
         <> first_value contains_ci (asset_name mahomes) mock_dynasty_values.
Proof.
  vm_compute. repeat split.
  eexists. eexists. repeat split; discriminate.
Qed.

(** Against C6: no snapshot within the window on either side of the
    trade date, and the caller of a player row does not turn to the
    current table, which has the player at 8000. *)
Lemma no_snapshot_in_window_player_gets_zero :
  closest_commit default_validation one_snapshot (trade_date jefferson)
  = Ok None
  /\ first_value contains_ci (asset_name jefferson) mock_dynasty_values = 8000
  /\ exists v v',
      value_asset contains_ci mock_pick_projections mock_draft_results
        jefferson None None mock_dynasty_values = Ok v
      /\ value_asset contains_ci mock_pick_projections mock_draft_results
           jefferson None (Some mock_dynasty_values) mock_dynasty_values
         = Ok v'
      /\ v_at_trade v = 0
      /\ v_source_at_trade v = "No Git commit"
      /\ v_at_trade v' = 8000.
Proof.
  vm_compute. repeat split.
  eexists. eexists. repeat split.
Qed.

(** Against C8: a label the parser accepts that is not the writing of
    its round, and the serialisation the valuator makes of round and
    slot, which is a key of the value table and not a label. *)
Lemma pick_label_reserialization_differs :
  parse_round "2025 Round 01" = Some 1
  /\ pick_label 2025 1 <> "2025 Round 01"
  /\ parse_round "2025 Round 1" = Some 1
  /\ exact_pick_name 1 5 = "2025 Pick 1.05"
  /\ exact_pick_name 1 5 <> "2025 Round 1".
Proof.
  vm_compute. repeat split; discriminate.
Qed.

(* ================================================================== *)
(** ** The memo table of the historical reads *)
(* ================================================================== *)

(** X5. The memo table of [get_values_from_commit]. A table read with
    success is kept under its commit: asking again answers from the memo,
    whatever a new read would give. A failed read is not kept, so it is
    tried again; a commit already in the memo is not read at all; and no
    call touches the entry of another commit. *)
Theorem memo_table_keeps_reads
    (read read' : string -> option (list ValueRow)) (commit_sha : string)
    (cache : gmap string (list ValueRow)) :
  let out := get_values_from_commit read commit_sha cache in
  (forall df, out.1 = Some df ->
     get_values_from_commit read' commit_sha out.2 = (Some df, out.2))
  /\ (out.1 = None ->
      out.2 = cache /\ read commit_sha = None /\ cache !! commit_sha = None)
  /\ (forall df, cache !! commit_sha = Some df -> out = (Some df, cache))
  /\ (forall other, other <> commit_sha -> out.2 !! other = cache !! other).
Proof.
  cbv zeta. unfold get_values_from_commit.
  destruct (cache !! commit_sha) as [df0|] eqn:Hmemo.
  - cbn [fst snd]. rewrite Hmemo. split; [|split; [|split]].
    + intros df [= <-]. reflexivity.
    + discriminate.
    + intros df [= <-]. reflexivity.
    + reflexivity.
  - destruct (read commit_sha) as [df0|] eqn:Hread; cbn [fst snd].
    + rewrite lookup_insert_eq. split; [|split; [|split]].
      * intros df [= <-]. reflexivity.
      * discriminate.
      * discriminate.
      * intros other Hne. apply lookup_insert_ne. congruence.
    + rewrite Hmemo. split; [|split; [|split]].
      * discriminate.
      * intros _. repeat split.
      * discriminate.
      * reflexivity.
Qed.

(* ================================================================== *)
(** ** The analysis of 2-team trades *)
(* ================================================================== *)

Lemma trade_of_update trade_id f trades other :
  Stage4.trade_of other (Stage4.update_trade trade_id f trades)
  = if String.eqb other trade_id
    then f <$> Stage4.trade_of trade_id trades
    else Stage4.trade_of other trades.
Proof.
  unfold Stage4.trade_of.
  induction trades as [|[k t] trades IH]; cbn [Stage4.update_trade find fst].
  - destruct (String.eqb other trade_id); reflexivity.
  - destruct (String.eqb other trade_id) eqn:E.
    + apply String.eqb_eq in E. subst other.
      destruct (String.eqb k trade_id) eqn:Hk; cbn [find fst]; rewrite Hk;
        [reflexivity | exact IH].
    + destruct (String.eqb k trade_id) eqn:Hk; cbn [find fst].
      * apply String.eqb_eq in Hk. subst k.
        rewrite String.eqb_sym, E. reflexivity.
      * destruct (String.eqb k other); [reflexivity | exact IH].
Qed.

Lemma trade_of_snoc trades trade_id t other :
  Stage4.trade_of other (trades ++ [(trade_id, t)])
  = match Stage4.trade_of other trades with
    | Some x => Some x
    | None => if String.eqb trade_id other then Some t else None
    end.
Proof.
  unfold Stage4.trade_of.
  induction trades as [|[k x] trades IH]; cbn [app find fst].
  - destruct (String.eqb trade_id other); reflexivity.
  - destruct (String.eqb k other); [reflexivity | exact IH].
Qed.

Lemma trade_of_add_row trades row other :
  Stage4.trade_of other (Stage4.add_row trades row)
  = if String.eqb other (r_trade_id row)
    then Some (Stage4.add_asset
                 (default (Stage4.new_trade row)
                    (Stage4.trade_of (r_trade_id row) trades)) row)
    else Stage4.trade_of other trades.
Proof.
  unfold Stage4.add_row. rewrite trade_of_update.
  destruct (String.eqb_spec other (r_trade_id row)) as [->|Hne].
  - destruct (Stage4.trade_of (r_trade_id row) trades) as [t|] eqn:E.
    + rewrite E. reflexivity.
    + rewrite trade_of_snoc, E, String.eqb_refl. reflexivity.
  - destruct (Stage4.trade_of (r_trade_id row) trades); [reflexivity|].
    rewrite trade_of_snoc.
    destruct (Stage4.trade_of other trades); [reflexivity|].
    destruct (String.eqb_spec (r_trade_id row) other); [congruence|reflexivity].
Qed.

Lemma trade_of_foldl df : forall trades trade_id,
  Stage4.trade_of trade_id (foldl Stage4.add_row trades df)
  = match List.filter (fun row => String.eqb (r_trade_id row) trade_id) df with
    | [] => Stage4.trade_of trade_id trades
    | f :: rs =>
        Some (foldl Stage4.add_asset
                (default (Stage4.new_trade f) (Stage4.trade_of trade_id trades))
                (f :: rs))
    end.
Proof.
  induction df as [|row df IH]; intros trades trade_id; [reflexivity|].
  cbn [foldl List.filter]. rewrite IH, trade_of_add_row.
  rewrite (String.eqb_sym trade_id).
  destruct (String.eqb_spec (r_trade_id row) trade_id) as [<-|Hne].
  - destruct (List.filter _ df); reflexivity.
  - reflexivity.
Qed.

Lemma update_trade_keys trade_id f trades :
  map fst (Stage4.update_trade trade_id f trades) = map fst trades.
Proof.
  induction trades as [|[k t] trades IH]; [reflexivity|].
  cbn [Stage4.update_trade]. destruct (String.eqb k trade_id); cbn; congruence.
Qed.

Lemma trade_of_none trades trade_id :
  Stage4.trade_of trade_id trades = None <-> ~ In trade_id (map fst trades).
Proof.
  unfold Stage4.trade_of.
  induction trades as [|[k t] trades IH]; cbn [find map fst In].
  - cbn. tauto.
  - destruct (String.eqb_spec k trade_id) as [->|Hne]; cbn.
    + split; [discriminate | tauto].
    + rewrite IH. tauto.
Qed.

Lemma trade_of_in trades trade_id t :
  NoDup (map fst trades) -> In (trade_id, t) trades ->
  Stage4.trade_of trade_id trades = Some t.
Proof.
  unfold Stage4.trade_of.
  induction trades as [|[k x] trades IH]; intros Hnd Hin; [destruct Hin|].
  cbn [map fst] in Hnd. apply NoDup_cons in Hnd as [Hk Hnd].
  cbn [find fst]. destruct Hin as [[= -> ->]|Hin].
  - rewrite String.eqb_refl. reflexivity.
  - destruct (String.eqb_spec k trade_id) as [->|Hne]; [|apply IH; assumption].
    exfalso. apply Hk, list_elem_of_In.
    change trade_id with (fst (trade_id, t)). apply in_map, Hin.
Qed.

Lemma collect_trades_keys df : forall trades,
  NoDup (map fst trades) ->
  NoDup (map fst (foldl Stage4.add_row trades df))
  /\ forall trade_id,
       In trade_id (map fst (foldl Stage4.add_row trades df))
       <-> In trade_id (map fst trades) \/ In trade_id (map r_trade_id df).
Proof.
  induction df as [|row df IH]; intros trades Hnd.
  - cbn. split; [exact Hnd | tauto].
  - cbn [foldl map].
    assert (Hkeys : map fst (Stage4.add_row trades row)
                    = match Stage4.trade_of (r_trade_id row) trades with
                      | None => map fst trades ++ [r_trade_id row]
                      | Some _ => map fst trades
                      end).
    { unfold Stage4.add_row. rewrite update_trade_keys.
      destruct (Stage4.trade_of (r_trade_id row) trades);
        [reflexivity | apply map_app]. }
    assert (Hnd' : NoDup (map fst (Stage4.add_row trades row))).
    { rewrite Hkeys.
      destruct (Stage4.trade_of (r_trade_id row) trades) eqn:E; [exact Hnd|].
      apply trade_of_none in E. apply NoDup_app. split; [exact Hnd|].
      split; [|apply NoDup_singleton].
      intros x Hx Hx'. apply list_elem_of_In in Hx.
      apply list_elem_of_In in Hx'. destruct Hx' as [<-|[]]. contradiction. }
    destruct (IH _ Hnd') as [Hnd'' Hmem]. split; [exact Hnd''|].
    intros trade_id. rewrite Hmem, Hkeys.
    destruct (Stage4.trade_of (r_trade_id row) trades) eqn:E.
    + assert (Hin : In (r_trade_id row) (map fst trades)).
      { destruct (in_dec string_dec (r_trade_id row) (map fst trades))
          as [Hin|Hnot]; [exact Hin|].
        apply trade_of_none in Hnot. congruence. }
      cbn [In]. intuition (subst; auto).
    + rewrite in_app_iff. cbn [In]. intuition (subst; auto).
Qed.

(** What the rows of one trade add up to, from the second row on. *)
Lemma add_assets_named rows : forall t a,
  Stage4.roster_a t = Some a ->
  let t' := foldl Stage4.add_asset t rows in
  let to_a := List.filter (fun row => String.eqb (r_receiving_team row) a) rows in
  let to_b :=
    List.filter (fun row => negb (String.eqb (r_receiving_team row) a)) rows in
  Stage4.roster_a t' = Some a
  /\ Stage4.roster_b t' = Stage4.roster_b t
  /\ Stage4.t_trade_date t' = Stage4.t_trade_date t
  /\ Stage4.team_a_value_then t'
     = Stage4.team_a_value_then t + total value_at_trade to_a
  /\ Stage4.team_a_value_now t'
     = Stage4.team_a_value_now t + total value_current to_a
  /\ Stage4.team_b_value_then t'
     = Stage4.team_b_value_then t + total value_at_trade to_b
  /\ Stage4.team_b_value_now t'
     = Stage4.team_b_value_now t + total value_current to_b
  /\ Stage4.team_a_assets t'
     = Stage4.team_a_assets t ++ map r_asset_name to_a
  /\ Stage4.team_b_assets t'
     = Stage4.team_b_assets t ++ map r_asset_name to_b.
Proof.
  induction rows as [|row rows IH]; intros t a Ha.
  - cbn. unfold total. cbn. rewrite !app_nil_r.
    repeat split; try assumption; lia.
  - cbn [foldl List.filter].
    assert (Hnamed : Stage4.name_rosters t row = t).
    { unfold Stage4.name_rosters. rewrite Ha. reflexivity. }
    assert (Hstep : Stage4.roster_a (Stage4.add_asset t row) = Some a).
    { unfold Stage4.add_asset. rewrite Hnamed.
      destruct (bool_decide _); exact Ha. }
    destruct (IH _ _ Hstep) as (H1 & H2 & H3 & H4 & H5 & H6 & H7 & H8 & H9).
    cbv zeta. rewrite H1, H2, H3, H4, H5, H6, H7, H8, H9.
    unfold Stage4.add_asset. rewrite Hnamed, Ha.
    destruct (String.eqb_spec (r_receiving_team row) a) as [->|Hne].
    + rewrite bool_decide_eq_true_2 by reflexivity.
      unfold total. cbn. rewrite <- !app_assoc. repeat split; lia.
    + rewrite bool_decide_eq_false_2 by congruence.
      unfold total. cbn. rewrite <- !app_assoc. repeat split; lia.
Qed.

Lemma total_split {A} (f : A -> Z) (p : A -> bool) l :
  total f l
  = total f (List.filter p l) + total f (List.filter (fun x => negb (p x)) l).
Proof.
  unfold total. induction l as [|x l IH]; [reflexivity|].
  cbn [List.filter map fold_right]. destruct (p x); cbn; lia.
Qed.

(** The accumulated dictionary of a trade, from its rows. *)
Lemma trade_from_rows f rs :
  let rows := f :: rs in
  let a := r_receiving_team f in
  let t := foldl Stage4.add_asset (Stage4.new_trade f) rows in
  let to_a := List.filter (fun row => String.eqb (r_receiving_team row) a) rows in
  let to_b :=
    List.filter (fun row => negb (String.eqb (r_receiving_team row) a)) rows in
  Stage4.roster_a t = Some a
  /\ Stage4.roster_b t = Some (r_giving_team f)
  /\ Stage4.t_trade_date t = r_trade_date f
  /\ Stage4.team_a_value_then t = total value_at_trade to_a
  /\ Stage4.team_a_value_now t = total value_current to_a
  /\ Stage4.team_b_value_then t = total value_at_trade to_b
  /\ Stage4.team_b_value_now t = total value_current to_b
  /\ Stage4.team_a_assets t = map r_asset_name to_a
  /\ Stage4.team_b_assets t = map r_asset_name to_b.
Proof.
  cbv zeta. cbn [foldl List.filter]. rewrite String.eqb_refl. cbn [negb].
  set (t1 := Stage4.add_asset (Stage4.new_trade f) f).
  assert (Ht1 : Stage4.roster_a t1 = Some (r_receiving_team f)
                /\ Stage4.roster_b t1 = Some (r_giving_team f)
                /\ Stage4.t_trade_date t1 = r_trade_date f
                /\ Stage4.team_a_value_then t1 = value_at_trade f
                /\ Stage4.team_a_value_now t1 = value_current f
                /\ Stage4.team_b_value_then t1 = 0
                /\ Stage4.team_b_value_now t1 = 0
                /\ Stage4.team_a_assets t1 = [r_asset_name f]
                /\ Stage4.team_b_assets t1 = []).
  { unfold t1, Stage4.add_asset. cbn.
    rewrite bool_decide_eq_true_2 by reflexivity. cbn. repeat split; lia. }
  destruct Ht1 as (Ha & Hb & Hd & H1 & H2 & H3 & H4 & H5 & H6).
  destruct (add_assets_named rs t1 _ Ha)
    as (G1 & G2 & G3 & G4 & G5 & G6 & G7 & G8 & G9).
  rewrite G1, G2, G3, G4, G5, G6, G7, G8, G9, Hb, Hd, H1, H2, H3, H4, H5, H6.
  unfold total. cbn. repeat split; lia.
Qed.

Lemma analysis_rows df results :
  Stage4.analyze_2team_trades df = Ok results ->
  results ≡ₚ map Stage4.analyse (Stage4.collect_trades df)
  /\ results <> [].
Proof.
  unfold Stage4.analyze_2team_trades.
  destruct (map Stage4.analyse (Stage4.collect_trades df)) as [|r rs] eqn:E;
    [discriminate|].
  intros [= <-]. split; [apply merge_sort_Permutation|].
  intros Hnil.
  pose proof (merge_sort_Permutation Stage4.by_swing (r :: rs)) as Hp.
  rewrite Hnil in Hp. apply Permutation_nil_l in Hp. discriminate.
Qed.

Lemma analysis_row_of_trade df results r :
  Stage4.analyze_2team_trades df = Ok results ->
  In r results ->
  exists t,
    Stage4.trade_of (Stage4.transaction_id r) (Stage4.collect_trades df)
    = Some t
    /\ r = Stage4.analyse (Stage4.transaction_id r, t).
Proof.
  intros Hrun Hin. destruct (analysis_rows df results Hrun) as [Hperm _].
  apply list_elem_of_In in Hin. rewrite Hperm in Hin.
  apply list_elem_of_In, in_map_iff in Hin as ([k t] & <- & Hkv).
  exists t. split; [|reflexivity]. cbn [Stage4.analyse Stage4.transaction_id fst].
  apply trade_of_in; [|exact Hkv].
  apply (collect_trades_keys df []). constructor.
Qed.

Lemma by_swing_total : Total Stage4.by_swing.
Proof. intros x y. unfold Stage4.by_swing. lia. Qed.

Lemma by_swing_transitive : Transitive Stage4.by_swing.
Proof. intros x y z. unfold Stage4.by_swing. lia. Qed.

Lemma analysis_of_rows df :
  df <> [] -> exists r rs,
    map Stage4.analyse (Stage4.collect_trades df) = r :: rs.
Proof.
  intros Hne. destruct df as [|row df]; [contradiction|].
  destruct (map Stage4.analyse (Stage4.collect_trades (row :: df)))
    as [|r rs] eqn:E; [|eauto].
  apply map_eq_nil in E.
  destruct (collect_trades_keys (row :: df) []) as [_ Hmem]; [constructor|].
  specialize (Hmem (r_trade_id row)).
  unfold Stage4.collect_trades in E. rewrite E in Hmem.
  exfalso. apply (proj2 Hmem). right. left. reflexivity.
Qed.

(** X19. [analyze_2team_trades] fails with [KeyError] on a cache without
    rows, and on no other input. On a cache with rows it returns one row
    per trade id of the cache, no id twice and none invented, in
    descending order of the swing margin. *)
Theorem analysis_has_one_row_per_trade df :
  match Stage4.analyze_2team_trades df with
  | Ok results =>
      df <> []
      /\ NoDup (map Stage4.transaction_id results)
      /\ (forall id, In id (map Stage4.transaction_id results)
                     <-> In id (map r_trade_id df))
      /\ StronglySorted Stage4.by_swing results
  | Raise e => df = [] /\ e = KeyError
  end.
Proof.
  destruct df as [|row df]; [split; reflexivity|].
  destruct (analysis_of_rows (row :: df)) as (r & rs & E); [discriminate|].
  unfold Stage4.analyze_2team_trades. rewrite E.
  pose proof (merge_sort_Permutation Stage4.by_swing (r :: rs)) as Hperm.
  assert (Hids : map Stage4.transaction_id (merge_sort Stage4.by_swing (r :: rs))
                 ≡ₚ map fst (Stage4.collect_trades (row :: df))).
  { rewrite Hperm, <- E, map_map. reflexivity. }
  destruct (collect_trades_keys (row :: df) []) as [Hnd Hmem]; [constructor|].
  split; [discriminate|]. split; [|split].
  - rewrite Hids. exact Hnd.
  - intros id. rewrite <- !list_elem_of_In, Hids, !list_elem_of_In.
    unfold Stage4.collect_trades. rewrite Hmem. cbn [map In]. tauto.
  - apply (@StronglySorted_merge_sort _ _ _ by_swing_transitive by_swing_total).
Qed.

(** X20. The two sides of an analysed trade. Team A is the receiver of
    the trade's first row in the cache and team B that row's giver. Team
    A is credited with the rows it receives; every other row of the
    trade is credited to team B, whoever receives it. Names are joined in
    the order of the cache, and the two sides add up to the whole
    trade. *)
Theorem analysis_sides df results r :
  Stage4.analyze_2team_trades df = Ok results ->
  In r results ->
  exists f rs,
    let rows := f :: rs in
    let to_a :=
      List.filter
        (fun row => String.eqb (r_receiving_team row) (r_receiving_team f))
        rows in
    let to_b :=
      List.filter
        (fun row =>
           negb (String.eqb (r_receiving_team row) (r_receiving_team f)))
        rows in
    List.filter
      (fun row => String.eqb (r_trade_id row) (Stage4.transaction_id r)) df
    = rows
    /\ Stage4.a_trade_date r = r_trade_date f
    /\ Stage4.team_a r = Some (r_receiving_team f)
    /\ Stage4.team_b r = Some (r_giving_team f)
    /\ Stage4.team_a_received r = Stage4.join " | " (map r_asset_name to_a)
    /\ Stage4.team_b_received r = Stage4.join " | " (map r_asset_name to_b)
    /\ Stage4.a_value_then r = total value_at_trade to_a
    /\ Stage4.a_value_now r = total value_current to_a
    /\ Stage4.b_value_then r = total value_at_trade to_b
    /\ Stage4.b_value_now r = total value_current to_b
    /\ Stage4.a_value_then r + Stage4.b_value_then r
       = total value_at_trade rows
    /\ Stage4.a_value_now r + Stage4.b_value_now r
       = total value_current rows.
Proof.
  intros Hrun Hin.
  destruct (analysis_row_of_trade df results r Hrun Hin) as (t & Ht & Hr).
  unfold Stage4.collect_trades in Ht. rewrite trade_of_foldl in Ht.
  destruct (List.filter _ df) as [|f rs] eqn:E; [discriminate|].
  change (Stage4.trade_of (Stage4.transaction_id r) []) with (@None Stage4.trade)
    in Ht.
  change (default (Stage4.new_trade f) None) with (Stage4.new_trade f) in Ht.
  injection Ht as Ht.
  pose proof (trade_from_rows f rs) as G. cbv zeta in G.
  cbn [foldl] in G, Ht. rewrite Ht in G.
  destruct G as (G1 & G2 & G3 & G4 & G5 & G6 & G7 & G8 & G9).
  exists f, rs. cbv zeta.
  rewrite (total_split value_at_trade
             (fun row => String.eqb (r_receiving_team row) (r_receiving_team f))
             (f :: rs)).
  rewrite (total_split value_current
             (fun row => String.eqb (r_receiving_team row) (r_receiving_team f))
             (f :: rs)).
  rewrite Hr. cbn [Stage4.analyse Stage4.a_trade_date Stage4.team_a
    Stage4.team_b Stage4.team_a_received Stage4.team_b_received
    Stage4.a_value_then Stage4.a_value_now Stage4.b_value_then
    Stage4.b_value_now snd].
  rewrite G1, G2, G3, G4, G5, G6, G7, G8, G9.
  repeat split; reflexivity.
Qed.

(** X21. The swing of an analysed trade. The swing margin is the absolute
    change of the gap between the sides, whichever side led at trade
    time, and never exceeds the two margins together. The swing winner is
    "Tie" exactly when the gap did not change, else the current winner.
    A side wins only by strictly more value: a draw goes to team B. *)
Theorem analysis_swing df results r :
  Stage4.analyze_2team_trades df = Ok results ->
  In r results ->
  let gap_then := Stage4.a_value_then r - Stage4.b_value_then r in
  let gap_now := Stage4.a_value_now r - Stage4.b_value_now r in
  Stage4.swing_margin r = Z.abs (gap_now - gap_then)
  /\ Stage4.swing_margin r
     <= Stage4.margin_at_trade r + Stage4.margin_current r
  /\ Stage4.swing_winner r
     = (if gap_now =? gap_then then Some "Tie" else Stage4.winner_current r)
  /\ Stage4.winner_at_trade r
     = (if 0 <? gap_then then Stage4.team_a r else Stage4.team_b r)
  /\ Stage4.winner_current r
     = (if 0 <? gap_now then Stage4.team_a r else Stage4.team_b r).
Proof.
  intros Hrun Hin.
  destruct (analysis_row_of_trade df results r Hrun Hin) as (t & _ & ->).
  cbn [Stage4.analyse Stage4.a_value_then Stage4.b_value_then
    Stage4.a_value_now Stage4.b_value_now Stage4.swing_margin
    Stage4.margin_at_trade Stage4.margin_current Stage4.swing_winner
    Stage4.winner_at_trade Stage4.winner_current Stage4.team_a Stage4.team_b
    snd fst].
  cbv zeta.
  destruct (Z.ltb_spec (Stage4.team_b_value_then t) (Stage4.team_a_value_then t)),
    (Z.ltb_spec (Stage4.team_b_value_now t) (Stage4.team_a_value_now t)),
    (Z.ltb_spec 0 (Stage4.team_a_value_then t - Stage4.team_b_value_then t)),
    (Z.ltb_spec 0 (Stage4.team_a_value_now t - Stage4.team_b_value_now t));
    try lia;
    repeat match goal with
    | |- context [?a =? ?b] => destruct (Z.eqb_spec a b)
    end;
    repeat split; try reflexivity; try lia.
Qed.

(** X22. The output check of stage 4 accepts every analysis that
    [analyze_2team_trades] returns: the margin it recomputes is the one
    the analysis wrote, and a cache without rows has already failed in
    the analysis. *)
Theorem analysis_passes_output_check df results :
  Stage4.analyze_2team_trades df = Ok results ->
  Stage4.validate_stage4_output results = Stage4.Passed.
Proof.
  intros Hrun. destruct (analysis_rows df results Hrun) as [_ Hne].
  unfold Stage4.validate_stage4_output.
  destruct results as [|r0 rest]; [contradiction|].
  destruct (find Stage4.margin_off (firstn 5 (r0 :: rest))) as [bad|] eqn:E;
    [|reflexivity].
  exfalso. apply find_some in E as [Hin Hoff].
  assert (Hin' : In bad (r0 :: rest)).
  { rewrite <- (firstn_skipn 5 (r0 :: rest)). apply in_or_app. left. exact Hin. }
  destruct (analysis_row_of_trade df _ bad Hrun Hin') as (t & _ & Hbad).
  rewrite Hbad in Hoff. unfold Stage4.margin_off in Hoff.
  cbn [Stage4.analyse Stage4.a_value_then Stage4.b_value_then
    Stage4.margin_at_trade snd] in Hoff.
  rewrite Z.sub_diag in Hoff. discriminate.
Qed.

(* ================================================================== *)
(** ** The further properties on the fixtures *)
(* ================================================================== *)

Lemma origin_mapping_is_linear_witness :
  PickOrigin.get_pick_origin_owner 3 7 = PickOrigin.get_pick_origin_owner 1 7
  /\ 1 <= PickRoster.get_pick_origin_roster 3 7 <= 12
  /\ PickOrigin.get_pick_origin_owner 5 7 = "UNKNOWN_R5P7"
  /\ PickRoster.get_pick_origin_roster 5 7 = 0.
Proof.
  destruct (origin_mapping_is_linear 3 7) as [Hin _].
  destruct (origin_mapping_is_linear 5 7) as [_ Hout].
  destruct Hin as (H1 & H2 & _); [lia | lia |].
  destruct Hout as (H3 & H4); [lia|].
  split; [exact H1|]. split; [exact H2|]. split; [exact H3 | exact H4].
Defined.

Lemma lineage_has_one_entry_witness :
  lineage_of mock_draft_results (CStr "jwalters74") 1 = [bowers_lineage]
  /\ (List.length (lineage_of mock_draft_results (CStr "jwalters74") 1)
      <= 1)%nat.
Proof.
  split; [vm_compute; reflexivity|].
  apply (lineage_has_one_entry mock_draft_results (CStr "jwalters74") 1).
  - intros row [<-|[<-|[<-|[]]]]; cbn; lia.
  - apply (bool_decide_unpack _). vm_compute. reflexivity.
Defined.

Lemma closest_commit_within_window_witness :
  closest_commit default_validation one_snapshot "2025-10-20"
  = Ok (Some "abc1234def")
  /\ (one_snapshot !! "2025-10-20" = Some "abc1234def"
      \/ exists trade_dt k,
           PyDate.strptime "2025-10-20" = Some trade_dt
           /\ 1 <= Z.abs k <= 7
           /\ snapshot_at one_snapshot trade_dt k = Some (Some "abc1234def")).
Proof.
  split; [vm_compute; reflexivity|].
  apply (closest_commit_within_window default_validation one_snapshot
           "2025-10-20" "abc1234def").
  vm_compute. reflexivity.
Defined.

Lemma closest_commit_edges_witness :
  closest_commit default_validation one_snapshot "20 Oct 2025"
  = Raise ValueError
  /\ closest_commit no_window one_snapshot "2025-10-20" = Ok None.
Proof.
  destruct (closest_commit_edges default_validation one_snapshot "20 Oct 2025")
    as [Hbad _]; [reflexivity|].
  destruct (closest_commit_edges no_window one_snapshot "2025-10-20")
    as [_ Hnone]; [reflexivity|].
  split.
  - apply Hbad. vm_compute. reflexivity.
  - apply Hnone; [eexists; vm_compute; reflexivity | cbn; lia].
Defined.

Lemma current_season_valuator_failures_witness :
  get_2025_pick_value contains_ci mock_draft_results "Mid 1st"
    (CStr "jwalters74") "20 Oct 2025" mock_dynasty_values false
  = Ok (0, "Parse error", None)
  /\ get_2025_pick_value contains_ci mock_draft_results "2025 Round 1"
       (CStr "jwalters74") "20 Oct 2025" mock_dynasty_values false
     = Raise ValueError.
Proof.
  destruct (current_season_valuator_failures contains_ci mock_draft_results
              "Mid 1st" (CStr "jwalters74") "20 Oct 2025"
              mock_dynasty_values false) as (Hround & Hparse & _ & _).
  destruct (current_season_valuator_failures contains_ci mock_draft_results
              "2025 Round 1" (CStr "jwalters74") "20 Oct 2025"
              mock_dynasty_values false) as (_ & _ & Hraise & Hkind).
  split.
  - apply Hparse, Hround. vm_compute. reflexivity.
  - destruct (proj2 Hraise) as [e He].
    + split; [eexists; vm_compute; reflexivity | vm_compute; reflexivity].
    + rewrite He. f_equal. apply Hkind, He.
Defined.

Lemma future_valuator_failures_witness :
  get_2026_plus_pick_value contains_ci mock_pick_projections "2026 Round 1"
    (CStr "Manager A") "20 Oct 2025" mock_dynasty_values
  = Raise ValueError
  /\ get_2026_plus_pick_value contains_ci mock_pick_projections "2026 1st"
       (CStr "Manager A") "2025-10-20" mock_dynasty_values
     = Ok (0, "Parse error", None)
  /\ get_2026_plus_pick_value contains_ci mock_pick_projections
       "2026 Round first" (CStr "Manager A") "2025-10-20"
       mock_dynasty_values
     = Raise ValueError.
Proof.
  destruct (future_valuator_failures contains_ci mock_pick_projections
              "2026 Round 1" (CStr "Manager A") "20 Oct 2025"
              mock_dynasty_values) as (Hdate & _ & _).
  destruct (future_valuator_failures contains_ci mock_pick_projections
              "2026 1st" (CStr "Manager A") "2025-10-20"
              mock_dynasty_values) as (_ & Hshape & _).
  destruct (future_valuator_failures contains_ci mock_pick_projections
              "2026 Round first" (CStr "Manager A") "2025-10-20"
              mock_dynasty_values) as (_ & _ & Hround).
  split; [|split].
  - apply Hdate. vm_compute. reflexivity.
  - apply Hshape; [eexists; vm_compute; reflexivity|].
    intros y rt rest H. vm_compute in H. discriminate.
  - apply (Hround ltac:(eexists; vm_compute; reflexivity) "2026" "first" []);
      vm_compute; reflexivity.
Defined.

Lemma week_column_round_trip_witness :
  week_column 7 "2nd" = "Week7_2026_2nd"
  /\ match_week_column "2nd" "Week7_2026_2nd" = Some 7
  /\ match_week_column "2nd" "Week7_2026_2nd_old" = Some 7.
Proof.
  split; [reflexivity|].
  apply (week_column_round_trip 2 "2nd" "_old" 7); [reflexivity | lia].
Defined.

Lemma latest_week_is_maximum_witness :
  get_available_weeks sparse_projections "2nd" = [7; 12]
  /\ get_latest_week_column sparse_projections "2nd"
     = Ok ("Week12_2026_2nd", 12)
  /\ get_available_weeks sparse_projections "1st" = []
  /\ get_best_week_column sparse_projections "1st" 7 = Raise ValueError.
Proof.
  destruct (latest_week_is_maximum sparse_projections "2nd")
    as (_ & _ & Hsome).
  destruct (latest_week_is_maximum sparse_projections "1st")
    as (_ & Hnone & _).
  split; [vm_compute; reflexivity|]. split; [|split].
  - destruct Hsome as (m & Hm & _ & _); [vm_compute; discriminate|].
    rewrite Hm. vm_compute in Hm. injection Hm as _ <-. reflexivity.
  - vm_compute. reflexivity.
  - apply Hnone. vm_compute. reflexivity.
Defined.

Lemma projection_value_or_key_error_witness :
  get_2026_plus_pick_value contains_ci mock_pick_projections "2026 Round 2"
    (CStr "Manager A") "2025-10-20" mock_dynasty_values
  = Ok (800, "Projection:Week7_2nd",
        Some [("week", MInt 7); ("target_week", MInt 7);
              ("origin", MStr "Manager A"); ("round", MStr "2nd");
              ("column_used", MStr "Week7_2026_2nd")])
  /\ get_2026_plus_pick_value contains_ci padded_projections "2026 Round 2"
       (CStr "Manager A") "2025-10-20" mock_dynasty_values
     = Raise KeyError.
Proof.
  split.
  - apply (projection_value_or_key_error contains_ci mock_pick_projections
             "2026 Round 2" "Manager A" "2025-10-20" mock_dynasty_values
             (mk_datetime 2025 10 20) "2026" "2" [] 2 "2nd"
             {| team := "Manager A";
                cells := [ ("Week2_2026_1st", 3500); ("Week7_2026_1st", 2800);
                           ("Week7_2026_2nd", 800); ("Week7_2026_3rd", 300);
                           ("Week7_2026_4th", 100) ] |} []
             "Week7_2026_2nd" 7);
      try discriminate; vm_compute; reflexivity.
  - apply (projection_value_or_key_error contains_ci padded_projections
             "2026 Round 2" "Manager A" "2025-10-20" mock_dynasty_values
             (mk_datetime 2025 10 20) "2026" "2" [] 2 "2nd"
             {| team := "Manager A"; cells := [ ("Week07_2026_2nd", 800) ] |}
             [] "Week7_2026_2nd" 7);
      try discriminate; vm_compute; reflexivity.
Defined.

Lemma loop_counter_skips_faab_witness :
  exists st,
    process_rows contains_ci mock_pick_projections mock_draft_results
      default_validation snapshot ∅ mock_dynasty_values initial_state
      [jefferson; faab0; faab50] = Ok st
    /\ map value_at_trade (cached_values st) = [0; 0; 50]
    /\ zero_value_count st = 1
    /\ zero_at_trade (cached_values st) = 2.
Proof.
  destruct (process_rows contains_ci mock_pick_projections mock_draft_results
              default_validation snapshot ∅ mock_dynasty_values initial_state
              [jefferson; faab0; faab50]) as [st|e] eqn:Hrun;
    [|vm_compute in Hrun; discriminate].
  destruct (loop_counter_skips_faab contains_ci mock_pick_projections
              mock_draft_results default_validation snapshot ∅
              mock_dynasty_values [jefferson; faab0; faab50] st Hrun)
    as (Hloop & Hgate & _).
  exists st. split; [reflexivity|].
  vm_compute in Hrun. injection Hrun as <-.
  split; [reflexivity|]. split; [exact Hloop|].
  rewrite Hgate, Hloop. reflexivity.
Defined.

Lemma records_mirror_rows_witness :
  exists cached,
    fx_cache_asset_values no_commits snapshot [jefferson; faab50] = Ok cached
    /\ map r_asset_name cached = ["Justin Jefferson"; "$50 FAAB"]
    /\ map r_trade_id cached = ["trade_001"; "trade_001"].
Proof.
  destruct (fx_cache_asset_values no_commits snapshot [jefferson; faab50])
    as [cached|e] eqn:Hrun; [|vm_compute in Hrun; discriminate].
  pose proof (records_mirror_rows contains_ci mock_pick_projections
                mock_draft_results default_validation
                (Some mock_dynasty_values) earliest no_commits snapshot
                [jefferson; faab50] cached Hrun) as Hmirror.
  exists cached. split; [reflexivity|].
  inversion Hmirror as [|r1 a1 l1 l1' H1 Hrest]; subst.
  inversion Hrest as [|r2 a2 l2 l2' H2 Hnil]; subst.
  inversion Hnil; subst.
  destruct H1 as (N1 & _ & _ & I1 & _). destruct H2 as (N2 & _ & _ & I2 & _).
  cbn [map]. rewrite N1, N2, I1, I2. split; reflexivity.
Defined.

Lemma current_table_unreachable_is_fatal_witness :
  cache_asset_values contains_ci mock_pick_projections mock_draft_results
    default_validation None earliest one_commit snapshot [jefferson; faab50]
  = Raise APIError
  /\ main contains_ci mock_pick_projections mock_draft_results
       default_validation (Some []) earliest one_commit snapshot stale_world
     = (stale_world, Raise APIError).
Proof.
  split.
  - apply (current_table_unreachable_is_fatal contains_ci
             mock_pick_projections mock_draft_results default_validation
             None earliest one_commit snapshot stale_world
             [jefferson; faab50]).
    left. reflexivity.
  - apply (current_table_unreachable_is_fatal contains_ci
             mock_pick_projections mock_draft_results default_validation
             (Some []) earliest one_commit snapshot stale_world
             [jefferson; faab50]).
    + right. reflexivity.
    + reflexivity.
    + reflexivity.
Defined.

Lemma tier_functions_agree_witness :
  PickTier.get_tier_name 5 = "Mid"
  /\ PickTier.get_value 9 <= PickTier.get_value 5.
Proof.
  destruct (tier_functions_agree 5) as (_ & Hmid & _ & _ & Hmono).
  split; [apply Hmid; lia | apply Hmono; lia].
Defined.


Lemma memo_table_keeps_reads_witness :
  get_values_from_commit snapshot "abc1234def" ∅
  = (Some mock_dynasty_values, {[ "abc1234def" := mock_dynasty_values ]})
  /\ get_values_from_commit unreachable "abc1234def"
       {[ "abc1234def" := mock_dynasty_values ]}
     = (Some mock_dynasty_values, {[ "abc1234def" := mock_dynasty_values ]})
  /\ (get_values_from_commit unreachable "abc1234def" ∅).2 = ∅.
Proof.
  destruct (memo_table_keeps_reads snapshot unreachable "abc1234def" ∅)
    as (Hkept & _ & _ & _).
  destruct (memo_table_keeps_reads unreachable unreachable "abc1234def" ∅)
    as (_ & Hfailed & _ & _).
  split; [reflexivity|]. split.
  - apply (Hkept mock_dynasty_values). reflexivity.
  - apply Hfailed. reflexivity.
Defined.

Lemma analysis_sides_witness :
  exists first_trade second_trade,
    Stage4.analyze_2team_trades two_trades = Ok [first_trade; second_trade]
    /\ Stage4.transaction_id second_trade = "1002"
    /\ Stage4.team_a second_trade = Some "Manager C"
    /\ Stage4.team_b second_trade = Some "Manager D"
    /\ Stage4.team_a_received second_trade = "Josh Allen"
    /\ Stage4.team_b_received second_trade = "Patrick Mahomes | Brock Bowers"
    /\ Stage4.a_value_then second_trade = 9500
    /\ Stage4.b_value_then second_trade = 3550.
Proof.
  destruct (Stage4.analyze_2team_trades two_trades) as [results|e] eqn:Hrun;
    [|vm_compute in Hrun; discriminate].
  assert (Hids : map Stage4.transaction_id results = ["1001"; "1002"]).
  { vm_compute in Hrun. injection Hrun as <-. reflexivity. }
  destruct results as [|r1 [|r2 [|]]]; try discriminate.
  injection Hids as _ Hid.
  destruct (analysis_sides two_trades [r1; r2] r2 Hrun)
    as (f & rs & Hrows & _ & Ha & Hb & Hra & Hrb & Hat & _ & Hbt & _);
    [right; left; reflexivity|].
  rewrite Hid in Hrows. vm_compute in Hrows. injection Hrows as <- <-.
  exists r1, r2. split; [reflexivity|]. split; [exact Hid|].
  split; [exact Ha|]. split; [exact Hb|]. split; [exact Hra|].
  split; [exact Hrb|]. split; [exact Hat | exact Hbt].
Defined.

Lemma analysis_swing_witness :
  exists first_trade second_trade,
    Stage4.analyze_2team_trades two_trades = Ok [first_trade; second_trade]
    /\ Stage4.a_value_then first_trade - Stage4.b_value_then first_trade = 2070
    /\ Stage4.a_value_now first_trade - Stage4.b_value_now first_trade = 4500
    /\ Stage4.swing_margin first_trade = 2430
    /\ Stage4.swing_winner first_trade = Stage4.winner_current first_trade.
Proof.
  destruct (Stage4.analyze_2team_trades two_trades) as [results|e] eqn:Hrun;
    [|vm_compute in Hrun; discriminate].
  assert (Hvals : map (fun r => (Stage4.a_value_then r, Stage4.b_value_then r,
                                 Stage4.a_value_now r, Stage4.b_value_now r))
                    results
                  = [(7500, 5430, 8000, 3500); (9500, 3550, 9000, 4050)]).
  { vm_compute in Hrun. injection Hrun as <-. reflexivity. }
  destruct results as [|r1 [|r2 [|]]]; try discriminate.
  injection Hvals as H1 H2 H3 H4 _.
  destruct (analysis_swing two_trades [r1; r2] r1 Hrun)
    as (Hswing & _ & Hwinner & _ & _); [left; reflexivity|].
  rewrite H1, H2, H3, H4 in Hswing, Hwinner.
  exists r1, r2. split; [reflexivity|].
  rewrite H1, H2, H3, H4. split; [reflexivity|]. split; [reflexivity|].
  split; [exact Hswing | exact Hwinner].
Defined.

Lemma analysis_passes_output_check_witness :
  exists results,
    Stage4.analyze_2team_trades mock_cached_values = Ok results
    /\ Stage4.validate_stage4_output results = Stage4.Passed.
Proof.
  destruct (Stage4.analyze_2team_trades mock_cached_values)
    as [results|e] eqn:Hrun; [|vm_compute in Hrun; discriminate].
  exists results. split; [reflexivity|].
  apply (analysis_passes_output_check mock_cached_values results Hrun).
Defined.
